(** * Weather-station provider comparison

    A shallow embedding of [scripts/check_weather_stations.py] and the
    properties checked on it.

    Conventions of the embedding.
    - A Python [float] is read as the number it denotes: coordinates and stored
      distances are rationals ([Q]), the haversine formula is evaluated over the
      reals ([R]).  Binary rounding of arithmetic, overflow, NaN and the
      infinities are not part of the model.
    - A decoded JSON document is a [json] tree; Python's dynamic typing shows up
      as operations that return a [result] (a value or a raised exception).
    - The network is an oracle [net] from requests to responses; every request
      an adapter sends and every line it prints is recorded in a trace.
    - A loop body is evaluated to a [result]: the exception it raises, [None]
      when it skips the record, or the station it appends; [loop_step] then
      performs the append on the adapter's list.
    - [str()] of a value and [float()] of a text belong to the Python runtime
      and are parameters of the adapters. *)

From Stdlib Require Import ZArith QArith Qround Qabs Qreals Reals Psatz Bool List String Ascii.
From Stdlib Require Import DecimalString DecimalN Sorted Permutation.
From stdpp Require Import base gmap strings list sets.

Set Warnings "-register-all,-clear-no-such-hyp".

(** ** GeoMath: great-circle distance (source lines 48-71) *)

Module GeoMath.

Local Open Scope R_scope.

(** [math.radians] *)
Definition radians (deg : R) : R := deg * PI / 180.

(** [haversine_distance(lat1, lon1, lat2, lon2)], read over the real numbers. *)
Definition haversine_distance (lat1 lon1 lat2 lon2 : R) : R :=
  let lat1 := radians lat1 in
  let lon1 := radians lon1 in
  let lat2 := radians lat2 in
  let lon2 := radians lon2 in
  let dlat := lat2 - lat1 in
  let dlon := lon2 - lon1 in
  let a := (sin (dlat / 2)) ^ 2 + cos lat1 * cos lat2 * (sin (dlon / 2)) ^ 2 in
  let c := 2 * asin (sqrt a) in
  let r := 6371 in
  c * r.

End GeoMath.

(** ** The Python values the script handles *)

Module Py.

(** A decoded JSON document, as [response.json()] returns it.  A [JStr] is a
    text whose characters are single [ascii] code points; a [JObj] lists the
    items of a dict in insertion order, its keys pairwise distinct. *)
Inductive json : Type :=
| JNull
| JBool (b : bool)
| JInt (z : Z)
| JFloat (q : Q)
| JStr (s : string)
| JArr (items : list json)
| JObj (items : list (string * json)).

Inductive exn : Type :=
| TypeError | ValueError | AttributeError | KeyError | IndexError
| ZeroDivisionError | RequestException | HTTPError | JSONDecodeError.

(** The outcome of evaluating an expression: its value, or the exception raised. *)
Inductive result (A : Type) : Type :=
| Ok (a : A)
| Raise (e : exn).
Arguments Ok {A} a.
Arguments Raise {A} e.

Definition rbind {A B} (r : result A) (k : A -> result B) : result B :=
  match r with
  | Ok a => k a
  | Raise e => Raise e
  end.

Declare Scope result_scope.
Delimit Scope result_scope with res.
Notation "x <- m ;; k" := (rbind m (fun x => k))
  (at level 100, m at next level, right associativity) : result_scope.

(** [bool(v)], as [not v] tests it. *)
Definition truthy (v : json) : bool :=
  match v with
  | JNull => false
  | JBool b => b
  | JInt z => negb (z =? 0)%Z
  | JFloat q => negb (Qeq_bool q 0)
  | JStr s => negb (String.eqb s "")
  | JArr items => negb (Nat.eqb (List.length items) 0)
  | JObj items => negb (Nat.eqb (List.length items) 0)
  end.

Definition is_none (v : json) : bool :=
  match v with
  | JNull => true
  | _ => false
  end.

Fixpoint assoc (key : string) (items : list (string * json)) : option json :=
  match items with
  | [] => None
  | (k, v) :: rest => if String.eqb k key then Some v else assoc key rest
  end.

(** [v.get(key, default)]: only a dict has the method. *)
Definition py_get (v : json) (key : string) (default : json) : result json :=
  match v with
  | JObj items =>
      Ok (match assoc key items with
          | Some x => x
          | None => default
          end)
  | _ => Raise AttributeError
  end.

(** The items a [for] loop over [v] visits: the elements of a list, the keys of
    a dict, the characters of a text; anything else is not iterable. *)
Definition py_iter (v : json) : result (list json) :=
  match v with
  | JArr items => Ok items
  | JObj items => Ok (List.map (fun kv => JStr (fst kv)) items)
  | JStr s => Ok (List.map (fun c => JStr (String c EmptyString)) (list_ascii_of_string s))
  | _ => Raise TypeError
  end.

(** [len(v)] *)
Definition py_len (v : json) : result nat :=
  match v with
  | JArr items => Ok (List.length items)
  | JObj items => Ok (List.length items)
  | JStr s => Ok (String.length s)
  | _ => Raise TypeError
  end.

(** [v[i]] for a literal index [i]. *)
Definition py_index (v : json) (i : nat) : result json :=
  match v with
  | JArr items =>
      match List.nth_error items i with
      | Some x => Ok x
      | None => Raise IndexError
      end
  | JStr s =>
      match String.get i s with
      | Some c => Ok (JStr (String c EmptyString))
      | None => Raise IndexError
      end
  | JObj _ => Raise KeyError
  | _ => Raise TypeError
  end.

Definition Q_of_bool (b : bool) : Q := if b then 1 else 0.

(** The conversion [math.radians] applies to its argument: real numbers only. *)
Definition as_real (v : json) : result Q :=
  match v with
  | JFloat q => Ok q
  | JInt z => Ok (inject_Z z)
  | JBool b => Ok (Q_of_bool b)
  | _ => Raise TypeError
  end.

(** The builtin [float(v)]; [float_of_str] is the runtime's reading of a text,
    [None] when it raises [ValueError]. *)
Definition py_float (float_of_str : string -> option Q) (v : json) : result Q :=
  match v with
  | JStr s =>
      match float_of_str s with
      | Some q => Ok q
      | None => Raise ValueError
      end
  | JNull | JArr _ | JObj _ => Raise TypeError
  | _ => as_real v
  end.

End Py.
Export Py.

(** ** Rounding and fixed-point formatting *)

Module Num.

(** The largest integer not above [x]. *)
Definition Rfloor (x : R) : Z := (up x - 1)%Z.

(** Round-half-to-even over the reals, the rule of the builtin [round]. *)
Definition Rround_half_even (x : R) : Z :=
  let f := Rfloor x in
  let d := (x - IZR f)%R in
  if Rlt_dec d (1 / 2) then f
  else if Rlt_dec (1 / 2) d then (f + 1)%Z
  else if Z.even f then f else (f + 1)%Z.

(** [round(x, 1)]: the nearest multiple of one tenth. *)
Definition round1 (x : R) : Q := Rround_half_even (10 * x) # 10.

(** Round-half-to-even over the rationals, the rule of the [f] format. *)
Definition Qround_half_even (q : Q) : Z :=
  let f := Qfloor q in
  match (q - inject_Z f ?= 1 # 2)%Q with
  | Lt => f
  | Gt => (f + 1)%Z
  | Eq => if Z.even f then f else (f + 1)%Z
  end.

Definition decimal (n : N) : string := NilEmpty.string_of_uint (N.to_uint n).

Definition digit (n : N) : ascii := ascii_of_N (48 + n mod 10).

(** The four digits of [n < 10000], zero-padded. *)
Definition frac4 (n : N) : string :=
  String (digit (n / 1000)) (String (digit (n / 100)) (String (digit (n / 10))
    (String (digit n) EmptyString))).

(** The number of ten-thousandths [|x|] rounds to. *)
Definition scaled4 (x : Q) : N := Z.to_N (Qround_half_even (Qabs x * 10000)).

Definition is_negative (x : Q) : bool :=
  match (x ?= 0)%Q with
  | Lt => true
  | _ => false
  end.

(** [f"{x:.4f}"]: sign, integer part, point, four decimals. *)
Definition format_4f (x : Q) : string :=
  let k := scaled4 x in
  ((if is_negative x then "-" else "") ++ decimal (k / 10000) ++ "." ++ frac4 (k mod 10000))%string.

End Num.
Export Num.

(** ** Stations, requests and the adapters' effects *)

(** The dict an adapter appends for an admitted station.  ['lat'] and ['lon']
    hold the number the haversine call read from the record. *)
Record station : Type := {
  name : json;
  lat : Q;
  lon : Q;
  distance_km : Q
}.

Module Http.

(** The value of a query parameter: a text, or the text of four floats joined
    by commas (kept as the four numbers it prints). *)
Inductive param : Type :=
| PText (s : string)
| PBox (a b c d : R).

(** One call of [requests.get]: the address and the query parameters (the
    headers and the timeout are the same in every call and left out). *)
Record request : Type := {
  url : string;
  params : list (string * param)
}.

(** What the call returned; [body] is [None] when the text is not JSON. *)
Record response : Type := {
  status_code : Z;
  body : option json
}.

(** The lines the script prints, one constructor per kind of [print]:
    a fixed text; [f"{what}: {e}"] of an [except] clause; the total of unique
    stations; the count of one provider; the header of the table and the rule
    below it, both made from the provider names; the row of one station, with
    its name cut to 30 characters, its distance and one mark per provider. *)
Inductive line : Type :=
| Line (text : string)
| ErrorLine (what : string) (e : exn)
| TotalLine (n : nat)
| CountLine (provider_name : string) (n : nat)
| HeaderLine (provider_names : list string)
| RuleLine (provider_names : list string)
| RowLine (row_name : string) (distance : Q) (checks : list bool).

Inductive event : Type :=
| Requested (req : request)
| Printed (l : line).

End Http.
Export Http.

(** The state an adapter runs in: its local list [stations] and what the run
    has sent and printed so far. *)
Record state : Type := {
  stations : list station;
  trace : list event
}.

(** A computation of an adapter: it reads and changes the state, and yields a
    value or raises. *)
Definition M (A : Type) : Type := state -> result A * state.

Definition ret {A} (a : A) : M A := fun s => (Ok a, s).

Definition raise {A} (e : exn) : M A := fun s => (Raise e, s).

Definition bind {A B} (m : M A) (k : A -> M B) : M B :=
  fun s =>
    match m s with
    | (Ok a, s') => k a s'
    | (Raise e, s') => (Raise e, s')
    end.

Declare Scope py_scope.
Delimit Scope py_scope with py.
Notation "x <- m ;; k" := (bind m (fun x => k))
  (at level 100, m at next level, right associativity) : py_scope.
Notation "m ;; k" := (bind m (fun _ => k))
  (at level 100, right associativity) : py_scope.
Local Open Scope py_scope.

Definition lift {A} (r : result A) : M A :=
  match r with
  | Ok a => ret a
  | Raise e => raise e
  end.

(** [stations.append(st)] *)
Definition append (st : station) : M unit :=
  fun s => (Ok tt, {| stations := stations s ++ [st]; trace := trace s |}).

(** [print(l)] *)
Definition print (l : line) : M unit :=
  fun s => (Ok tt, {| stations := stations s; trace := trace s ++ [Printed l] |}).

(** [return stations] *)
Definition return_stations : M (list station) := fun s => (Ok (stations s), s).

(** What a loop body evaluates to. *)
Definition loop_result : Type := result (option station).

(** One pass through a loop body that was evaluated to [r]: the exception it
    raised, nothing (the record was skipped), or the [append] of its station. *)
Definition loop_step (r : loop_result) : M unit :=
  match r with
  | Raise e => raise e
  | Ok None => ret tt
  | Ok (Some st) => append st
  end.

(** [for x in items: body(x)]; an exception leaves the loop. *)
Fixpoint for_each {A} (items : list A) (body : A -> M unit) : M unit :=
  match items with
  | [] => ret tt
  | x :: rest => body x ;; for_each rest body
  end.

(** [try: body / except Exception as e: print(f"{what}: {e}")] *)
Definition try_except (what : string) (body : M unit) : M unit :=
  fun s =>
    match body s with
    | (Ok _, s') => (Ok tt, s')
    | (Raise e, s') => print (ErrorLine what e) s'
    end.

(** A call of an adapter: [stations = []] and an empty trace at entry. *)
Definition run {A} (m : M A) : result A * list event :=
  let '(r, s) := m {| stations := []; trace := [] |} in (r, trace s).

(** [x / y] on floats. *)
Definition py_div (x y : R) : result R :=
  if Req_dec_T y 0 then Raise ZeroDivisionError else Ok (x / y)%R.

Definition Qleb (x y : Q) : bool := Qle_bool x y.

(** ** API configuration (source lines 27-42) *)

Definition FFVL_API_KEY : string := "12fbb9720455a2abb825c29233ac8bd0".
Definition FFVL_BASE_URL : string := "https://data.ffvl.fr/api/".
Definition PIOUPIOU_BASE_URL : string := "http://api.pioupiou.fr/v1".
Definition AWC_METAR_URL : string := "https://aviationweather.gov/api/data/metar".
Definition NWS_BASE_URL : string := "https://api.weather.gov".
Definition SEARCH_RADIUS_KM : Q := 50.

(** ** Weather provider queries (source lines 131-336) *)

Section Adapters.

(** The network: what [requests.get] returns for a request, [None] when the
    call itself raises (no connection, timeout, unusable URL). *)
Variable net : request -> option response.
(** [float(text)] and [str(value)] of the Python runtime. *)
Variable float_of_str : string -> option Q.
Variable py_str : json -> string.

Definition requests_get (req : request) : M response :=
  fun s =>
    let s' := {| stations := stations s; trace := trace s ++ [Requested req] |} in
    match net req with
    | Some response => (Ok response, s')
    | None => (Raise RequestException, s')
    end.

(** [response.raise_for_status()]: a 4xx or 5xx status raises. *)
Definition raise_for_status (response : response) : M unit :=
  if ((400 <=? status_code response) && (status_code response <? 600))%Z
  then raise HTTPError else ret tt.

(** [response.json()] *)
Definition response_json (response : response) : M json :=
  match body response with
  | Some data => ret data
  | None => raise JSONDecodeError
  end.

(** [haversine_distance(lat, lon, a, b)] on the numbers [a] and [b]. *)
Definition distance_to (lat lon a b : Q) : R :=
  GeoMath.haversine_distance (Q2R lat) (Q2R lon) (Q2R a) (Q2R b).

(** The tail every loop body shares: the station to append when it is in
    range, [None] when it is not. *)
Definition admit_station (lat lon radius_km : Q) (station_lat station_lon : Q)
    (get_name : result json) : loop_result :=
  let distance := distance_to lat lon station_lat station_lon in
  if Rle_dec distance (Q2R radius_km) then
    (nm <- get_name ;;
     Ok (Some {| name := nm; lat := station_lat; lon := station_lon;
                 distance_km := round1 distance |}))%res
  else Ok None.

Definition ffvl_request : request :=
  {| url := FFVL_BASE_URL;
     params := [("base", PText "balises"); ("r", PText "list");
                ("mode", PText "json"); ("key", PText FFVL_API_KEY)]%string |}.

(** The body of the loop over the beacons. *)
Definition ffvl_beacon (lat lon radius_km : Q) (beacon : json) : loop_result :=
  (la <- py_get beacon "latitude" (JInt 0) ;;
   beacon_lat <- py_float float_of_str la ;;
   lo <- py_get beacon "longitude" (JInt 0) ;;
   beacon_lon <- py_float float_of_str lo ;;
   admit_station lat lon radius_km beacon_lat beacon_lon
     (py_get beacon "nom" (JStr "Unknown")))%res.

Definition query_ffvl_body (lat lon radius_km : Q) : M (list station) :=
  if negb (truthy (JStr FFVL_API_KEY)) || String.eqb FFVL_API_KEY "your_ffvl_api_key_here"
  then
    print (Line "Warning: FFVL API key not configured") ;;
    return_stations
  else
    try_except "Error querying FFVL"
      (response <- requests_get ffvl_request ;;
       raise_for_status response ;;
       data <- response_json response ;;
       beacons <- lift (py_iter data) ;;
       for_each beacons (fun beacon => loop_step (ffvl_beacon lat lon radius_km beacon))) ;;
    return_stations.

Definition query_ffvl (lat lon radius_km : Q) : result (list station) * list event :=
  run (query_ffvl_body lat lon radius_km).

Definition pioupiou_request : request :=
  {| url := (PIOUPIOU_BASE_URL ++ "/live-with-meta/all")%string; params := [] |}.

Definition pioupiou_station (lat lon radius_km : Q) (station : json) : loop_result :=
  (station_meta <- py_get station "meta" (JObj []) ;;
   station_lat <- py_get station_meta "latitude" JNull ;;
   station_lon <- py_get station_meta "longitude" JNull ;;
   if is_none station_lat || is_none station_lon then Ok None
   else
     a <- as_real station_lat ;;
     b <- as_real station_lon ;;
     admit_station lat lon radius_km a b
       (id <- py_get station "id" (JStr "Unknown") ;;
        py_get station_meta "name" (JStr ("Pioupiou " ++ py_str id)%string)))%res.

Definition query_pioupiou_body (lat lon radius_km : Q) : M (list station) :=
  try_except "Error querying Pioupiou"
    (response <- requests_get pioupiou_request ;;
     raise_for_status response ;;
     data <- response_json response ;;
     records <- lift (py_get data "data" (JArr [])) ;;
     items <- lift (py_iter records) ;;
     for_each items (fun station => loop_step (pioupiou_station lat lon radius_km station))) ;;
  return_stations.

Definition query_pioupiou (lat lon radius_km : Q) : result (list station) * list event :=
  run (query_pioupiou_body lat lon radius_km).

(** The divisor of the longitude delta: [111.0 * math.cos(math.radians(lat))]. *)
Definition lon_divisor (lat : Q) : R := (111 * cos (GeoMath.radians (Q2R lat)))%R.

(** The bounding box of the METAR query: [lat_delta], then [lon_delta], whose
    division raises when the divisor is zero. *)
Definition bounding_box (lat lon radius_km : Q) : result param :=
  let lat_delta := (Q2R radius_km / 111)%R in
  rbind (py_div (Q2R radius_km) (lon_divisor lat)) (fun lon_delta =>
  Ok (PBox (Q2R lat - lat_delta) (Q2R lon - lon_delta)
           (Q2R lat + lat_delta) (Q2R lon + lon_delta))).

Definition awc_request (bbox : param) : request :=
  {| url := AWC_METAR_URL; params := [("bbox", bbox); ("format", PText "json")]%string |}.

Definition awc_station (lat lon radius_km : Q) (station : json) : loop_result :=
  (station_lat <- py_get station "lat" JNull ;;
   station_lon <- py_get station "lon" JNull ;;
   if is_none station_lat || is_none station_lon then Ok None
   else
     a <- as_real station_lat ;;
     b <- as_real station_lon ;;
     admit_station lat lon radius_km a b
       (nm <- py_get station "name" (JStr "Unknown") ;;
        icao <- py_get station "icaoId" (JStr "N/A") ;;
        Ok (JStr (py_str nm ++ " (" ++ py_str icao ++ ")")%string)))%res.

Definition query_awc_metar_body (lat lon radius_km : Q) : M (list station) :=
  try_except "Error querying AWC METAR"
    (bbox <- lift (bounding_box lat lon radius_km) ;;
     response <- requests_get (awc_request bbox) ;;
     raise_for_status response ;;
     data <- response_json response ;;
     items <- lift (py_iter data) ;;
     for_each items (fun station => loop_step (awc_station lat lon radius_km station))) ;;
  return_stations.

Definition query_awc_metar (lat lon radius_km : Q) : result (list station) * list event :=
  run (query_awc_metar_body lat lon radius_km).

(** The three envelopes of the quick geographic check of [query_nws]. *)
Definition in_continental_us (lat lon : Q) : bool :=
  Qleb (-125) lon && Qleb lon (-67) && Qleb 24 lat && Qleb lat 50.
Definition in_alaska (lat lon : Q) : bool :=
  Qleb (-180) lon && Qleb lon (-130) && Qleb 51 lat && Qleb lat 72.
Definition in_hawaii (lat lon : Q) : bool :=
  Qleb (-178) lon && Qleb lon (-154) && Qleb 18 lat && Qleb lat 29.
Definition nws_covers (lat lon : Q) : bool :=
  in_continental_us lat lon || in_alaska lat lon || in_hawaii lat lon.

Definition nws_points_request (lat lon : Q) : request :=
  {| url := (NWS_BASE_URL ++ "/points/" ++ format_4f lat ++ "," ++ format_4f lon)%string;
     params := [] |}.

(** [requests.get(stations_url)]: a value that is not a text is no URL, and the
    call raises before anything is sent. *)
Definition requests_get_url (stations_url : json) : M response :=
  match stations_url with
  | JStr s => requests_get {| url := s; params := [] |}
  | _ => raise RequestException
  end.

Definition nws_station (lat lon radius_km : Q) (station_url : json) : loop_result :=
  (station_props <- py_get station_url "properties" (JObj []) ;;
   geometry <- py_get station_url "geometry" (JObj []) ;;
   coords <- py_get geometry "coordinates" (JArr []) ;;
   n <- py_len coords ;;
   if (n <? 2)%nat then Ok None
   else
     station_lon <- py_index coords 0 ;;
     station_lat <- py_index coords 1 ;;
     a <- as_real station_lat ;;
     b <- as_real station_lon ;;
     admit_station lat lon radius_km a b
       (py_get station_props "name" (JStr "Unknown")))%res.

Definition query_nws_body (lat lon radius_km : Q) : M (list station) :=
  if negb (nws_covers lat lon) then return_stations
  else
    try_except "Error querying NWS"
      (response <- requests_get (nws_points_request lat lon) ;;
       if (status_code response =? 404)%Z then ret tt
       else
         raise_for_status response ;;
         data <- response_json response ;;
         properties <- lift (py_get data "properties" (JObj [])) ;;
         stations_url <- lift (py_get properties "observationStations" JNull) ;;
         if negb (truthy stations_url) then ret tt
         else
           response <- requests_get_url stations_url ;;
           raise_for_status response ;;
           stations_data <- response_json response ;;
           features <- lift (py_get stations_data "features" (JArr [])) ;;
           items <- lift (py_iter features) ;;
           for_each items (fun station_url => loop_step (nws_station lat lon radius_km station_url))) ;;
    return_stations.

Definition query_nws (lat lon radius_km : Q) : result (list station) * list event :=
  run (query_nws_body lat lon radius_km).

Definition bom_covers (lat lon : Q) : bool :=
  Qleb 113 lon && Qleb lon 154 && Qleb (-44) lat && Qleb lat (-10).

Definition query_bom_body (lat lon radius_km : Q) : M (list station) :=
  if negb (bom_covers lat lon) then return_stations
  else
    print (Line "Note: BOM provider requires state-specific queries (not implemented in this script)") ;;
    return_stations.

Definition query_bom (lat lon radius_km : Q) : result (list station) * list event :=
  run (query_bom_body lat lon radius_km).

End Adapters.

(** ** Main script, steps 3 to 5 (source lines 399-453) *)

(** [f"{station['lat']:.4f},{station['lon']:.4f}"] *)
Definition station_key (st : station) : string :=
  (format_4f (lat st) ++ "," ++ format_4f (lon st))%string.

(** The two dicts of step 3: [station_providers], a [defaultdict(set)], and
    [all_stations], whose items are kept in insertion order. *)
Record aggregation : Type := {
  station_providers : gmap string (gset string);
  all_stations : list (string * station)
}.

(** [station_providers[key]], which a [defaultdict] reads as the empty set
    when [key] is absent. *)
Definition observed_by (sp : gmap string (gset string)) (key : string) : gset string :=
  default ∅ (sp !! key).

(** [key in all_stations] *)
Definition has_key (key : string) (d : list (string * station)) : bool :=
  existsb (fun kv => String.eqb (fst kv) key) d.

(** The body of the inner loop of step 3. *)
Definition add_station (provider_name : string) (agg : aggregation) (st : station)
    : aggregation :=
  let key := station_key st in
  {| station_providers :=
       <[key := observed_by (station_providers agg) key ∪ {[provider_name]}]>
         (station_providers agg);
     all_stations :=
       if has_key key (all_stations agg) then all_stations agg
       else all_stations agg ++ [(key, st)] |}.

Definition add_provider (agg : aggregation) (provider : string * list station)
    : aggregation :=
  fold_left (add_station (fst provider)) (snd provider) agg.

(** Step 3 over [providers.items()]. *)
Definition aggregate (providers : list (string * list station)) : aggregation :=
  fold_left add_provider providers {| station_providers := ∅; all_stations := [] |}.

Definition Qltb (x y : Q) : bool := negb (Qle_bool y x).

(** [sorted(items, key=distance_km)]: Python's sort is stable, and a stable
    sort has one result; it is computed here by insertion, an item going
    before the first one whose distance is strictly larger. *)
Fixpoint insert_by_distance (x : string * station) (l : list (string * station))
    : list (string * station) :=
  match l with
  | [] => [x]
  | y :: rest =>
      if Qltb (distance_km (snd x)) (distance_km (snd y)) then x :: y :: rest
      else y :: insert_by_distance x rest
  end.

Definition sorted_by_distance (items : list (string * station)) : list (string * station) :=
  fold_left (fun acc x => insert_by_distance x acc) items [].

(** [station['name'][:30]] as the row prints it: a text is cut to 30
    characters, any other value makes the row raise. *)
Definition row_name (v : json) : result string :=
  match v with
  | JStr s => Ok (String.substring 0 30 s)
  | _ => Raise TypeError
  end.

Definition row_checks (sp : gmap string (gset string)) (provider_names : list string)
    (key : string) : list bool :=
  List.map (fun provider_name => bool_decide (provider_name ∈ observed_by sp key)) provider_names.

(** The row loop: the lines printed, and the exception that stopped it if any. *)
Fixpoint print_rows (sp : gmap string (gset string)) (provider_names : list string)
    (sorted_stations : list (string * station)) : result unit * list line :=
  match sorted_stations with
  | [] => (Ok tt, [])
  | (key, st) :: rest =>
      match row_name (name st) with
      | Raise e => (Raise e, [])
      | Ok nm =>
          let '(r, ls) := print_rows sp provider_names rest in
          (r, RowLine nm (distance_km st) (row_checks sp provider_names key) :: ls)
      end
  end.

Definition rule80 : string :=
  "================================================================================".

Definition summary_lines (providers : list (string * list station)) (agg : aggregation)
    : list line :=
  [Line "📊 Results Summary:"; TotalLine (List.length (all_stations agg))]
  ++ List.map (fun p => CountLine (fst p) (List.length (snd p))) providers
  ++ [Line ""].

Definition no_stations_line : line :=
  Line "ℹ️  No weather stations found within 50km radius.".

(** Steps 3 to 5 on the dict [providers]. *)
Definition report (providers : list (string * list station)) : result unit * list line :=
  let agg := aggregate providers in
  let summary := summary_lines providers agg in
  match all_stations agg with
  | [] => (Ok tt, summary ++ [no_stations_line])
  | _ :: _ =>
      let sorted_stations := sorted_by_distance (all_stations agg) in
      let provider_names := List.map fst providers in
      let '(r, rows) := print_rows (station_providers agg) provider_names sorted_stations in
      (r, summary
          ++ [Line ""; Line rule80; Line "Markdown Table: Station Availability by Provider";
              Line rule80; Line ""; HeaderLine provider_names; RuleLine provider_names]
          ++ rows
          ++ match r with
             | Ok _ => [Line ""]
             | Raise _ => []
             end)
  end.

Definition is_table_line (l : line) : bool :=
  match l with
  | HeaderLine _ | RuleLine _ | RowLine _ _ _ => true
  | _ => false
  end.

(** ** Main script, step 2 onwards (source lines 388-453) *)

Section Main.

Variable net : request -> option response.
Variable float_of_str : string -> option Q.
Variable py_str : json -> string.

(** Evaluate one entry of the [providers] dict literal, then go on. *)
Definition call_provider (q : result (list station) * list event)
    (k : list station -> result unit * list event) : result unit * list event :=
  match q with
  | (Ok sts, t) => let '(r, t') := k sts in (r, t ++ t')
  | (Raise e, t) => (Raise e, t)
  end.

(** [main] once the target [(lat, lon)] is known. *)
Definition main_from (lat lon : Q) : result unit * list event :=
  call_provider (Ok [], [Printed (Line "🌐 Querying weather station providers..."); Printed (Line "")])
    (fun _ =>
  call_provider (query_ffvl net float_of_str lat lon SEARCH_RADIUS_KM) (fun ffvl =>
  call_provider (query_pioupiou net py_str lat lon SEARCH_RADIUS_KM) (fun pioupiou =>
  call_provider (query_awc_metar net py_str lat lon SEARCH_RADIUS_KM) (fun awc_metar =>
  call_provider (query_nws net lat lon SEARCH_RADIUS_KM) (fun nws =>
  call_provider (query_bom lat lon SEARCH_RADIUS_KM) (fun bom =>
    let providers :=
      [("FFVL Beacons", ffvl); ("Pioupiou", pioupiou); ("AWC METAR", awc_metar);
       ("NWS", nws); ("BOM", bom)]%string in
    let '(r, ls) := report providers in
    (r, List.map Printed ls))))))).

End Main.


(** * Notions used to state the properties *)

(** ** Texts *)

Fixpoint string_forallb (P : ascii -> bool) (s : string) : bool :=
  match s with
  | EmptyString => true
  | String a rest => P a && string_forallb P rest
  end.

Definition is_digit (a : ascii) : bool :=
  ((48 <=? N_of_ascii a) && (N_of_ascii a <=? 57))%N.

Definition is_not (c : ascii) (a : ascii) : bool := negb (Ascii.eqb a c).

(** ** Outcomes of an adapter *)

Definition is_ok {A} (r : result A) : Prop :=
  match r with
  | Ok _ => True
  | Raise _ => False
  end.

(** What [raise_for_status] and [json()] make of a response. *)
Definition decode (r : response) : result json :=
  if ((400 <=? status_code r) && (status_code r <? 600))%Z then Raise HTTPError
  else match body r with
       | Some data => Ok data
       | None => Raise JSONDecodeError
       end.

(** What [requests.get], [raise_for_status] and [json()] deliver in a row. *)
Definition fetch (net : request -> option response) (req : request) : result json :=
  match net req with
  | Some r => decode r
  | None => Raise RequestException
  end.

(** The stations a loop has appended to [acc] when it ends, and the exception
    that ended it early, if any. *)
Fixpoint collect (f : json -> loop_result) (items : list json) (acc : list station)
    : list station * option exn :=
  match items with
  | [] => (acc, None)
  | x :: rest =>
      match f x with
      | Raise e => (acc, Some e)
      | Ok None => collect f rest acc
      | Ok (Some st) => collect f rest (acc ++ [st])
      end
  end.

(** The stations admitted from [items], up to the first record that raises. *)
Definition admitted (f : json -> loop_result) (items : list json) : list station :=
  fst (collect f items []).

(** No record of [items] raises. *)
Definition all_parse (f : json -> loop_result) (items : list json) : Prop :=
  snd (collect f items []) = None.

(** The diagnostic of an [except] clause. *)
Definition diagnostic (what : string) (oe : option exn) : list event :=
  match oe with
  | Some e => [Printed (ErrorLine what e)]
  | None => []
  end.

(** An adapter that failed before its loop: nothing found, one diagnostic. *)
Definition failed (what : string) (e : exn) (sent : list event)
    : result (list station) * list event :=
  (Ok [], sent ++ diagnostic what (Some e)).

(** An adapter that reached its loop over [items]. *)
Definition looped (what : string) (f : json -> loop_result) (items : list json)
    (sent : list event) : result (list station) * list event :=
  (Ok (fst (collect f items [])), sent ++ diagnostic what (snd (collect f items []))).

(** The list an adapter's loop runs over, as its fetch and the lookups before
    the loop deliver it. *)
Definition ffvl_items (net : request -> option response) : result (list json) :=
  (data <- fetch net ffvl_request ;; py_iter data)%res.

Definition pioupiou_items (net : request -> option response) : result (list json) :=
  (data <- fetch net pioupiou_request ;;
   records <- py_get data "data" (JArr []) ;;
   py_iter records)%res.

Definition awc_items (net : request -> option response) (bbox : param) : result (list json) :=
  (data <- fetch net (awc_request bbox) ;; py_iter data)%res.

Definition nws_listing_request (u : string) : request := {| url := u; params := [] |}.

Definition nws_items (net : request -> option response) (u : string) : result (list json) :=
  (stations_data <- fetch net (nws_listing_request u) ;;
   features <- py_get stations_data "features" (JArr []) ;;
   py_iter features)%res.

(** The first step of [query_nws]: [None] when the grid point answers 404,
    else the address of the station list or the exception raised on the way. *)
Definition nws_grid_point (net : request -> option response) (lat lon : Q)
    : option (result json) :=
  match net (nws_points_request lat lon) with
  | None => Some (Raise RequestException)
  | Some r =>
      if (status_code r =? 404)%Z then None
      else Some (data <- decode r ;;
                 properties <- py_get data "properties" (JObj []) ;;
                 py_get properties "observationStations" JNull)%res
  end.

(** How an adapter whose outcome is [q] contains the failures of a run in which
    it has sent [sent] and its loop, of body [f], was to run over [items]:
    it returns a list whatever happens; a failure before the loop gives the
    empty list and one diagnostic; a loop in which no record raises gives the
    stations admitted and no diagnostic; a record that raises ends the loop,
    and the stations admitted before it are returned with the diagnostic. *)
Definition failure_contained (q : result (list station) * list event) (what : string)
    (sent : list event) (f : json -> loop_result) (items : result (list json)) : Prop :=
  is_ok (fst q) /\
  (forall e, items = Raise e -> q = (Ok [], sent ++ [Printed (ErrorLine what e)])) /\
  (forall l, items = Ok l -> all_parse f l -> q = (Ok (admitted f l), sent)) /\
  (forall pre bad post e,
      items = Ok (pre ++ bad :: post) -> all_parse f pre -> f bad = Raise e ->
      q = (Ok (admitted f pre), sent ++ [Printed (ErrorLine what e)])).

(** The point [(lat, lon)] lies in the envelope with the given bounds. *)
Definition in_envelope (lat lon : Q) (min_lon max_lon min_lat max_lat : Q) : Prop :=
  (min_lon <= lon /\ lon <= max_lon /\ min_lat <= lat /\ lat <= max_lat)%Q.


(** The station lies within [radius_km] of the target, and its [distance_km]
    is that distance rounded to one decimal. *)
Definition in_range (target_lat target_lon radius_km : Q) (st : station) : Prop :=
  (distance_to target_lat target_lon (lat st) (lon st) <= Q2R radius_km)%R /\
  distance_km st = round1 (distance_to target_lat target_lon (lat st) (lon st)).

(** ** Aggregation and report *)

(** Provider [p] lists station [st] in the dict [providers]. *)
Definition reports (providers : list (string * list station)) (p : string) (st : station)
    : Prop :=
  exists sts, In (p, sts) providers /\ In st sts.

(** The keys of [all_stations], as a set. *)
Definition station_keys (agg : aggregation) : gset string :=
  list_to_set (List.map fst (all_stations agg)).

(** The record kept for [key] in [all_stations]. *)
Definition representative (agg : aggregation) (key : string) : option station :=
  snd <$> List.find (fun kv => String.eqb (fst kv) key) (all_stations agg).

Definition item_distance (x : string * station) : Q := distance_km (snd x).

(** [x] is listed no farther than [y]. *)
Definition by_distance (x y : string * station) : Prop :=
  (item_distance x <= item_distance y)%Q.

(** The item is at distance [d]. *)
Definition at_distance (d : Q) (x : string * station) : bool :=
  Qeq_bool (item_distance x) d.

(** The distances of the station rows among printed lines, in order. *)
Fixpoint row_distances (ls : list line) : list Q :=
  match ls with
  | [] => []
  | RowLine _ d _ :: rest => d :: row_distances rest
  | _ :: rest => row_distances rest
  end.

(** * Sample data *)

(** ** A runtime *)

Fixpoint split_dot (s : string) : string * option string :=
  match s with
  | EmptyString => (EmptyString, None)
  | String c rest =>
      if Ascii.eqb c "." then (EmptyString, Some rest)
      else let '(a, b) := split_dot rest in (String c a, b)
  end.

Definition unsigned_literal (s : string) : option Q :=
  let '(int_part, frac) := split_dot s in
  let frac_part := default EmptyString frac in
  match NilEmpty.uint_of_string int_part, NilEmpty.uint_of_string frac_part with
  | Some i, Some f =>
      if String.eqb int_part "" && String.eqb frac_part "" then None
      else
        let scale := (10 ^ Z.of_nat (String.length frac_part))%Z in
        Some ((Z.of_N (N.of_uint i) * scale + Z.of_N (N.of_uint f)) # Z.to_pos scale)
  | _, _ => None
  end.

(** [float(text)] on plain decimal literals ([-45.9], [+7], [.5]); it reads
    nothing else. *)
Definition literal_float (s : string) : option Q :=
  match s with
  | String "-" rest => option_map Qopp (unsigned_literal rest)
  | String "+" rest => unsigned_literal rest
  | _ => unsigned_literal s
  end.

(** [str(value)] on texts, integers, booleans and [None]; numbers with a
    fraction and containers are outside what the samples print. *)
Definition literal_str (v : json) : string :=
  match v with
  | JStr s => s
  | JInt z => ((if (z <? 0)%Z then "-" else "") ++ decimal (Z.abs_N z))%string
  | JBool true => "True"
  | JBool false => "False"
  | JNull => "None"
  | JFloat q => format_4f q
  | JArr _ => "[...]"
  | JObj _ => "{...}"
  end.

(** ** Beacons and networks *)

(** A network in which only the beacon list answers, with the given status
    and beacons. *)
Definition beacon_network (status : Z) (beacons : list json) (req : request)
    : option response :=
  if String.eqb (url req) FFVL_BASE_URL
  then Some {| status_code := status; body := Some (JArr beacons) |}
  else None.

(** A beacon at the target [(45.9, 6.9)], and one whose latitude is [null]. *)
Definition beacon_annecy : json :=
  JObj [("nom", JStr "Col de la Forclaz"); ("latitude", JFloat (459 # 10));
        ("longitude", JFloat (69 # 10))]%string.
Definition beacon_broken : json :=
  JObj [("nom", JStr "Semnoz"); ("latitude", JNull); ("longitude", JFloat (61 # 10))]%string.

Definition station_annecy : station :=
  {| name := JStr "Col de la Forclaz"; lat := 459 # 10; lon := 69 # 10;
     distance_km := 0 # 10 |}.

(** The FFVL API sends its coordinates as texts. *)
Definition beacon_annecy_text : json :=
  JObj [("nom", JStr "Col de la Forclaz"); ("latitude", JStr "45.9");
        ("longitude", JStr "6.9")]%string.


(** A beacon 2^-11 degrees north of the target [(0, 0)], about 54 metres. *)
Definition beacon_close : json :=
  JObj [("nom", JStr "Equator"); ("latitude", JFloat (1 # 2048)); ("longitude", JInt 0)]%string.

Definition station_close : station :=
  {| name := JStr "Equator"; lat := 1 # 2048; lon := 0; distance_km := 1 # 10 |}.

(** A community wind station whose [meta] has no longitude. *)
Definition pioupiou_no_longitude : json :=
  JObj [("id", JInt 7); ("meta", JObj [("name", JStr "Piou"); ("latitude", JFloat 0)])]%string.

(** ** Stations and provider results *)

(** Two records 2^-15 degrees of latitude apart, on both sides of 0.00005. *)
Definition near_station_a : station :=
  {| name := JStr "A"; lat := 1 # 32768; lon := 69 # 10; distance_km := 0 |}.
Definition near_station_b : station :=
  {| name := JStr "B"; lat := 1 # 16384; lon := 69 # 10; distance_km := 0 |}.

(** Two records 0.38 degrees of latitude apart. *)
Definition far_station_a : station :=
  {| name := JStr "A"; lat := 4592 # 100; lon := 691 # 100; distance_km := 23 # 10 |}.
Definition far_station_b : station :=
  {| name := JStr "C"; lat := 463 # 10; lon := 7; distance_km := 451 # 10 |}.

(** Two records that share the key [45.9219,6.8750] and whose distances round
    to different tenths, as two providers may report one station. *)
Definition twin_station_a : station :=
  {| name := JStr "Forclaz"; lat := 2939 # 64; lon := 55 # 8; distance_km := 23 # 10 |}.
Definition twin_station_b : station :=
  {| name := JStr "FORCLAZ (LFXX)"; lat := 1504769 # 32768; lon := 55 # 8;
     distance_km := 24 # 10 |}.

Definition twins_one_order : list (string * list station) :=
  [("Pioupiou", [twin_station_a]); ("AWC METAR", [twin_station_b])]%string.
Definition twins_other_order : list (string * list station) :=
  [("AWC METAR", [twin_station_b]); ("Pioupiou", [twin_station_a])]%string.

(** Two stations at the same distance, 0.25 degrees south and north of the
    target [(46, 6.5)]. *)
Definition tie_south : station :=
  {| name := JStr "South"; lat := 183 # 4; lon := 13 # 2; distance_km := 278 # 10 |}.
Definition tie_north : station :=
  {| name := JStr "North"; lat := 185 # 4; lon := 13 # 2; distance_km := 278 # 10 |}.

(** One provider lists the two stations of the tie, in one order or the other. *)
Definition tie_north_first : list (string * list station) :=
  [("AWC METAR", [tie_north; tie_south])]%string.
Definition tie_south_first : list (string * list station) :=
  [("AWC METAR", [tie_south; tie_north])]%string.

(** Three providers around the target [(45.9, 6.9)]: the first two report one
    station at [(45.92, 6.91)] under two names, the second one more station. *)
Definition scenario : list (string * list station) :=
  [("provider1", [far_station_a]);
   ("provider2",
    [{| name := JStr "B-duplicate-of-A"; lat := 4592 # 100; lon := 691 # 100;
        distance_km := 23 # 10 |};
     far_station_b]);
   ("provider3", [])]%string.

(** The providers of [main], none of which found a station. *)
Definition nothing_found : list (string * list station) :=
  [("FFVL Beacons", []); ("Pioupiou", []); ("AWC METAR", []); ("NWS", []);
   ("BOM", [])]%string.


(** * The rest of the script, and further notions *)

(** ** PGE site lookup (source lines 77-125) *)

Definition PGE_SEARCH_URL : string :=
  "https://paraglidingearth.com/assets/ajax/searchSitesJSON.php".

Definition pge_request (site_name : string) : request :=
  {| url := PGE_SEARCH_URL; params := [("name", PText site_name)]%string |}.

(** [try: body / except Exception as e: print(f"{what}: {e}"); return None],
    around a body that returns from the function. *)
Definition try_return {A} (what : string) (body : M (option A)) : M (option A) :=
  fun s =>
    match body s with
    | (Ok a, s') => (Ok a, s')
    | (Raise e, s') => (print (ErrorLine what e) ;; ret None) s'
    end.

Section Lookup.

Variable net : request -> option response.
Variable float_of_str : string -> option Q.

(** What the function makes of the first result: [None] when a coordinate is
    missing, else the name and the two coordinates as floats. *)
Definition pge_site_of (first_result : json) : result (option (json * Q * Q)) :=
  (name <- py_get first_result "name" (JStr "Unknown") ;;
   lat <- py_get first_result "lat" JNull ;;
   lon <- py_get first_result "lng" JNull ;;
   if is_none lat || is_none lon then Ok None
   else
     la <- py_float float_of_str lat ;;
     lo <- py_float float_of_str lon ;;
     Ok (Some (name, la, lo)))%res.

Definition search_pge_site_body (site_name : string) : M (option (json * Q * Q)) :=
  try_return "Error searching PGE"
    (response <- requests_get net (pge_request site_name) ;;
     if (status_code response =? 403)%Z then
       print (Line "⚠️  PGE API returned 403 Forbidden. You can:") ;;
       print (Line "   1. Provide coordinates directly: python script.py 45.9,6.9 'Site Name'") ;;
       print (Line "   2. Try again later (possible rate limiting)") ;;
       ret None
     else
       raise_for_status response ;;
       data <- response_json response ;;
       features <- lift (py_get data "features" JNull) ;;
       if negb (truthy features) then ret None
       else
         first_result <- lift (py_index features 0) ;;
         lift (pge_site_of first_result)).

Definition search_pge_site (site_name : string)
    : result (option (json * Q * Q)) * list event :=
  run (search_pge_site_body site_name).

End Lookup.

(** The three lines of advice printed when the service answers 403. *)
Definition pge_forbidden_lines : list line :=
  [Line "⚠️  PGE API returned 403 Forbidden. You can:";
   Line "   1. Provide coordinates directly: python script.py 45.9,6.9 'Site Name'";
   Line "   2. Try again later (possible rate limiting)"].

(** ** Main script, the arguments (source lines 342-386) *)

(** How a run of the script ends: [main] returns, [sys.exit(code)] is called,
    or an exception leaves [main]. *)
Inductive outcome : Type :=
| Returned
| Exited (code : Z)
| Raised (e : exn).

Definition outcome_of (r : result unit) : outcome :=
  match r with
  | Ok _ => Returned
  | Raise e => Raised e
  end.

(** [c in s] *)
Fixpoint contains (c : ascii) (s : string) : bool :=
  match s with
  | EmptyString => false
  | String a rest => Ascii.eqb a c || contains c rest
  end.

(** [s.split(c)] for a separator of one character. *)
Fixpoint split_on (c : ascii) (s : string) : list string :=
  match s with
  | EmptyString => [EmptyString]
  | String a rest =>
      if Ascii.eqb a c then EmptyString :: split_on c rest
      else
        match split_on c rest with
        | first :: others => String a first :: others
        | [] => [String a EmptyString]
        end
  end.

(** The double quote, which the usage lines print around their examples. *)
Definition dquote : string := String (ascii_of_nat 34) EmptyString.

Definition usage_lines : list line :=
  [Line "Usage:";
   Line ("  python check_weather_stations.py " ++ dquote ++ "Site Name" ++ dquote);
   Line ("  python check_weather_stations.py LAT,LON " ++ dquote ++ "Site Name" ++ dquote);
   Line "";
   Line "Examples:";
   Line ("  python check_weather_stations.py " ++ dquote ++ "Annecy" ++ dquote);
   Line ("  python check_weather_stations.py " ++ dquote ++ "45.9,6.9" ++ dquote ++ " "
         ++ dquote ++ "Annecy" ++ dquote)]%string.

Definition banner_lines : list line :=
  [Line ""; Line rule80; Line "Weather Station Provider Comparison"; Line rule80; Line ""].

(** The two lines that end both branches: the coordinates at four decimals and
    the radius, [str(SEARCH_RADIUS_KM)] being [50]. *)
Definition target_lines (lat lon : Q) : list line :=
  [Line ("   Coordinates: " ++ format_4f lat ++ ", " ++ format_4f lon)%string;
   Line "   Search radius: 50 km"; Line ""].

Definition invalid_coordinates_line : line :=
  Line "❌ Invalid coordinates format. Use: LAT,LON (e.g., 45.9,6.9)".

Definition not_found_lines (site_name : string) : list line :=
  [Line ("❌ Site not found: " ++ site_name)%string;
   Line ""; Line "💡 Tip: You can provide coordinates directly:";
   Line ("   python check_weather_stations.py " ++ dquote ++ "LAT,LON" ++ dquote ++ " "
         ++ dquote ++ site_name ++ dquote)%string].

Section Script.

Variable net : request -> option response.
Variable float_of_str : string -> option Q.
Variable py_str : json -> string.

(** [lat_str, lon_str = arg.split(','); lat = float(lat_str); lon = float(lon_str)] *)
Definition coordinates_of (arg : string) : result (Q * Q) :=
  match split_on "," arg with
  | [lat_str; lon_str] =>
      (lat <- py_float float_of_str (JStr lat_str) ;;
       lon <- py_float float_of_str (JStr lon_str) ;;
       Ok (lat, lon))%res
  | _ => Raise ValueError
  end.

(** The exceptions the [except (ValueError, IndexError)] clause catches. *)
Definition caught_as_invalid (e : exn) : bool :=
  match e with
  | ValueError | IndexError => true
  | _ => false
  end.

(** Step 2 onwards, after the lines [intro] were printed. *)
Definition main_continue (intro : list event) (lat lon : Q) : outcome * list event :=
  let '(r, t) := main_from net float_of_str py_str lat lon in
  (outcome_of r, intro ++ t).

(** [main()] with [sys.argv = argv]. *)
Definition main (argv : list string) : outcome * list event :=
  match argv with
  | [] | [_] => (Exited 1, List.map Printed usage_lines)
  | _ :: arg :: rest =>
      if contains "," arg then
        match coordinates_of arg with
        | Ok (lat, lon) =>
            let name := match rest with
                        | given :: _ => given
                        | [] => "Custom Location"%string
                        end in
            main_continue
              (List.map Printed
                 (banner_lines
                  ++ [Line "📍 Using provided coordinates";
                      Line ("   Location: " ++ name)%string]
                  ++ target_lines lat lon))
              lat lon
        | Raise e =>
            if caught_as_invalid e then
              (Exited 1, List.map Printed (banner_lines ++ [invalid_coordinates_line]))
            else (Raised e, List.map Printed banner_lines)
        end
      else
        let site_name := arg in
        let searching :=
          List.map Printed (banner_lines ++ [Line ("🔍 Searching for site: " ++ site_name)%string]) in
        match search_pge_site net float_of_str site_name with
        | (Raise e, t) => (Raised e, searching ++ t)
        | (Ok None, t) =>
            (Exited 1, searching ++ t ++ List.map Printed (not_found_lines site_name))
        | (Ok (Some (name, lat, lon)), t) =>
            main_continue
              (searching ++ t
               ++ List.map Printed
                    (Line ("✅ Found: " ++ py_str name)%string :: target_lines lat lon))
              lat lon
        end
  end.

End Script.

(** ** Sample sites *)

(** A site service that answers every search with the given status and
    features; nothing else answers. *)
Definition site_network (status : Z) (features : list json) (req : request)
    : option response :=
  if String.eqb (url req) PGE_SEARCH_URL
  then Some {| status_code := status; body := Some (JObj [("features", JArr features)]%string) |}
  else None.

Definition site_annecy : json :=
  JObj [("name", JStr "Annecy - Planfait"); ("lat", JStr "45.9"); ("lng", JStr "6.9")]%string.

Definition site_other : json :=
  JObj [("name", JStr "Annecy - Forclaz"); ("lat", JStr "45.8"); ("lng", JStr "6.2")]%string.

(** ** NWS coverage table ([the_paragliding_app/nws_bounding_boxes.py]) *)

(** One entry of the table; ["bbox"] is the list
    [[min_lon, min_lat, max_lon, max_lat]], and only Alaska has a ["note"]. *)
Record region : Type := {
  region_name : string;
  bbox : list Q;
  description : string;
  note : option string
}.

(** The dict [nws_bounding_boxes], its items in the order of the source. *)
Definition nws_bounding_boxes : list (string * region) :=
  [("CONUS",
    {| region_name := "Continental United States";
       bbox := [-125; 245 # 10; -669 # 10; 496 # 10]%Q;
       description := "Lower 48 states plus DC";
       note := None |});
   ("Alaska",
    {| region_name := "Alaska";
       bbox := [-179148909 # 1000000; 51214183 # 1000000; 17977847 # 100000;
                71365162 # 1000000]%Q;
       description := "Includes Aleutian Islands crossing 180° meridian";
       note := Some "Crosses International Date Line - spans from ~179°W to ~180°E" |});
   ("Hawaii",
    {| region_name := "Hawaii";
       bbox := [-178334698 # 1000000; 18910361 # 1000000; -154806773 # 1000000;
                28402123 # 1000000]%Q;
       description := "All Hawaiian Islands including Northwestern Hawaiian Islands";
       note := None |});
   ("Puerto_Rico",
    {| region_name := "Puerto Rico";
       bbox := [-67945404 # 1000000; 1788328 # 100000; -65220703 # 1000000;
                18515683 # 1000000]%Q;
       description := "Main island of Puerto Rico";
       note := None |});
   ("US_Virgin_Islands",
    {| region_name := "US Virgin Islands";
       bbox := [-65085452 # 1000000; 17673976 # 1000000; -64564907 # 1000000;
                18412655 # 1000000]%Q;
       description := "St. Thomas, St. John, St. Croix";
       note := None |});
   ("Caribbean",
    {| region_name := "Puerto Rico & US Virgin Islands Combined";
       bbox := [-67945404 # 1000000; 17673976 # 1000000; -64564907 # 1000000;
                18515683 # 1000000]%Q;
       description := "Combined bounding box for Caribbean territories";
       note := None |});
   ("Guam",
    {| region_name := "Guam";
       bbox := [144618068 # 1000000; 13234189 # 1000000; 144956712 # 1000000;
                13654383 # 1000000]%Q;
       description := "Territory of Guam";
       note := None |});
   ("Northern_Mariana_Islands",
    {| region_name := "Northern Mariana Islands";
       bbox := [144886331 # 1000000; 14110472 # 1000000; 146064818 # 1000000;
                20553802 # 1000000]%Q;
       description := "Commonwealth including Saipan, Tinian, Rota";
       note := None |});
   ("American_Samoa",
    {| region_name := "American Samoa";
       bbox := [-171089874 # 1000000; -14548699 # 1000000; -1681433 # 10000;
                -11046934 # 1000000]%Q;
       description := "Territory in South Pacific";
       note := None |})]%string.

(** [nws_bounding_boxes[key]] *)
Fixpoint region_of (key : string) (table : list (string * region)) : option region :=
  match table with
  | [] => None
  | (k, r) :: rest => if String.eqb k key then Some r else region_of key rest
  end.

(** The point [(lat, lon)] lies in the box [[min_lon, min_lat, max_lon, max_lat]]. *)
Definition in_bbox (box : list Q) (lat lon : Q) : Prop :=
  match box with
  | [min_lon; min_lat; max_lon; max_lat] =>
      (min_lon <= lon /\ lon <= max_lon /\ min_lat <= lat /\ lat <= max_lat)%Q
  | _ => False
  end.

(** The keys of the table for the territories outside the fifty states. *)
Definition territories : list string :=
  ["Puerto_Rico"; "US_Virgin_Islands"; "Caribbean"; "Guam"; "Northern_Mariana_Islands";
   "American_Samoa"]%string.

(** The quantity [a] of the haversine formula, the argument of [math.sqrt]. *)
Definition haversine_a (lat1 lon1 lat2 lon2 : R) : R :=
  ((sin ((GeoMath.radians lat2 - GeoMath.radians lat1) / 2)) ^ 2
   + cos (GeoMath.radians lat1) * cos (GeoMath.radians lat2)
     * (sin ((GeoMath.radians lon2 - GeoMath.radians lon1) / 2)) ^ 2)%R.

(** A METAR record at the target [(45.9, 6.9)], and the station made of it. *)
Definition metar_annecy : json :=
  JObj [("icaoId", JStr "LFLP"); ("name", JStr "Annecy"); ("lat", JFloat (459 # 10));
        ("lon", JFloat (69 # 10))]%string.

Definition station_metar_annecy : station :=
  {| name := JStr "Annecy (LFLP)"; lat := 459 # 10; lon := 69 # 10; distance_km := 0 # 10 |}.

(** ** Traces *)

(** The requests a run has sent, in order. *)
Fixpoint requests_of (t : list event) : list request :=
  match t with
  | [] => []
  | Requested req :: rest => req :: requests_of rest
  | Printed _ :: rest => requests_of rest
  end.

(** The lines a run has printed, in order. *)
Fixpoint lines_of (t : list event) : list line :=
  match t with
  | [] => []
  | Requested _ :: rest => lines_of rest
  | Printed l :: rest => l :: lines_of rest
  end.

(** What a loop body does of a record once the radius has grown: it raises
    the same exception, admits the same station, or, having skipped the
    record, skips or admits it. *)
Definition grows (small large : loop_result) : Prop :=
  match small with
  | Raise e => large = Raise e
  | Ok (Some st) => large = Ok (Some st)
  | Ok None => is_ok large
  end.

(** A station of the NWS list whose [properties] is a list, 2^-11 degrees
    north of [(0, 0)]. *)
Definition nws_feature_no_properties : json :=
  JObj [("properties", JArr []);
        ("geometry", JObj [("coordinates", JArr [JInt 0; JFloat (1 # 2048)])])]%string.

(** ** Aggregation and report, continued *)

(** The records step 3 visits, in the order it visits them. *)
Definition reported (providers : list (string * list station)) : list station :=
  flat_map snd providers.

(** The first record of [sts] whose key is [key]. *)
Definition first_seen (key : string) (sts : list station) : option station :=
  List.find (fun st => String.eqb (station_key st) key) sts.

(** What the body of step 3 does to [all_stations]. *)
Definition keep_first (d : list (string * station)) (st : station)
    : list (string * station) :=
  if has_key (station_key st) d then d else d ++ [(station_key st, st)].

(** The marks of a station row; [None] for any other line. *)
Definition row_marks (l : line) : option (list bool) :=
  match l with
  | RowLine _ _ checks => Some checks
  | _ => None
  end.

(** The name a station row shows; [None] for any other line. *)
Definition row_text (l : line) : option string :=
  match l with
  | RowLine nm _ _ => Some nm
  | _ => None
  end.

Definition is_row (l : line) : bool :=
  match l with
  | RowLine _ _ _ => true
  | _ => false
  end.

(** The name of the record is a text. *)
Definition named (x : string * station) : Prop :=
  exists s, name (snd x) = JStr s.

(** Two FFVL beacons at one place, the first without a name
    ([beacon.get('nom', 'Unknown')] is [None] when the feed says [null]). *)
Definition nameless_station : station :=
  {| name := JNull; lat := 459 # 10; lon := 69 # 10; distance_km := 0 |}.

(** ** The rows expected of the table *)

(** The items reached before a name that is no text stops the row loop. *)
Fixpoint named_prefix (items : list (string * station)) : list (string * station) :=
  match items with
  | [] => []
  | x :: rest =>
      match name (snd x) with
      | JStr _ => x :: named_prefix rest
      | _ => []
      end
  end.

(** Provider [p] of the dict lists a station whose key is [key]. *)
Definition lists_key (providers : list (string * list station)) (p key : string) : bool :=
  existsb (fun q => String.eqb (fst q) p
                    && existsb (fun st => String.eqb (station_key st) key) (snd q))
    providers.

(** The first 30 characters of a name that is a text. *)
Definition row_label (v : json) : string :=
  match v with
  | JStr s => String.substring 0 30 s
  | _ => EmptyString
  end.

(** The row expected for an item of [all_stations]: the name of its record cut
    to 30 characters, the distance of its record, and for each provider of
    the dict, in order, whether that provider lists a station with its key. *)
Definition expected_row (providers : list (string * list station)) (x : string * station)
    : line :=
  RowLine (row_label (name (snd x))) (distance_km (snd x))
    (List.map (fun p => lists_key providers (fst p) (fst x)) providers).

(** The line is a station row that shows the distance [d]. *)
Definition row_at_distance (d : Q) (l : line) : bool :=
  match l with
  | RowLine _ d' _ => Qeq_bool d' d
  | _ => false
  end.

(** ** Names *)

(** The name of the station is a text. *)
Definition text_named (st : station) : Prop := exists s, name st = JStr s.

(** The note [query_bom] prints for a target in Australia. *)
Definition bom_note : line :=
  Line "Note: BOM provider requires state-specific queries (not implemented in this script)".

(** A METAR service that answers every query with the given records. *)
Definition metar_network (records : list json) (req : request) : option response :=
  if String.eqb (url req) AWC_METAR_URL
  then Some {| status_code := 200; body := Some (JArr records) |}
  else None.

(** * Properties *)

(** ** GeoMath *)

Lemma sin_sq_swap (x y : R) : ((sin ((x - y) / 2)) ^ 2 = (sin ((y - x) / 2)) ^ 2)%R.
Proof.
  replace ((x - y) / 2)%R with (- ((y - x) / 2))%R by lra.
  rewrite sin_neg. ring.
Qed.

(** C7: the great-circle distance does not depend on the order of its two points. *)
Theorem haversine_distance_symmetric (lat1 lon1 lat2 lon2 : R) :
  GeoMath.haversine_distance lat1 lon1 lat2 lon2 =
  GeoMath.haversine_distance lat2 lon2 lat1 lon1.
Proof.
  unfold GeoMath.haversine_distance. cbv zeta.
  rewrite (sin_sq_swap (GeoMath.radians lat2)), (sin_sq_swap (GeoMath.radians lon2)).
  rewrite (Rmult_comm (cos (GeoMath.radians lat1))).
  reflexivity.
Qed.

Lemma haversine_distance_self (lat lon : R) :
  GeoMath.haversine_distance lat lon lat lon = 0%R.
Proof.
  unfold GeoMath.haversine_distance. cbv zeta.
  replace ((GeoMath.radians lat - GeoMath.radians lat) / 2)%R with 0%R by lra.
  replace ((GeoMath.radians lon - GeoMath.radians lon) / 2)%R with 0%R by lra.
  rewrite sin_0.
  replace (0 ^ 2 + cos (GeoMath.radians lat) * cos (GeoMath.radians lat) * 0 ^ 2)%R
    with 0%R by ring.
  rewrite sqrt_0, asin_0. ring.
Qed.

Lemma Q2R_inject_Z (z : Z) : Q2R (inject_Z z) = IZR z.
Proof. unfold Q2R, inject_Z. simpl. lra. Qed.

Lemma radians_range (x : R) :
  (-90 < x < 90)%R -> (- (PI / 2) < GeoMath.radians x < PI / 2)%R.
Proof.
  intros [Hlo Hhi]. unfold GeoMath.radians.
  pose proof PI_RGT_0 as Hpi.
  split; nra.
Qed.

Lemma lon_divisor_pos (lat : Q) :
  (-90 < lat)%Q -> (lat < 90)%Q -> (0 < lon_divisor lat)%R.
Proof.
  intros Hlo Hhi.
  apply Qlt_Rlt in Hlo, Hhi.
  change (-90)%Q with (inject_Z (-90)) in Hlo.
  change 90%Q with (inject_Z 90) in Hhi.
  rewrite Q2R_inject_Z in Hlo, Hhi.
  unfold lon_divisor.
  destruct (radians_range (Q2R lat)) as [H1 H2]; [lra|].
  pose proof (cos_gt_0 _ H1 H2). lra.
Qed.

(** C10: strictly between the poles the divisor of the longitude delta is not
    zero, so the division yields a box and raises nothing. *)
Theorem bounding_box_division_defined (lat lon radius_km : Q) :
  (-90 < lat)%Q -> (lat < 90)%Q ->
  lon_divisor lat <> 0%R /\
  py_div (Q2R radius_km) (lon_divisor lat) = Ok (Q2R radius_km / lon_divisor lat)%R /\
  exists bbox, bounding_box lat lon radius_km = Ok bbox.
Proof.
  intros Hlo Hhi.
  pose proof (lon_divisor_pos lat Hlo Hhi) as Hpos.
  assert (Hne : lon_divisor lat <> 0%R) by lra.
  assert (Hdiv : py_div (Q2R radius_km) (lon_divisor lat)
                 = Ok (Q2R radius_km / lon_divisor lat)%R).
  { unfold py_div. destruct (Req_dec_T (lon_divisor lat) 0); [contradiction|reflexivity]. }
  repeat split; try assumption.
  unfold bounding_box. rewrite Hdiv. simpl. eauto.
Qed.

Lemma bounding_box_division_defined_annecy :
  lon_divisor (459 # 10) <> 0%R /\
  py_div (Q2R 50) (lon_divisor (459 # 10)) = Ok (Q2R 50 / lon_divisor (459 # 10))%R /\
  exists bbox, bounding_box (459 # 10) (69 # 10) 50 = Ok bbox.
Proof. apply (bounding_box_division_defined (459 # 10) (69 # 10) 50); reflexivity. Defined.

Lemma distance_to_self (lat lon : Q) : distance_to lat lon lat lon = 0%R.
Proof. apply haversine_distance_self. Qed.

(** Along a meridian the distance is the arc between the two latitudes. *)
Lemma haversine_distance_meridian (lat1 lat2 lon : R) :
  (lat1 <= lat2 <= lat1 + 180)%R ->
  GeoMath.haversine_distance lat1 lon lat2 lon = ((lat2 - lat1) * PI / 180 * 6371)%R.
Proof.
  intros [Hlo Hhi]. unfold GeoMath.haversine_distance. cbv zeta.
  replace ((GeoMath.radians lon - GeoMath.radians lon) / 2)%R with 0%R by lra.
  rewrite sin_0.
  set (h := ((GeoMath.radians lat2 - GeoMath.radians lat1) / 2)%R).
  replace ((sin h) ^ 2 + cos (GeoMath.radians lat1) * cos (GeoMath.radians lat2) * 0 ^ 2)%R
    with ((sin h) ^ 2)%R by ring.
  pose proof PI_RGT_0 as Hpi.
  assert (Hh : (0 <= h <= PI / 2)%R).
  { unfold h, GeoMath.radians. split; nra. }
  rewrite sqrt_pow2 by (apply sin_ge_0; lra).
  rewrite asin_sin by lra.
  unfold h, GeoMath.radians. field.
Qed.

Lemma PI_bounds : (3 < PI <= 4)%R.
Proof. pose proof PI2_3_2. pose proof PI_4. lra. Qed.

(** ** Rounding and the four-decimal format *)

Lemma Qround_half_even_close (q : Q) :
  (Qabs (q - inject_Z (Qround_half_even q)) <= 1 # 2)%Q.
Proof.
  unfold Qround_half_even.
  pose proof (Qfloor_le q) as Hlo.
  pose proof (Qlt_floor q) as Hhi.
  rewrite inject_Z_plus in Hhi.
  set (f := Qfloor q) in *.
  change (inject_Z 1) with 1%Q in Hhi.
  apply Qabs_Qle_condition.
  destruct (q - inject_Z f ?= 1 # 2)%Q eqn:Hc.
  - apply Qeq_alt in Hc.
    destruct (Z.even f); rewrite ?inject_Z_plus;
      change (inject_Z 1) with 1%Q; split; lra.
  - apply Qlt_alt in Hc. split; lra.
  - apply Qgt_alt in Hc. rewrite inject_Z_plus.
    change (inject_Z 1) with 1%Q. split; lra.
Qed.

Lemma Qround_half_even_nonneg (q : Q) :
  (0 <= q)%Q -> (0 <= Qround_half_even q)%Z.
Proof.
  intros Hq.
  assert (Hf : (0 <= Qfloor q)%Z).
  { change 0%Z with (Qfloor 0). apply Qfloor_resp_le, Hq. }
  unfold Qround_half_even.
  destruct (q - inject_Z (Qfloor q) ?= 1 # 2)%Q; try destruct (Z.even (Qfloor q)); lia.
Qed.

Lemma scaled4_close (x : Q) :
  (Qabs (Qabs x * 10000 - inject_Z (Z.of_N (scaled4 x))) <= 1 # 2)%Q.
Proof.
  unfold scaled4.
  rewrite Z2N.id.
  - apply Qround_half_even_close.
  - apply Qround_half_even_nonneg.
    pose proof (Qabs_nonneg x). lra.
Qed.

Lemma is_negative_true (x : Q) : is_negative x = true -> (x < 0)%Q.
Proof.
  unfold is_negative. destruct (x ?= 0)%Q eqn:Hc; try discriminate.
  intros _. now apply Qlt_alt.
Qed.

Lemma is_negative_false (x : Q) : is_negative x = false -> (0 <= x)%Q.
Proof.
  unfold is_negative. destruct (x ?= 0)%Q eqn:Hc; try discriminate; intros _.
  - apply Qeq_alt in Hc. lra.
  - apply Qgt_alt in Hc. lra.
Qed.

(** Two numbers with the same sign and the same count of ten-thousandths are
    at most one ten-thousandth apart. *)
Lemma same_rounding_close (x y : Q) :
  is_negative x = is_negative y -> scaled4 x = scaled4 y ->
  (Qabs (x - y) <= 1 # 10000)%Q.
Proof.
  intros Hs Hk.
  pose proof (scaled4_close x) as Hx.
  pose proof (scaled4_close y) as Hy.
  rewrite Hk in Hx.
  set (k := inject_Z (Z.of_N (scaled4 y))) in *.
  apply Qabs_Qle_condition in Hx, Hy.
  apply Qabs_Qle_condition.
  destruct (is_negative x) eqn:Hnx; symmetry in Hs.
  - apply is_negative_true in Hnx, Hs.
    rewrite (Qabs_neg x) in Hx by lra. rewrite (Qabs_neg y) in Hy by lra.
    split; lra.
  - apply is_negative_false in Hnx, Hs.
    rewrite (Qabs_pos x) in Hx by lra. rewrite (Qabs_pos y) in Hy by lra.
    split; lra.
Qed.

(** *** Rounding over the reals *)

Lemma Rfloor_bounds (x : R) : (IZR (Rfloor x) <= x < IZR (Rfloor x) + 1)%R.
Proof.
  unfold Rfloor. rewrite minus_IZR.
  destruct (archimed x) as [H1 H2]. split; lra.
Qed.

Lemma Rfloor_unique (x : R) (z : Z) : (IZR z <= x < IZR z + 1)%R -> Rfloor x = z.
Proof.
  intros [Hlo Hhi].
  destruct (Rfloor_bounds x) as [Flo Fhi].
  assert (H1 : (IZR (Rfloor x) < IZR (z + 1))%R) by (rewrite plus_IZR; lra).
  assert (H2 : (IZR z < IZR (Rfloor x + 1))%R) by (rewrite plus_IZR; lra).
  apply lt_IZR in H1, H2. lia.
Qed.

Lemma Rround_half_even_close (x : R) :
  (x - 1 / 2 <= IZR (Rround_half_even x) <= x + 1 / 2)%R.
Proof.
  unfold Rround_half_even.
  destruct (Rfloor_bounds x) as [Flo Fhi].
  set (f := Rfloor x) in *.
  destruct (Rlt_dec (x - IZR f) (1 / 2)) as [Hlt|Hge].
  - lra.
  - destruct (Rlt_dec (1 / 2) (x - IZR f)) as [Hgt|Hle].
    + rewrite plus_IZR. lra.
    + destruct (Z.even f); rewrite ?plus_IZR; lra.
Qed.

Lemma Rround_half_even_IZR (z : Z) : Rround_half_even (IZR z) = z.
Proof.
  unfold Rround_half_even.
  rewrite (Rfloor_unique (IZR z) z) by lra.
  destruct (Rlt_dec (IZR z - IZR z) (1 / 2)) as [_|Hn]; [reflexivity|].
  exfalso. apply Hn. lra.
Qed.

Lemma Q2R_tenths (z : Z) : Q2R (z # 10) = (IZR z / 10)%R.
Proof. unfold Q2R. simpl. lra. Qed.

(** [round(x, 1)] is within one twentieth of [x]. *)
Lemma round1_close (x : R) : (x - 1 / 20 <= Q2R (round1 x) <= x + 1 / 20)%R.
Proof.
  unfold round1. rewrite Q2R_tenths.
  pose proof (Rround_half_even_close (10 * x)) as H. lra.
Qed.

Lemma round1_zero : round1 0 = 0 # 10.
Proof.
  unfold round1. replace (10 * 0)%R with (IZR 0) by (simpl; lra).
  now rewrite Rround_half_even_IZR.
Qed.

Lemma Rround_half_even_unique (x : R) (z : Z) :
  (IZR z - 1 / 2 < x < IZR z + 1 / 2)%R -> Rround_half_even x = z.
Proof.
  intros [Hlo Hhi].
  destruct (Rle_dec (IZR z) x) as [Hge|Hlt].
  - unfold Rround_half_even.
    rewrite (Rfloor_unique x z) by lra.
    destruct (Rlt_dec (x - IZR z) (1 / 2)); [reflexivity | lra].
  - unfold Rround_half_even.
    rewrite (Rfloor_unique x (z - 1)) by (rewrite minus_IZR; lra).
    rewrite minus_IZR.
    destruct (Rlt_dec (x - (IZR z - 1)) (1 / 2)); [lra|].
    destruct (Rlt_dec (1 / 2) (x - (IZR z - 1))); [lia | lra].
Qed.

(** ** Texts: splitting at a separator, digits *)

Lemma string_forallb_app (P : ascii -> bool) (s t : string) :
  string_forallb P (s ++ t)%string = string_forallb P s && string_forallb P t.
Proof.
  induction s as [|a s IH]; simpl; [reflexivity|].
  rewrite IH. now rewrite andb_assoc.
Qed.

Lemma append_cons (a : ascii) (s t : string) :
  (String a s ++ t = String a (s ++ t))%string.
Proof. reflexivity. Qed.

Lemma append_nil (t : string) : ("" ++ t = t)%string.
Proof. reflexivity. Qed.

Lemma string_append_assoc (s t u : string) :
  (s ++ (t ++ u) = (s ++ t) ++ u)%string.
Proof.
  induction s as [|a s IH]; [reflexivity|].
  now rewrite !append_cons, IH.
Qed.

Lemma string_forallb_impl (P P' : ascii -> bool) (s : string) :
  (forall a, P a = true -> P' a = true) ->
  string_forallb P s = true -> string_forallb P' s = true.
Proof.
  intros HP. induction s as [|a s IH]; simpl; [reflexivity|].
  intros [Ha Hs]%andb_true_iff. rewrite (HP _ Ha). simpl. now apply IH.
Qed.

(** A text is cut in one way only at the first occurrence of [c]. *)
Lemma append_split (c : ascii) (s1 s2 t1 t2 : string) :
  string_forallb (is_not c) s1 = true ->
  string_forallb (is_not c) s2 = true ->
  (s1 ++ String c t1 = s2 ++ String c t2)%string ->
  s1 = s2 /\ t1 = t2.
Proof.
  revert s2. induction s1 as [|a s1 IH]; intros [|b s2]; simpl; intros H1 H2 Heq.
  - injection Heq as ->. now split.
  - injection Heq as <- _.
    apply andb_true_iff in H2 as [H2 _].
    unfold is_not in H2. now rewrite Ascii.eqb_refl in H2.
  - injection Heq as -> _.
    apply andb_true_iff in H1 as [H1 _].
    unfold is_not in H1. now rewrite Ascii.eqb_refl in H1.
  - injection Heq as -> Heq.
    apply andb_true_iff in H1 as [_ H1]. apply andb_true_iff in H2 as [_ H2].
    destruct (IH s2 H1 H2 Heq) as [-> ->]. now split.
Qed.

Lemma string_of_uint_digits (d : Decimal.uint) :
  string_forallb is_digit (NilEmpty.string_of_uint d) = true.
Proof. induction d; simpl; auto. Qed.

Lemma decimal_digits (n : N) : string_forallb is_digit (decimal n) = true.
Proof. apply string_of_uint_digits. Qed.

Lemma decimal_inj (m n : N) : decimal m = decimal n -> m = n.
Proof.
  unfold decimal. intros H.
  apply (f_equal NilEmpty.uint_of_string) in H.
  rewrite !NilEmpty.usu in H. injection H as H.
  apply (f_equal N.of_uint) in H.
  now rewrite !DecimalN.Unsigned.of_to in H.
Qed.

Lemma digit_is_digit (n : N) : is_digit (digit n) = true.
Proof.
  unfold digit, is_digit.
  assert (Hlt : (n mod 10 < 10)%N) by (apply N.mod_upper_bound; discriminate).
  set (r := (n mod 10)%N) in *. clearbody r.
  rewrite N_ascii_embedding by lia.
  apply andb_true_iff. split; apply N.leb_le; lia.
Qed.

Lemma digit_inj (m n : N) : digit m = digit n -> (m mod 10 = n mod 10)%N.
Proof.
  unfold digit. intros H.
  assert ((m mod 10 < 10)%N) by (apply N.mod_upper_bound; discriminate).
  assert ((n mod 10 < 10)%N) by (apply N.mod_upper_bound; discriminate).
  set (r := (m mod 10)%N) in *. set (r' := (n mod 10)%N) in *. clearbody r r'.
  apply (f_equal N_of_ascii) in H.
  rewrite !N_ascii_embedding in H by lia. lia.
Qed.

Lemma frac4_digits (n : N) : string_forallb is_digit (frac4 n) = true.
Proof. unfold frac4. simpl. now rewrite !digit_is_digit. Qed.

Lemma last_digit_step (m n : N) :
  (m mod 10 = n mod 10)%N -> (m / 10 = n / 10)%N -> m = n.
Proof.
  intros Hr Hq.
  rewrite (N.div_mod m 10), (N.div_mod n 10) by discriminate.
  now rewrite Hr, Hq.
Qed.

Lemma frac4_inj (m n : N) :
  (m < 10000)%N -> (n < 10000)%N -> frac4 m = frac4 n -> m = n.
Proof.
  unfold frac4. intros Hm Hn H.
  injection H as H3 H2 H1 H0.
  apply digit_inj in H3, H2, H1, H0.
  assert (E3 : (m / 1000 = n / 1000)%N).
  { rewrite !N.mod_small in H3; trivial;
      apply N.Div0.div_lt_upper_bound; assumption. }
  assert (E2 : (m / 100 = n / 100)%N).
  { apply last_digit_step; [assumption|].
    rewrite !N.Div0.div_div. exact E3. }
  assert (E1 : (m / 10 = n / 10)%N).
  { apply last_digit_step; [assumption|].
    rewrite !N.Div0.div_div. exact E2. }
  now apply last_digit_step.
Qed.

(** ** The four-decimal format determines sign and rounding *)

Lemma is_digit_not (c : ascii) (a : ascii) :
  is_digit c = false -> is_digit a = true -> is_not c a = true.
Proof.
  intros Hc Ha. unfold is_not.
  destruct (Ascii.eqb_spec a c) as [->|]; [congruence|reflexivity].
Qed.

Lemma sign_decimal_no (c : ascii) (neg : bool) (n : N) :
  is_digit c = false -> c <> "-"%char ->
  string_forallb (is_not c) ((if neg then "-" else "") ++ decimal n)%string = true.
Proof.
  intros Hc Hdash.
  rewrite string_forallb_app. apply andb_true_iff. split.
  - destruct neg; [|reflexivity].
    simpl. rewrite andb_true_r. unfold is_not. destruct (Ascii.eqb_spec "-"%char c) as [<-|]; [now destruct Hdash|reflexivity].
  - apply (string_forallb_impl is_digit); [intros a; apply (is_digit_not c a Hc) | apply decimal_digits].
Qed.

Lemma sign_decimal_inj (neg neg' : bool) (m n : N) :
  ((if neg then "-" else "") ++ decimal m = (if neg' then "-" else "") ++ decimal n)%string ->
  neg = neg' /\ m = n.
Proof.
  destruct neg, neg'; rewrite ?append_cons, ?append_nil; intros H.
  - injection H as H. split; [reflexivity | now apply decimal_inj].
  - pose proof (decimal_digits n) as Hd. rewrite <- H in Hd. discriminate.
  - pose proof (decimal_digits m) as Hd. rewrite H in Hd. discriminate.
  - split; [reflexivity | now apply decimal_inj].
Qed.

Lemma format_4f_split (x : Q) :
  format_4f x =
  (((if is_negative x then "-" else "") ++ decimal (scaled4 x / 10000))
   ++ String "." (frac4 (scaled4 x mod 10000)))%string.
Proof. unfold format_4f. cbv zeta. now rewrite string_append_assoc. Qed.

Lemma format_4f_inj (x y : Q) :
  format_4f x = format_4f y ->
  is_negative x = is_negative y /\ scaled4 x = scaled4 y.
Proof.
  rewrite !format_4f_split. intros H.
  apply append_split in H as [Hint Hfrac];
    try (apply sign_decimal_no; [reflexivity | discriminate]).
  apply sign_decimal_inj in Hint as [Hs Hq].
  apply frac4_inj in Hfrac; try (apply N.mod_upper_bound; discriminate).
  split; [assumption|].
  rewrite (N.div_mod (scaled4 x) 10000), (N.div_mod (scaled4 y) 10000) by discriminate.
  now rewrite Hq, Hfrac.
Qed.

Lemma format_4f_close (x y : Q) :
  format_4f x = format_4f y -> (Qabs (x - y) <= 1 # 10000)%Q.
Proof. intros [Hs Hk]%format_4f_inj. now apply same_rounding_close. Qed.

Lemma format_4f_chars (x : Q) : string_forallb (is_not ",") (format_4f x) = true.
Proof.
  rewrite format_4f_split, string_forallb_app.
  apply andb_true_iff. split.
  - apply sign_decimal_no; [reflexivity | discriminate].
  - change (is_not "," "." && string_forallb (is_not ",") (frac4 (scaled4 x mod 10000)) = true).
    apply (string_forallb_impl is_digit);
      [intros a; now apply is_digit_not | apply frac4_digits].
Qed.

(** The format on some numbers. *)
Example format_4f_annecy : format_4f (459 # 10) = "45.9000"%string.
Proof. reflexivity. Qed.
Example format_4f_small_negative : format_4f (- (1 # 100000)) = "-0.0000"%string.
Proof. reflexivity. Qed.
Example format_4f_tie_even : format_4f (1 # 32) = "0.0312"%string.
Proof. reflexivity. Qed.
Example format_4f_carry : format_4f (1999996 # 100000) = "20.0000"%string.
Proof. reflexivity. Qed.

(** Equal keys are equal formatted latitudes and equal formatted longitudes. *)
Lemma station_key_eq (a b : station) :
  station_key a = station_key b <->
  format_4f (lat a) = format_4f (lat b) /\ format_4f (lon a) = format_4f (lon b).
Proof.
  unfold station_key. split.
  - intros H. simpl in H.
    apply append_split in H; [assumption | apply format_4f_chars ..].
  - now intros [-> ->].
Qed.

(** C2, first half, fails: two latitudes closer than 0.00005 degrees can lie on
    both sides of a rounding boundary and then get different keys. *)
Lemma station_key_near_but_distinct :
  (Qabs (lat near_station_a - lat near_station_b) < 5 # 100000)%Q /\
  (Qabs (lon near_station_a - lon near_station_b) < 5 # 100000)%Q /\
  station_key near_station_a = "0.0000,6.9000"%string /\
  station_key near_station_b = "0.0001,6.9000"%string /\
  station_key near_station_a <> station_key near_station_b.
Proof. repeat split; try reflexivity. discriminate. Qed.

(** C2 as amended: two records share a station key exactly when their
    latitudes print alike and their longitudes print alike at four decimals;
    records more than 0.0001 degrees apart in latitude or in longitude never
    share one. *)
Theorem station_key_separates (a b : station) :
  (station_key a = station_key b <->
   format_4f (lat a) = format_4f (lat b) /\ format_4f (lon a) = format_4f (lon b)) /\
  ((1 # 10000 < Qabs (lat a - lat b))%Q \/ (1 # 10000 < Qabs (lon a - lon b))%Q ->
   station_key a <> station_key b).
Proof.
  split; [apply station_key_eq|].
  intros Hfar Hkey.
  apply station_key_eq in Hkey as [Hlat Hlon].
  apply format_4f_close in Hlat, Hlon.
  destruct Hfar as [Hfar|Hfar]; lra.
Qed.

Lemma station_key_separates_example :
  (1 # 10000 < Qabs (lat far_station_a - lat far_station_b))%Q /\
  station_key far_station_a <> station_key far_station_b.
Proof.
  split; [reflexivity|].
  apply (proj2 (station_key_separates far_station_a far_station_b)).
  left. reflexivity.
Defined.

(** Records whose coordinates print alike at four decimals share a key, however
    they were obtained. *)
Lemma station_key_same_rounding (a b : station) :
  format_4f (lat a) = format_4f (lat b) ->
  format_4f (lon a) = format_4f (lon b) ->
  station_key a = station_key b.
Proof. intros Hlat Hlon. apply station_key_eq. now split. Qed.

(** ** The adapters: control flow *)


(** The loop of an adapter, run from any state, appends what [collect] says. *)
Lemma for_each_collect (f : json -> loop_result) (items : list json) (s : state) :
  for_each items (fun x => loop_step (f x)) s =
  (match snd (collect f items (stations s)) with
   | None => Ok tt
   | Some e => Raise e
   end,
   {| stations := fst (collect f items (stations s)); trace := trace s |}).
Proof.
  revert s. induction items as [|x rest IH]; intros [sts tr]; simpl.
  - reflexivity.
  - unfold bind, loop_step. destruct (f x) as [[st|]|e]; simpl.
    + rewrite IH. reflexivity.
    + rewrite IH. reflexivity.
    + reflexivity.
Qed.

Lemma ffvl_key_configured :
  negb (truthy (JStr FFVL_API_KEY)) || String.eqb FFVL_API_KEY "your_ffvl_api_key_here"
  = false.
Proof. reflexivity. Qed.

(** Unfold the monadic plumbing of an adapter up to its next case analysis. *)
Ltac run_adapter :=
  cbv beta iota zeta delta
    [run bind lift ret raise try_except requests_get requests_get_url raise_for_status
     response_json print return_stations diagnostic];
  cbn [stations trace app].

Section AdapterShapes.

Variable net : request -> option response.
Variable float_of_str : string -> option Q.
Variable py_str : json -> string.

(** [query_ffvl] in closed form. *)
Lemma query_ffvl_shape (lat lon radius_km : Q) :
  query_ffvl net float_of_str lat lon radius_km =
  match fetch net ffvl_request with
  | Raise e => failed "Error querying FFVL" e [Requested ffvl_request]
  | Ok data =>
      match py_iter data with
      | Raise e => failed "Error querying FFVL" e [Requested ffvl_request]
      | Ok beacons =>
          looped "Error querying FFVL" (ffvl_beacon float_of_str lat lon radius_km) beacons
            [Requested ffvl_request]
      end
  end.
Proof.
  unfold query_ffvl, query_ffvl_body, fetch, decode, failed, looped.
  rewrite ffvl_key_configured. run_adapter.
  destruct (net ffvl_request) as [r|]; run_adapter; [|reflexivity].
  destruct ((400 <=? status_code r)%Z && (status_code r <? 600)%Z); run_adapter; [reflexivity|].
  destruct (body r) as [data|]; run_adapter; [|reflexivity].
  destruct (py_iter data) as [beacons|e]; run_adapter; [|reflexivity].
  rewrite for_each_collect. simpl.
  destruct (snd (collect _ beacons [])); reflexivity.
Qed.

(** [query_pioupiou] in closed form. *)
Lemma query_pioupiou_shape (lat lon radius_km : Q) :
  query_pioupiou net py_str lat lon radius_km =
  match fetch net pioupiou_request with
  | Raise e => failed "Error querying Pioupiou" e [Requested pioupiou_request]
  | Ok data =>
      match (records <- py_get data "data" (JArr []) ;; py_iter records)%res with
      | Raise e => failed "Error querying Pioupiou" e [Requested pioupiou_request]
      | Ok items =>
          looped "Error querying Pioupiou" (pioupiou_station py_str lat lon radius_km) items
            [Requested pioupiou_request]
      end
  end.
Proof.
  unfold query_pioupiou, query_pioupiou_body, fetch, decode, failed, looped.
  run_adapter.
  destruct (net pioupiou_request) as [r|]; run_adapter; [|reflexivity].
  destruct ((400 <=? status_code r)%Z && (status_code r <? 600)%Z); run_adapter; [reflexivity|].
  destruct (body r) as [data|]; run_adapter; [|reflexivity].
  destruct (py_get data "data" (JArr [])) as [records|e]; run_adapter; [|reflexivity].
  unfold rbind.
  destruct (py_iter records) as [items|e]; run_adapter; [|reflexivity].
  rewrite for_each_collect. simpl.
  destruct (snd (collect _ items [])); reflexivity.
Qed.

(** [query_awc_metar] in closed form. *)
Lemma query_awc_metar_shape (lat lon radius_km : Q) :
  query_awc_metar net py_str lat lon radius_km =
  match bounding_box lat lon radius_km with
  | Raise e => failed "Error querying AWC METAR" e []
  | Ok bbox =>
      match fetch net (awc_request bbox) with
      | Raise e => failed "Error querying AWC METAR" e [Requested (awc_request bbox)]
      | Ok data =>
          match py_iter data with
          | Raise e => failed "Error querying AWC METAR" e [Requested (awc_request bbox)]
          | Ok items =>
              looped "Error querying AWC METAR" (awc_station py_str lat lon radius_km) items
                [Requested (awc_request bbox)]
          end
      end
  end.
Proof.
  unfold query_awc_metar, query_awc_metar_body, fetch, decode, failed, looped.
  run_adapter.
  destruct (bounding_box lat lon radius_km) as [bbox|e]; run_adapter; [|reflexivity].
  destruct (net (awc_request bbox)) as [r|]; run_adapter; [|reflexivity].
  destruct ((400 <=? status_code r)%Z && (status_code r <? 600)%Z); run_adapter; [reflexivity|].
  destruct (body r) as [data|]; run_adapter; [|reflexivity].
  destruct (py_iter data) as [items|e]; run_adapter; [|reflexivity].
  rewrite for_each_collect. simpl.
  destruct (snd (collect _ items [])); reflexivity.
Qed.

(** [query_nws] in closed form: the envelope check, the grid point, the
    address of the station list, the station list. *)
Lemma query_nws_shape (lat lon radius_km : Q) :
  query_nws net lat lon radius_km =
  if negb (nws_covers lat lon) then (Ok [], [])
  else
    let points := nws_points_request lat lon in
    match net points with
    | None => failed "Error querying NWS" RequestException [Requested points]
    | Some r =>
        if (status_code r =? 404)%Z then (Ok [], [Requested points])
        else
          match (data <- decode r ;;
                 properties <- py_get data "properties" (JObj []) ;;
                 py_get properties "observationStations" JNull)%res with
          | Raise e => failed "Error querying NWS" e [Requested points]
          | Ok stations_url =>
              if negb (truthy stations_url) then (Ok [], [Requested points])
              else
                match stations_url with
                | JStr u =>
                    let listing := {| url := u; params := [] |} in
                    match (stations_data <- fetch net listing ;;
                           features <- py_get stations_data "features" (JArr []) ;;
                           py_iter features)%res with
                    | Raise e =>
                        failed "Error querying NWS" e [Requested points; Requested listing]
                    | Ok items =>
                        looped "Error querying NWS" (nws_station lat lon radius_km) items
                          [Requested points; Requested listing]
                    end
                | _ => failed "Error querying NWS" RequestException [Requested points]
                end
          end
    end.
Proof.
  unfold query_nws, query_nws_body, fetch, decode, failed, looped.
  destruct (negb (nws_covers lat lon)); run_adapter; [reflexivity|].
  destruct (net (nws_points_request lat lon)) as [r|]; run_adapter; [|reflexivity].
  destruct (status_code r =? 404)%Z; run_adapter; [reflexivity|].
  destruct ((400 <=? status_code r)%Z && (status_code r <? 600)%Z); run_adapter; [reflexivity|].
  destruct (body r) as [data|]; run_adapter; [|reflexivity].
  unfold rbind at 1.
  destruct (py_get data "properties" (JObj [])) as [properties|e]; run_adapter; [|reflexivity].
  unfold rbind at 1.
  destruct (py_get properties "observationStations" JNull) as [stations_url|e];
    run_adapter; [|reflexivity].
  destruct (negb (truthy stations_url)); run_adapter; [reflexivity|].
  destruct stations_url as [| | | |u| |]; run_adapter; try reflexivity.
  destruct (net {| url := u; params := [] |}) as [r2|]; run_adapter; [|reflexivity].
  destruct ((400 <=? status_code r2)%Z && (status_code r2 <? 600)%Z); run_adapter; [reflexivity|].
  destruct (body r2) as [stations_data|]; run_adapter; [|reflexivity].
  unfold rbind at 1.
  destruct (py_get stations_data "features" (JArr [])) as [features|e];
    run_adapter; [|reflexivity].
  unfold rbind.
  destruct (py_iter features) as [items|e]; run_adapter; [|reflexivity].
  rewrite for_each_collect. simpl.
  destruct (snd (collect _ items [])); reflexivity.
Qed.

(** [query_bom] in closed form: it sends nothing and finds nothing. *)
Lemma query_bom_shape (lat lon radius_km : Q) :
  query_bom lat lon radius_km =
  (Ok [],
   if bom_covers lat lon
   then [Printed (Line "Note: BOM provider requires state-specific queries (not implemented in this script)")]
   else []).
Proof.
  unfold query_bom, query_bom_body.
  destruct (bom_covers lat lon); reflexivity.
Qed.

End AdapterShapes.

(** ** The adapters: failures stay inside *)

Lemma collect_app (f : json -> loop_result) (pre rest : list json) :
  all_parse f pre ->
  collect f (pre ++ rest) [] = collect f rest (admitted f pre).
Proof.
  unfold all_parse, admitted.
  generalize (@nil station) as acc.
  induction pre as [|x pre IH]; intros acc; simpl; [reflexivity|].
  destruct (f x) as [[st|]|e]; simpl; auto. discriminate.
Qed.

Lemma collect_raise (f : json -> loop_result) (pre post : list json) (bad : json) (e : exn) :
  all_parse f pre -> f bad = Raise e ->
  collect f (pre ++ bad :: post) [] = (admitted f pre, Some e).
Proof.
  intros Hpre Hbad. rewrite collect_app by assumption. simpl. now rewrite Hbad.
Qed.

Lemma failure_contained_intro (q : result (list station) * list event) (what : string)
    (sent : list event) (f : json -> loop_result) (items : result (list json)) :
  q = match items with
      | Raise e => failed what e sent
      | Ok l => looped what f l sent
      end ->
  failure_contained q what sent f items.
Proof.
  intros ->. unfold failure_contained, failed, looped. repeat split.
  - destruct items; exact I.
  - intros e ->. reflexivity.
  - intros l -> Hall. unfold all_parse in Hall. unfold admitted.
    rewrite Hall. simpl. now rewrite app_nil_r.
  - intros pre bad post e -> Hpre Hbad.
    now rewrite (collect_raise f pre post bad e Hpre Hbad).
Qed.

Lemma admit_station_at_target (lat lon radius_km : Q) (nm : json) :
  (0 <= radius_km)%Q ->
  admit_station lat lon radius_km lat lon (Ok nm) =
  Ok (Some {| name := nm; lat := lat; lon := lon; distance_km := 0 # 10 |}).
Proof.
  intros Hr. unfold admit_station. cbv zeta.
  rewrite distance_to_self, round1_zero.
  destruct (Rle_dec 0 (Q2R radius_km)) as [_|Hn]; [reflexivity|].
  exfalso. apply Hn. apply Qle_Rle in Hr. now rewrite RMicromega.Q2R_0 in Hr.
Qed.

Lemma ffvl_beacon_annecy :
  ffvl_beacon literal_float (459 # 10) (69 # 10) 50 beacon_annecy = Ok (Some station_annecy).
Proof.
  unfold ffvl_beacon, beacon_annecy. simpl.
  now rewrite admit_station_at_target.
Qed.

Lemma ffvl_beacon_broken :
  ffvl_beacon literal_float (459 # 10) (69 # 10) 50 beacon_broken = Raise TypeError.
Proof. reflexivity. Qed.

(** C1 fails as stated: a beacon whose latitude is [null] ends the loop with a
    [TypeError], and [query_ffvl] returns the beacon admitted before it, not
    the empty list. *)
Lemma query_ffvl_partial_result :
  query_ffvl (beacon_network 200 [beacon_annecy; beacon_broken]) literal_float (459 # 10) (69 # 10) 50 =
  (Ok [station_annecy],
   [Requested ffvl_request; Printed (ErrorLine "Error querying FFVL" TypeError)]).
Proof.
  rewrite query_ffvl_shape.
  change (fetch (beacon_network 200 [beacon_annecy; beacon_broken]) ffvl_request)
    with (Ok (A := json) (JArr [beacon_annecy; beacon_broken])).
  cbn [py_iter]. unfold looped. cbn [collect].
  rewrite ffvl_beacon_annecy, ffvl_beacon_broken. reflexivity.
Qed.

(** Only a 4xx or 5xx status makes [raise_for_status] raise: a 3xx answer that
    carries a beacon list is processed like a 200. *)
Lemma query_ffvl_status_304 :
  query_ffvl (beacon_network 304 [beacon_annecy]) literal_float (459 # 10) (69 # 10) 50 =
  (Ok [station_annecy], [Requested ffvl_request]).
Proof.
  rewrite query_ffvl_shape.
  change (fetch (beacon_network 304 [beacon_annecy]) ffvl_request)
    with (Ok (A := json) (JArr [beacon_annecy])).
  cbn [py_iter]. unfold looped. cbn [collect].
  rewrite ffvl_beacon_annecy. reflexivity.
Qed.

Lemma query_ffvl_status_503 :
  query_ffvl (beacon_network 503 [beacon_annecy]) literal_float (459 # 10) (69 # 10) 50 =
  (Ok [], [Requested ffvl_request; Printed (ErrorLine "Error querying FFVL" HTTPError)]).
Proof. rewrite query_ffvl_shape. reflexivity. Qed.

Section Containment.

Variable net : request -> option response.
Variable float_of_str : string -> option Q.
Variable py_str : json -> string.
Variables lat lon radius_km : Q.

Lemma query_ffvl_contained :
  failure_contained (query_ffvl net float_of_str lat lon radius_km)
    "Error querying FFVL" [Requested ffvl_request]
    (ffvl_beacon float_of_str lat lon radius_km) (ffvl_items net).
Proof.
  apply failure_contained_intro. rewrite query_ffvl_shape. unfold ffvl_items.
  destruct (fetch net ffvl_request) as [data|e]; simpl; [|reflexivity].
  destruct (py_iter data); reflexivity.
Qed.

Lemma query_pioupiou_contained :
  failure_contained (query_pioupiou net py_str lat lon radius_km)
    "Error querying Pioupiou" [Requested pioupiou_request]
    (pioupiou_station py_str lat lon radius_km) (pioupiou_items net).
Proof.
  apply failure_contained_intro. rewrite query_pioupiou_shape. unfold pioupiou_items.
  destruct (fetch net pioupiou_request) as [data|e]; simpl; reflexivity.
Qed.

Lemma query_awc_metar_contained (bbox : param) :
  bounding_box lat lon radius_km = Ok bbox ->
  failure_contained (query_awc_metar net py_str lat lon radius_km)
    "Error querying AWC METAR" [Requested (awc_request bbox)]
    (awc_station py_str lat lon radius_km) (awc_items net bbox).
Proof.
  intros Hbox. apply failure_contained_intro.
  rewrite query_awc_metar_shape, Hbox. unfold awc_items.
  destruct (fetch net (awc_request bbox)) as [data|e]; simpl; [|reflexivity].
  destruct (py_iter data); reflexivity.
Qed.

Lemma query_nws_contained (u : string) :
  nws_covers lat lon = true ->
  nws_grid_point net lat lon = Some (Ok (JStr u)) -> u <> ""%string ->
  failure_contained (query_nws net lat lon radius_km)
    "Error querying NWS"
    [Requested (nws_points_request lat lon); Requested (nws_listing_request u)]
    (nws_station lat lon radius_km) (nws_items net u).
Proof.
  intros Hcov Hgrid Hu. apply failure_contained_intro.
  rewrite query_nws_shape, Hcov. cbn [negb]. cbv zeta.
  unfold nws_grid_point in Hgrid.
  destruct (net (nws_points_request lat lon)) as [r|]; [|discriminate].
  destruct (status_code r =? 404)%Z; [discriminate|].
  injection Hgrid as ->.
  assert (Ht : truthy (JStr u) = true).
  { simpl. destruct (String.eqb_spec u ""); [contradiction|reflexivity]. }
  rewrite Ht. cbn [negb]. unfold nws_items, nws_listing_request.
  destruct (fetch net _) as [sd|e]; simpl; [|reflexivity].
  destruct (py_get sd "features" (JArr [])) as [features|e]; simpl; [|reflexivity].
  destruct (py_iter features); reflexivity.
Qed.

(** The outcomes of [query_nws] that end before the station list is fetched. *)
Lemma query_nws_early :
  nws_covers lat lon = true ->
  match nws_grid_point net lat lon with
  | None => query_nws net lat lon radius_km = (Ok [], [Requested (nws_points_request lat lon)])
  | Some (Raise e) =>
      query_nws net lat lon radius_km =
      (Ok [], [Requested (nws_points_request lat lon); Printed (ErrorLine "Error querying NWS" e)])
  | Some (Ok stations_url) => is_ok (fst (query_nws net lat lon radius_km))
  end.
Proof.
  intros Hcov. rewrite query_nws_shape, Hcov. cbn [negb]. cbv zeta.
  unfold nws_grid_point.
  destruct (net (nws_points_request lat lon)) as [r|]; [|reflexivity].
  destruct (status_code r =? 404)%Z; [reflexivity|].
  destruct (rbind (decode r) _) as [stations_url|e]; [|reflexivity].
  destruct (negb (truthy stations_url)); [exact I|].
  destruct stations_url as [| | | |u| |]; try exact I.
  destruct (rbind (fetch net _) _); exact I.
Qed.

End Containment.

(** C1 as amended: no adapter raises to its caller.  A failure before the loop
    (the request raises, the status is 4xx or 5xx, the body is not JSON, the
    document has not the expected shape) gives the empty list and one
    diagnostic line; a 404 at the grid point of [query_nws] gives the empty
    list and no diagnostic.  A record that raises inside the loop ends it, and
    the stations admitted from the records before it are returned together
    with the diagnostic. *)
Theorem adapters_contain_failures (net : request -> option response)
    (float_of_str : string -> option Q) (py_str : json -> string)
    (lat lon radius_km : Q) :
  failure_contained (query_ffvl net float_of_str lat lon radius_km)
    "Error querying FFVL" [Requested ffvl_request]
    (ffvl_beacon float_of_str lat lon radius_km) (ffvl_items net)
  /\
  failure_contained (query_pioupiou net py_str lat lon radius_km)
    "Error querying Pioupiou" [Requested pioupiou_request]
    (pioupiou_station py_str lat lon radius_km) (pioupiou_items net)
  /\
  match bounding_box lat lon radius_km with
  | Ok bbox =>
      failure_contained (query_awc_metar net py_str lat lon radius_km)
        "Error querying AWC METAR" [Requested (awc_request bbox)]
        (awc_station py_str lat lon radius_km) (awc_items net bbox)
  | Raise e =>
      query_awc_metar net py_str lat lon radius_km =
      (Ok [], [Printed (ErrorLine "Error querying AWC METAR" e)])
  end
  /\
  (if nws_covers lat lon then
     match nws_grid_point net lat lon with
     | None =>
         query_nws net lat lon radius_km = (Ok [], [Requested (nws_points_request lat lon)])
     | Some (Raise e) =>
         query_nws net lat lon radius_km =
         (Ok [], [Requested (nws_points_request lat lon);
                  Printed (ErrorLine "Error querying NWS" e)])
     | Some (Ok stations_url) =>
         if negb (truthy stations_url) then
           query_nws net lat lon radius_km = (Ok [], [Requested (nws_points_request lat lon)])
         else
           match stations_url with
           | JStr u =>
               failure_contained (query_nws net lat lon radius_km)
                 "Error querying NWS"
                 [Requested (nws_points_request lat lon); Requested (nws_listing_request u)]
                 (nws_station lat lon radius_km) (nws_items net u)
           | _ =>
               query_nws net lat lon radius_km =
               (Ok [], [Requested (nws_points_request lat lon);
                        Printed (ErrorLine "Error querying NWS" RequestException)])
           end
     end
   else query_nws net lat lon radius_km = (Ok [], []))
  /\
  fst (query_bom lat lon radius_km) = Ok [].
Proof.
  split; [apply query_ffvl_contained|].
  split; [apply query_pioupiou_contained|].
  split.
  { destruct (bounding_box lat lon radius_km) as [bbox|e] eqn:Hbox.
    - now apply query_awc_metar_contained.
    - rewrite query_awc_metar_shape, Hbox. reflexivity. }
  split; [|now rewrite query_bom_shape].
  destruct (nws_covers lat lon) eqn:Hcov;
    [|rewrite query_nws_shape, Hcov; reflexivity].
  destruct (nws_grid_point net lat lon) as [[stations_url|e]|] eqn:Hgrid.
  - destruct (negb (truthy stations_url)) eqn:Htruthy.
    + rewrite query_nws_shape, Hcov. cbn [negb]. cbv zeta.
      unfold nws_grid_point in Hgrid.
      destruct (net (nws_points_request lat lon)) as [r|]; [|discriminate].
      destruct (status_code r =? 404)%Z; [discriminate|].
      injection Hgrid as ->. now rewrite Htruthy.
    + destruct stations_url as [| | | |u| |]; try discriminate;
        try (rewrite query_nws_shape, Hcov; cbn [negb]; cbv zeta;
             unfold nws_grid_point in Hgrid;
             destruct (net (nws_points_request lat lon)) as [r|]; [|discriminate];
             destruct (status_code r =? 404)%Z; [discriminate|];
             injection Hgrid as ->; rewrite Htruthy; reflexivity).
      apply query_nws_contained; try assumption.
      intros ->. discriminate.
  - pose proof (query_nws_early net lat lon radius_km Hcov) as H.
    now rewrite Hgrid in H.
  - pose proof (query_nws_early net lat lon radius_km Hcov) as H.
    now rewrite Hgrid in H.
Qed.

(** ** The coverage check of the national weather service *)

Lemma Qleb_iff (x y : Q) : Qleb x y = true <-> (x <= y)%Q.
Proof. apply Qle_bool_iff. Qed.

Lemma envelope_check (lat lon min_lon max_lon min_lat max_lat : Q) :
  Qleb min_lon lon && Qleb lon max_lon && Qleb min_lat lat && Qleb lat max_lat = true <->
  in_envelope lat lon min_lon max_lon min_lat max_lat.
Proof.
  unfold in_envelope. rewrite !andb_true_iff, !Qleb_iff. tauto.
Qed.

Lemma nws_covers_iff (lat lon : Q) :
  nws_covers lat lon = true <->
  in_envelope lat lon (-125) (-67) 24 50 \/
  in_envelope lat lon (-180) (-130) 51 72 \/
  in_envelope lat lon (-178) (-154) 18 29.
Proof.
  unfold nws_covers, in_continental_us, in_alaska, in_hawaii.
  rewrite !orb_true_iff, !envelope_check. tauto.
Qed.

(** C5: for a target outside the three envelopes [query_nws] returns the empty
    list, prints nothing and sends no request, whatever the network is. *)
Theorem query_nws_outside_coverage (net : request -> option response)
    (lat lon radius_km : Q) :
  ~ in_envelope lat lon (-125) (-67) 24 50 ->
  ~ in_envelope lat lon (-180) (-130) 51 72 ->
  ~ in_envelope lat lon (-178) (-154) 18 29 ->
  query_nws net lat lon radius_km = (Ok [], []).
Proof.
  intros Hus Hak Hhi.
  assert (Hcov : nws_covers lat lon = false).
  { apply not_true_is_false. rewrite nws_covers_iff. tauto. }
  rewrite query_nws_shape, Hcov. reflexivity.
Qed.

Lemma query_nws_paris :
  query_nws (beacon_network 200 [beacon_annecy; beacon_broken]) 48 2 50 = (Ok [], []).
Proof.
  apply (query_nws_outside_coverage (beacon_network 200 [beacon_annecy; beacon_broken]) 48 2 50);
    unfold in_envelope; intros (H1 & H2 & H3 & H4); lra.
Defined.

(** ** The adapters: what is admitted *)

Lemma admit_station_in_range (tlat tlon radius_km a b : Q) (get_name : result json)
    (st : station) :
  admit_station tlat tlon radius_km a b get_name = Ok (Some st) ->
  lat st = a /\ lon st = b /\ in_range tlat tlon radius_km st.
Proof.
  unfold admit_station, in_range. cbv zeta.
  destruct (Rle_dec (distance_to tlat tlon a b) (Q2R radius_km)) as [Hle|_]; [|discriminate].
  destruct get_name as [nm|e]; cbn [rbind]; [|discriminate].
  intros [= <-]. cbn [lat lon distance_km]. auto.
Qed.

Lemma admit_station_admits (tlat tlon radius_km a b : Q) (nm : json) :
  (distance_to tlat tlon a b <= Q2R radius_km)%R ->
  admit_station tlat tlon radius_km a b (Ok nm) =
  Ok (Some {| name := nm; lat := a; lon := b;
              distance_km := round1 (distance_to tlat tlon a b) |}).
Proof.
  intros Hle. unfold admit_station. cbv zeta.
  destruct (Rle_dec _ _); [reflexivity | contradiction].
Qed.

Section Admission.

Variable float_of_str : string -> option Q.
Variable py_str : json -> string.
Variables tlat tlon radius_km : Q.

Lemma ffvl_beacon_in_range (beacon : json) (st : station) :
  ffvl_beacon float_of_str tlat tlon radius_km beacon = Ok (Some st) ->
  in_range tlat tlon radius_km st.
Proof.
  unfold ffvl_beacon. intros H.
  destruct (py_get beacon "latitude" (JInt 0)) as [la|]; cbn [rbind] in H; [|discriminate].
  destruct (py_float float_of_str la) as [a|]; cbn [rbind] in H; [|discriminate].
  destruct (py_get beacon "longitude" (JInt 0)) as [lo|]; cbn [rbind] in H; [|discriminate].
  destruct (py_float float_of_str lo) as [b|]; cbn [rbind] in H; [|discriminate].
  now apply admit_station_in_range in H.
Qed.

Lemma pioupiou_station_in_range (record : json) (st : station) :
  pioupiou_station py_str tlat tlon radius_km record = Ok (Some st) ->
  in_range tlat tlon radius_km st.
Proof.
  unfold pioupiou_station. intros H.
  destruct (py_get record "meta" (JObj [])) as [m|]; cbn [rbind] in H; [|discriminate].
  destruct (py_get m "latitude" JNull) as [la|]; cbn [rbind] in H; [|discriminate].
  destruct (py_get m "longitude" JNull) as [lo|]; cbn [rbind] in H; [|discriminate].
  destruct (is_none la || is_none lo); [discriminate|].
  destruct (as_real la) as [a|]; cbn [rbind] in H; [|discriminate].
  destruct (as_real lo) as [b|]; cbn [rbind] in H; [|discriminate].
  now apply admit_station_in_range in H.
Qed.

Lemma awc_station_in_range (record : json) (st : station) :
  awc_station py_str tlat tlon radius_km record = Ok (Some st) ->
  in_range tlat tlon radius_km st.
Proof.
  unfold awc_station. intros H.
  destruct (py_get record "lat" JNull) as [la|]; cbn [rbind] in H; [|discriminate].
  destruct (py_get record "lon" JNull) as [lo|]; cbn [rbind] in H; [|discriminate].
  destruct (is_none la || is_none lo); [discriminate|].
  destruct (as_real la) as [a|]; cbn [rbind] in H; [|discriminate].
  destruct (as_real lo) as [b|]; cbn [rbind] in H; [|discriminate].
  now apply admit_station_in_range in H.
Qed.

Lemma nws_station_in_range (record : json) (st : station) :
  nws_station tlat tlon radius_km record = Ok (Some st) ->
  in_range tlat tlon radius_km st.
Proof.
  unfold nws_station. intros H.
  destruct (py_get record "properties" (JObj [])) as [props|]; cbn [rbind] in H; [|discriminate].
  destruct (py_get record "geometry" (JObj [])) as [g|]; cbn [rbind] in H; [|discriminate].
  destruct (py_get g "coordinates" (JArr [])) as [coords|]; cbn [rbind] in H; [|discriminate].
  destruct (py_len coords) as [n|]; cbn [rbind] in H; [|discriminate].
  destruct (n <? 2)%nat; [discriminate|].
  destruct (py_index coords 0) as [lo|]; cbn [rbind] in H; [|discriminate].
  destruct (py_index coords 1) as [la|]; cbn [rbind] in H; [|discriminate].
  destruct (as_real la) as [a|]; cbn [rbind] in H; [|discriminate].
  destruct (as_real lo) as [b|]; cbn [rbind] in H; [|discriminate].
  now apply admit_station_in_range in H.
Qed.

End Admission.

Lemma collect_Forall (P : station -> Prop) (f : json -> loop_result) (items : list json)
    (acc : list station) :
  (forall x st, f x = Ok (Some st) -> P st) ->
  Forall P acc -> Forall P (fst (collect f items acc)).
Proof.
  intros Hf. revert acc. induction items as [|x items IH]; intros acc Hacc; cbn [collect].
  - exact Hacc.
  - destruct (f x) as [[st|]|e] eqn:Hx; cbn [fst]; auto.
    apply IH. apply Forall_app. split; [assumption|].
    constructor; [|constructor]. now apply (Hf x).
Qed.

Lemma looped_Forall (P : station -> Prop) (what : string) (f : json -> loop_result)
    (items : list json) (sent : list event) (l : list station) :
  (forall x st, f x = Ok (Some st) -> P st) ->
  fst (looped what f items sent) = Ok l -> Forall P l.
Proof.
  intros Hf [= <-]. apply collect_Forall; [assumption | constructor].
Qed.

Lemma failed_Forall (P : station -> Prop) (what : string) (e : exn) (sent : list event)
    (l : list station) :
  fst (failed what e sent) = Ok l -> Forall P l.
Proof. intros [= <-]. constructor. Qed.

(** The distance stored for a station in range exceeds the radius by at most
    one twentieth of a kilometre. *)
Lemma in_range_stored_distance (tlat tlon radius_km : Q) (st : station) :
  in_range tlat tlon radius_km st -> (distance_km st <= radius_km + (5 # 100))%Q.
Proof.
  intros [Hle Hstored]. apply Rle_Qle.
  rewrite Hstored, Q2R_plus.
  pose proof (round1_close (distance_to tlat tlon (lat st) (lon st))) as Hclose.
  replace (Q2R (5 # 100)) with (1 / 20)%R by (unfold Q2R; simpl; lra).
  lra.
Qed.


(** The beacon 2^-11 degrees north of [(0, 0)] is between 51 and 70 metres away. *)
Lemma distance_to_beacon_close :
  (51 / 1000 < distance_to 0 0 (1 # 2048) 0 < 70 / 1000)%R.
Proof.
  unfold distance_to.
  assert (H0 : Q2R 0 = 0%R) by (unfold Q2R; simpl; lra).
  assert (H1 : Q2R (1 # 2048) = (1 / 2048)%R) by (unfold Q2R; simpl; lra).
  rewrite H0, H1, haversine_distance_meridian by lra.
  pose proof PI_bounds. lra.
Qed.

Lemma ffvl_beacon_close (float_of_str : string -> option Q) :
  ffvl_beacon float_of_str 0 0 (5 # 64) beacon_close = Ok (Some station_close).
Proof.
  pose proof distance_to_beacon_close as [Hlo Hhi].
  unfold ffvl_beacon, beacon_close. simpl.
  change (inject_Z 0) with 0%Q.
  rewrite admit_station_admits.
  - unfold station_close, round1. do 3 f_equal.
    rewrite (Rround_half_even_unique _ 1); [reflexivity | lra].
  - replace (Q2R (5 # 64)) with (5 / 64)%R by (unfold Q2R; simpl; lra). lra.
Qed.

(** A stored distance above the radius: the beacon is within the radius of
    5/64 km, and its distance is stored as 0.1 km. *)
Lemma query_ffvl_stored_above_radius :
  fst (query_ffvl (beacon_network 200 [beacon_close]) literal_float 0 0 (5 # 64)) = Ok [station_close] /\
  (5 # 64 < distance_km station_close)%Q.
Proof.
  split; [|reflexivity].
  rewrite query_ffvl_shape.
  change (fetch (beacon_network 200 [beacon_close]) ffvl_request) with (Ok (A := json) (JArr [beacon_close])).
  cbn [py_iter]. unfold looped. cbn [collect fst].
  now rewrite ffvl_beacon_close.
Qed.

Section Range.

Variable net : request -> option response.
Variable float_of_str : string -> option Q.
Variable py_str : json -> string.
Variables tlat tlon radius_km : Q.

Ltac split_shape H :=
  repeat match type of H with
         | fst (match ?x with _ => _ end) = _ => destruct x
         | fst (if ?c then _ else _) = _ => destruct c
         | _ => progress cbv zeta in H
         end;
  first [ now (injection H as <-; constructor)
        | now (eapply failed_Forall; exact H)
        | idtac ].

Lemma query_ffvl_in_range (l : list station) :
  fst (query_ffvl net float_of_str tlat tlon radius_km) = Ok l ->
  Forall (in_range tlat tlon radius_km) l.
Proof.
  rewrite query_ffvl_shape. intros H. split_shape H.
  eapply looped_Forall; [|exact H]. apply ffvl_beacon_in_range.
Qed.

Lemma query_pioupiou_in_range (l : list station) :
  fst (query_pioupiou net py_str tlat tlon radius_km) = Ok l ->
  Forall (in_range tlat tlon radius_km) l.
Proof.
  rewrite query_pioupiou_shape. intros H. split_shape H.
  eapply looped_Forall; [|exact H]. apply pioupiou_station_in_range.
Qed.

Lemma query_awc_metar_in_range (l : list station) :
  fst (query_awc_metar net py_str tlat tlon radius_km) = Ok l ->
  Forall (in_range tlat tlon radius_km) l.
Proof.
  rewrite query_awc_metar_shape. intros H. split_shape H.
  eapply looped_Forall; [|exact H]. apply awc_station_in_range.
Qed.

Lemma query_nws_in_range (l : list station) :
  fst (query_nws net tlat tlon radius_km) = Ok l ->
  Forall (in_range tlat tlon radius_km) l.
Proof.
  rewrite query_nws_shape. intros H. split_shape H.
  eapply looped_Forall; [|exact H]. apply nws_station_in_range.
Qed.

Lemma query_bom_in_range (l : list station) :
  fst (query_bom tlat tlon radius_km) = Ok l ->
  Forall (in_range tlat tlon radius_km) l.
Proof. rewrite query_bom_shape. intros [= <-]. constructor. Qed.

End Range.

(** C9: a station an adapter returns lies within [radius_km] of the target by
    the haversine distance, and its [distance_km] is that distance rounded to
    one decimal; so [distance_km] is at most [radius_km + 0.05].  It can be
    above [radius_km]: 54 metres are stored as 0.1 km. *)
Theorem returned_stations_in_range (net : request -> option response)
    (float_of_str : string -> option Q) (py_str : json -> string)
    (tlat tlon radius_km : Q) :
  (forall q l st,
      In q [query_ffvl net float_of_str tlat tlon radius_km;
            query_pioupiou net py_str tlat tlon radius_km;
            query_awc_metar net py_str tlat tlon radius_km;
            query_nws net tlat tlon radius_km;
            query_bom tlat tlon radius_km] ->
      fst q = Ok l -> In st l ->
      in_range tlat tlon radius_km st /\
      (distance_km st <= radius_km + (5 # 100))%Q) /\
  (exists net' r' st,
      fst (query_ffvl net' float_of_str 0 0 r') = Ok [st] /\
      in_range 0 0 r' st /\ (r' < distance_km st)%Q).
Proof.
  split.
  - intros q l st Hq Hl Hst.
    assert (Hall : Forall (in_range tlat tlon radius_km) l).
    { cbn [In] in Hq.
      destruct Hq as [<-|[<-|[<-|[<-|[<-|[]]]]]].
      - now apply (query_ffvl_in_range net float_of_str).
      - now apply (query_pioupiou_in_range net py_str).
      - now apply (query_awc_metar_in_range net py_str).
      - now apply (query_nws_in_range net).
      - now apply query_bom_in_range. }
    rewrite Forall_forall in Hall.
    assert (Hin : in_range tlat tlon radius_km st).
    { apply Hall. now apply list_elem_of_In. }
    split; [assumption | now apply (in_range_stored_distance tlat tlon)].
  - exists (beacon_network 200 [beacon_close]), (5 # 64), station_close.
    assert (Hbeacon : ffvl_beacon float_of_str 0 0 (5 # 64) beacon_close
                      = Ok (Some station_close)).
    { apply ffvl_beacon_close. }
    assert (Hq : fst (query_ffvl (beacon_network 200 [beacon_close]) float_of_str 0 0 (5 # 64))
                 = Ok [station_close]).
    { rewrite query_ffvl_shape.
      change (fetch (beacon_network 200 [beacon_close]) ffvl_request)
        with (Ok (A := json) (JArr [beacon_close])).
      cbn [py_iter]. unfold looped. cbn [collect fst]. now rewrite Hbeacon. }
    split; [exact Hq|]. split; [|reflexivity].
    now apply (ffvl_beacon_in_range float_of_str 0 0 (5 # 64) beacon_close).
Qed.

(** ** Records with a missing coordinate *)






(** The same on sample records: a beacon whose coordinates are texts is read
    with [float], a community station without longitude is skipped. *)
Example literal_float_annecy : literal_float "45.9" = Some (459 # 10).
Proof. reflexivity. Qed.

Example ffvl_beacon_annecy_text :
  ffvl_beacon literal_float (459 # 10) (69 # 10) 50 beacon_annecy_text
  = Ok (Some station_annecy).
Proof.
  unfold ffvl_beacon, beacon_annecy_text. simpl.
  now rewrite admit_station_at_target.
Qed.

Example pioupiou_skips_no_longitude :
  pioupiou_station literal_str 0 0 50 pioupiou_no_longitude = Ok None.
Proof. reflexivity. Qed.

(** ** Step 3: the station-to-provider mapping *)

Lemma observed_by_add_station (p q k : string) (agg : aggregation) (st : station) :
  q ∈ observed_by (station_providers (add_station p agg st)) k <->
  q ∈ observed_by (station_providers agg) k \/ (q = p /\ station_key st = k).
Proof.
  unfold add_station, observed_by. cbn [station_providers].
  destruct (decide (station_key st = k)) as [<-|Hne].
  - rewrite lookup_insert_eq. cbn [default]. set_solver.
  - rewrite lookup_insert_ne by assumption. naive_solver.
Qed.

Lemma dom_add_station (p k : string) (agg : aggregation) (st : station) :
  k ∈ dom (station_providers (add_station p agg st)) <->
  k ∈ dom (station_providers agg) \/ station_key st = k.
Proof.
  unfold add_station. cbn [station_providers].
  rewrite dom_insert_L. set_solver.
Qed.

Lemma has_key_app (k : string) (d d' : list (string * station)) :
  has_key k (d ++ d') = has_key k d || has_key k d'.
Proof. unfold has_key. apply existsb_app. Qed.

Lemma has_key_add_station (p k : string) (agg : aggregation) (st : station) :
  has_key k (all_stations (add_station p agg st)) = true <->
  has_key k (all_stations agg) = true \/ station_key st = k.
Proof.
  unfold add_station. cbn [all_stations].
  destruct (has_key (station_key st) (all_stations agg)) eqn:Hseen.
  - split; [tauto|]. intros [H| <-]; assumption.
  - rewrite has_key_app, orb_true_iff. cbn [has_key existsb fst].
    rewrite orb_false_r. now destruct (String.eqb_spec (station_key st) k); intuition.
Qed.

(** What one provider's list adds. *)
Lemma add_provider_spec (p : string) (sts : list station) (agg : aggregation) :
  (forall q k,
      q ∈ observed_by (station_providers (add_provider agg (p, sts))) k <->
      q ∈ observed_by (station_providers agg) k \/
      (q = p /\ exists st, In st sts /\ station_key st = k)) /\
  (forall k,
      k ∈ dom (station_providers (add_provider agg (p, sts))) <->
      k ∈ dom (station_providers agg) \/ exists st, In st sts /\ station_key st = k) /\
  (forall k,
      has_key k (all_stations (add_provider agg (p, sts))) = true <->
      has_key k (all_stations agg) = true \/ exists st, In st sts /\ station_key st = k).
Proof.
  unfold add_provider. cbn [fst snd].
  revert agg. induction sts as [|st sts IH]; intros agg; cbn [fold_left].
  - cbn [In]. naive_solver.
  - destruct (IH (add_station p agg st)) as (IH1 & IH2 & IH3).
    split; [|split].
    + intros q k. rewrite IH1, observed_by_add_station. cbn [In]. naive_solver.
    + intros k. rewrite IH2, dom_add_station. cbn [In]. naive_solver.
    + intros k. rewrite IH3, has_key_add_station. cbn [In]. naive_solver.
Qed.

Lemma fold_providers_spec (providers : list (string * list station)) (agg : aggregation) :
  (forall q k,
      q ∈ observed_by (station_providers (fold_left add_provider providers agg)) k <->
      q ∈ observed_by (station_providers agg) k \/
      exists st, reports providers q st /\ station_key st = k) /\
  (forall k,
      k ∈ dom (station_providers (fold_left add_provider providers agg)) <->
      k ∈ dom (station_providers agg) \/
      exists q st, reports providers q st /\ station_key st = k) /\
  (forall k,
      has_key k (all_stations (fold_left add_provider providers agg)) = true <->
      has_key k (all_stations agg) = true \/
      exists q st, reports providers q st /\ station_key st = k).
Proof.
  unfold reports.
  revert agg. induction providers as [|[p sts] providers IH]; intros agg; cbn [fold_left].
  - cbn [In]. naive_solver.
  - destruct (IH (add_provider agg (p, sts))) as (IH1 & IH2 & IH3).
    destruct (add_provider_spec p sts agg) as (A1 & A2 & A3).
    split; [|split].
    + intros q k. rewrite IH1, A1. cbn [In]. naive_solver.
    + intros k. rewrite IH2, A2. cbn [In]. naive_solver.
    + intros k. rewrite IH3, A3. cbn [In]. naive_solver.
Qed.

Lemma reports_perm (providers providers' : list (string * list station))
    (q : string) (st : station) :
  Permutation providers providers' -> reports providers q st -> reports providers' q st.
Proof.
  intros Hperm (sts & Hin & Hst). exists sts. split; [|assumption].
  now apply (Permutation_in _ Hperm).
Qed.

Lemma observed_by_aggregate (providers : list (string * list station)) (q k : string) :
  q ∈ observed_by (station_providers (aggregate providers)) k <->
  exists st, reports providers q st /\ station_key st = k.
Proof.
  unfold aggregate.
  destruct (fold_providers_spec providers
              {| station_providers := ∅; all_stations := [] |}) as (H & _ & _).
  rewrite H. unfold observed_by. cbn [station_providers].
  rewrite lookup_empty. cbn [default]. set_solver.
Qed.

Lemma dom_aggregate (providers : list (string * list station)) (k : string) :
  k ∈ dom (station_providers (aggregate providers)) <->
  exists q st, reports providers q st /\ station_key st = k.
Proof.
  unfold aggregate.
  destruct (fold_providers_spec providers
              {| station_providers := ∅; all_stations := [] |}) as (_ & H & _).
  rewrite H. cbn [station_providers]. rewrite dom_empty_L. set_solver.
Qed.

Lemma has_key_aggregate (providers : list (string * list station)) (k : string) :
  has_key k (all_stations (aggregate providers)) = true <->
  exists q st, reports providers q st /\ station_key st = k.
Proof.
  unfold aggregate.
  destruct (fold_providers_spec providers
              {| station_providers := ∅; all_stations := [] |}) as (_ & _ & H).
  rewrite H. cbn [all_stations has_key existsb]. naive_solver.
Qed.

Lemma elem_of_station_keys (agg : aggregation) (k : string) :
  k ∈ station_keys agg <-> has_key k (all_stations agg) = true.
Proof.
  unfold station_keys, has_key.
  rewrite elem_of_list_to_set, list_elem_of_In, in_map_iff, existsb_exists.
  split.
  - intros (kv & <- & Hin). exists kv. split; [assumption | apply String.eqb_refl].
  - intros (kv & Hin & Heq). exists kv. split; [|assumption].
    now apply String.eqb_eq.
Qed.

Lemma lookup_observed_by (sp : gmap string (gset string)) (k : string) :
  sp !! k = if decide (k ∈ dom sp) then Some (observed_by sp k) else None.
Proof.
  unfold observed_by. destruct (sp !! k) as [s|] eqn:Hk.
  - rewrite decide_True; [reflexivity|]. apply elem_of_dom. eauto.
  - rewrite decide_False; [reflexivity|]. now apply not_elem_of_dom.
Qed.

(** The keys of [all_stations] are those of [station_providers]. *)
Lemma station_keys_dom (providers : list (string * list station)) :
  station_keys (aggregate providers) = dom (station_providers (aggregate providers)).
Proof.
  apply set_eq. intros k.
  now rewrite elem_of_station_keys, has_key_aggregate, dom_aggregate.
Qed.

(** C3 fails as stated: two providers report one station with coordinates that
    share a key and distances that round differently; the distance kept for
    the key is the one of the provider processed first. *)
Lemma aggregate_distance_depends_on_order :
  Permutation twins_one_order twins_other_order /\
  station_key twin_station_a = station_key twin_station_b /\
  distance_km <$> representative (aggregate twins_one_order) "45.9219,6.8750"
    = Some (23 # 10) /\
  distance_km <$> representative (aggregate twins_other_order) "45.9219,6.8750"
    = Some (24 # 10).
Proof.
  split; [apply perm_swap|].
  split; [reflexivity|].
  split; vm_compute; reflexivity.
Qed.

(** C3 as amended: the order in which the providers are processed changes
    neither the set of station keys nor the providers recorded for any key. *)
Theorem aggregate_order_independent (providers providers' : list (string * list station)) :
  Permutation providers providers' ->
  station_keys (aggregate providers) = station_keys (aggregate providers') /\
  station_providers (aggregate providers) = station_providers (aggregate providers') /\
  forall key, observed_by (station_providers (aggregate providers)) key
              = observed_by (station_providers (aggregate providers')) key.
Proof.
  intros Hperm.
  assert (Hrep : forall q st, reports providers q st <-> reports providers' q st).
  { intros q st. split; apply reports_perm; [assumption | now symmetry]. }
  assert (Hobs : forall key, observed_by (station_providers (aggregate providers)) key
                             = observed_by (station_providers (aggregate providers')) key).
  { intros key. apply set_eq. intros q. rewrite !observed_by_aggregate.
    now setoid_rewrite Hrep. }
  assert (Hdom : dom (station_providers (aggregate providers))
                 = dom (station_providers (aggregate providers'))).
  { apply set_eq. intros k. rewrite !dom_aggregate. now setoid_rewrite Hrep. }
  split; [now rewrite !station_keys_dom|].
  split; [|exact Hobs].
  apply map_eq. intros k. rewrite !lookup_observed_by, Hdom, Hobs. reflexivity.
Qed.

Lemma aggregate_order_independent_twins :
  station_keys (aggregate twins_one_order) = station_keys (aggregate twins_other_order) /\
  station_providers (aggregate twins_one_order)
    = station_providers (aggregate twins_other_order) /\
  forall key, observed_by (station_providers (aggregate twins_one_order)) key
              = observed_by (station_providers (aggregate twins_other_order)) key.
Proof. apply (aggregate_order_independent twins_one_order twins_other_order), perm_swap. Defined.

(** ** Step 5: the order of the rows *)

Lemma Qltb_true (x y : Q) : Qltb x y = true -> (x < y)%Q.
Proof.
  unfold Qltb. intros H. apply negb_true_iff in H.
  apply Qnot_le_lt. intros Hle. apply Qle_bool_iff in Hle. congruence.
Qed.

Lemma Qltb_false (x y : Q) : Qltb x y = false -> (y <= x)%Q.
Proof.
  unfold Qltb. intros H. apply negb_false_iff in H. now apply Qle_bool_iff.
Qed.

Lemma insert_by_distance_perm (x : string * station) (l : list (string * station)) :
  Permutation (insert_by_distance x l) (x :: l).
Proof.
  induction l as [|y l IH]; simpl; [reflexivity|].
  destruct (Qltb _ _); [reflexivity|].
  rewrite IH. apply perm_swap.
Qed.

Lemma insert_by_distance_sorted (x : string * station) (l : list (string * station)) :
  StronglySorted by_distance l -> StronglySorted by_distance (insert_by_distance x l).
Proof.
  induction 1 as [|y l Hsorted IH Hall]; simpl.
  - constructor; constructor.
  - destruct (Qltb _ _) eqn:Hlt.
    + apply Qltb_true in Hlt.
      constructor; [now constructor|].
      constructor; [unfold by_distance, item_distance; lra|].
      eapply Forall_impl; [exact Hall|].
      unfold by_distance, item_distance. intros z Hz. lra.
    + apply Qltb_false in Hlt.
      constructor; [assumption|].
      rewrite (insert_by_distance_perm x l).
      constructor; assumption.
Qed.

(** An item goes behind every item already listed at its distance. *)
Lemma insert_by_distance_stable (d : Q) (x : string * station) (l : list (string * station)) :
  StronglySorted by_distance l ->
  List.filter (at_distance d) (insert_by_distance x l) =
  List.filter (at_distance d) l ++ List.filter (at_distance d) [x].
Proof.
  induction 1 as [|y l Hsorted IH Hall]; [reflexivity|].
  cbn [insert_by_distance].
  destruct (Qltb _ _) eqn:Hlt.
  - apply Qltb_true in Hlt.
    cbn [List.filter].
    destruct (at_distance d x) eqn:Hx; [|now rewrite app_nil_r].
    assert (Hnone : List.filter (at_distance d) (y :: l) = []).
    { apply Qeq_bool_iff in Hx. unfold item_distance in Hx.
      assert (Hall' : Forall (by_distance y) (y :: l)).
      { constructor; [unfold by_distance, item_distance; lra | assumption]. }
      clear - Hall' Hx Hlt. induction Hall' as [|z l' Hz _ IH']; [reflexivity|].
      cbn [List.filter]. rewrite IH'.
      destruct (at_distance d z) eqn:Hz'; [|reflexivity].
      apply Qeq_bool_iff in Hz'. unfold item_distance in Hz'. unfold by_distance, item_distance in Hz. lra. }
    cbn [List.filter] in Hnone. rewrite Hnone. reflexivity.
  - cbn [List.filter]. rewrite IH.
    destruct (at_distance d y); reflexivity.
Qed.

Lemma sorted_by_distance_acc (items acc : list (string * station)) :
  StronglySorted by_distance acc ->
  Permutation (fold_left (fun acc x => insert_by_distance x acc) items acc) (acc ++ items) /\
  StronglySorted by_distance (fold_left (fun acc x => insert_by_distance x acc) items acc) /\
  forall d,
    List.filter (at_distance d) (fold_left (fun acc x => insert_by_distance x acc) items acc)
    = List.filter (at_distance d) acc ++ List.filter (at_distance d) items.
Proof.
  revert acc. induction items as [|x items IH]; intros acc Hacc; cbn [fold_left].
  - rewrite app_nil_r. split; [reflexivity|]. split; [assumption|].
    intros d. now rewrite app_nil_r.
  - destruct (IH (insert_by_distance x acc)) as (Hperm & Hsorted & Hstable);
      [now apply insert_by_distance_sorted|].
    split; [|split].
    + rewrite Hperm, insert_by_distance_perm. apply Permutation_middle.
    + assumption.
    + intros d. rewrite Hstable, insert_by_distance_stable by assumption.
      rewrite <- app_assoc. f_equal.
      cbn [List.filter]. destruct (at_distance d x); reflexivity.
Qed.

(** [sorted] returns its items in ascending order of distance, items at equal
    distances in the order they had. *)
Lemma sorted_by_distance_spec (items : list (string * station)) :
  Permutation (sorted_by_distance items) items /\
  StronglySorted by_distance (sorted_by_distance items) /\
  forall d, List.filter (at_distance d) (sorted_by_distance items)
            = List.filter (at_distance d) items.
Proof. apply (sorted_by_distance_acc items []). constructor. Qed.

Lemma row_distances_app (ls ls' : list line) :
  row_distances (ls ++ ls') = row_distances ls ++ row_distances ls'.
Proof.
  induction ls as [|l ls IH]; [reflexivity|].
  destruct l; cbn [app row_distances]; rewrite IH; reflexivity.
Qed.

Lemma row_distances_no_rows (ls : list line) :
  forallb (fun l => negb (is_table_line l)) ls = true -> row_distances ls = [].
Proof.
  induction ls as [|l ls IH]; [reflexivity|].
  cbn [forallb]. intros [Hl Hls]%andb_true_iff.
  destruct l; cbn [row_distances]; try (now apply IH). discriminate.
Qed.

Lemma summary_lines_no_table (providers : list (string * list station)) (agg : aggregation) :
  forallb (fun l => negb (is_table_line l)) (summary_lines providers agg) = true.
Proof.
  unfold summary_lines. cbn [app forallb is_table_line negb andb].
  rewrite forallb_app. apply andb_true_iff. split; [|reflexivity].
  induction providers as [|p providers IH]; [reflexivity|].
  cbn [List.map forallb is_table_line negb andb]. exact IH.
Qed.

(** The rows printed list the distances of [sorted_stations] from its head on:
    all of them, unless a row raised. *)
Lemma print_rows_prefix (sp : gmap string (gset string)) (provider_names : list string)
    (sorted_stations : list (string * station)) :
  exists rest,
    List.map item_distance sorted_stations
    = row_distances (snd (print_rows sp provider_names sorted_stations)) ++ rest.
Proof.
  induction sorted_stations as [|[key st] l IH]; cbn [print_rows List.map].
  - exists []. reflexivity.
  - destruct (row_name (name st)) as [nm|e].
    + destruct IH as (rest & IH).
      destruct (print_rows sp provider_names l) as [r ls].
      exists rest. cbn [snd row_distances] in *. cbn [app]. now rewrite IH.
    + eexists. reflexivity.
Qed.

Lemma print_rows_complete (sp : gmap string (gset string)) (provider_names : list string)
    (sorted_stations : list (string * station)) :
  Forall (fun x => is_ok (row_name (name (snd x)))) sorted_stations ->
  fst (print_rows sp provider_names sorted_stations) = Ok tt /\
  row_distances (snd (print_rows sp provider_names sorted_stations))
  = List.map item_distance sorted_stations.
Proof.
  induction 1 as [|[key st] l Hx _ IH]; cbn [print_rows List.map]; [now split|].
  cbn [snd] in Hx. destruct (row_name (name st)) as [nm|e]; [|contradiction].
  destruct IH as (IH1 & IH2).
  destruct (print_rows sp provider_names l) as [r ls].
  cbn [fst snd row_distances] in *. split; [assumption | now rewrite IH2].
Qed.

Lemma report_row_distances (providers : list (string * list station)) :
  row_distances (snd (report providers)) =
  row_distances
    (snd (print_rows (station_providers (aggregate providers)) (List.map fst providers)
            (sorted_by_distance (all_stations (aggregate providers))))).
Proof.
  unfold report. cbv zeta.
  pose proof (summary_lines_no_table providers (aggregate providers)) as Hsum.
  apply row_distances_no_rows in Hsum.
  destruct (all_stations (aggregate providers)) as [|x l] eqn:Hall.
  - cbn [snd]. rewrite row_distances_app, Hsum. reflexivity.
  - destruct (print_rows _ _ _) as [r rows].
    cbn [snd]. rewrite !row_distances_app, Hsum.
    cbn [row_distances app]. destruct r; cbn [row_distances]; now rewrite app_nil_r.
Qed.

Lemma sorted_distances (l : list (string * station)) :
  StronglySorted by_distance l -> StronglySorted Qle (List.map item_distance l).
Proof.
  induction 1 as [|x l _ IH Hall]; cbn [List.map]; constructor; [assumption|].
  clear -Hall. induction Hall; cbn [List.map]; constructor; assumption.
Qed.

Lemma StronglySorted_prefix (l rest : list Q) :
  StronglySorted Qle (l ++ rest) -> StronglySorted Qle l.
Proof.
  induction l as [|x l IH]; cbn [app]; [constructor|].
  intros H. inversion H as [|? ? Hs Hall]; subst.
  constructor; [now apply IH|].
  apply Forall_app in Hall as [Hall _]. exact Hall.
Qed.

(** C4 fails as stated: two stations at the same distance are listed in the
    order in which their keys entered [all_stations], whichever key is the
    smaller; the station key does not break the tie. *)
Lemma tie_follows_insertion_order :
  (distance_km tie_north == distance_km tie_south)%Q /\
  List.map fst (sorted_by_distance (all_stations (aggregate tie_north_first)))
    = ["46.2500,6.5000"; "45.7500,6.5000"]%string /\
  List.map fst (sorted_by_distance (all_stations (aggregate tie_south_first)))
    = ["45.7500,6.5000"; "46.2500,6.5000"]%string /\
  snd (report tie_north_first) =
    summary_lines tie_north_first (aggregate tie_north_first)
    ++ [Line ""; Line rule80; Line "Markdown Table: Station Availability by Provider";
        Line rule80; Line ""; HeaderLine ["AWC METAR"%string]; RuleLine ["AWC METAR"%string];
        RowLine "North" (278 # 10) [true]; RowLine "South" (278 # 10) [true]; Line ""].
Proof.
  split; [reflexivity|].
  split; [vm_compute; reflexivity|].
  split; vm_compute; reflexivity.
Qed.

(** When every name is a text no row raises, and every station gets its row. *)
Lemma report_rows_complete (providers : list (string * list station)) :
  Forall (fun x => is_ok (row_name (name (snd x)))) (all_stations (aggregate providers)) ->
  row_distances (snd (report providers))
  = List.map item_distance (sorted_by_distance (all_stations (aggregate providers))).
Proof.
  intros Hnames. rewrite report_row_distances.
  apply print_rows_complete.
  destruct (sorted_by_distance_spec (all_stations (aggregate providers))) as (Hperm & _).
  now rewrite Hperm.
Qed.

(** ** Step 5: nothing found *)

Lemma add_provider_nothing (agg : aggregation) (p : string) :
  add_provider agg (p, []) = agg.
Proof. reflexivity. Qed.

Lemma aggregate_nothing (providers : list (string * list station)) :
  Forall (fun p => snd p = []) providers ->
  aggregate providers = {| station_providers := ∅; all_stations := [] |}.
Proof.
  intros Hall. unfold aggregate.
  generalize {| station_providers := ∅; all_stations := [] |}.
  induction Hall as [|[p sts] providers Hp _ IH]; intros agg; cbn [fold_left]; [reflexivity|].
  cbn [snd] in Hp. subst sts. now rewrite add_provider_nothing.
Qed.

(** ** A run of steps 3 to 5 *)

(** Two providers report one station, one of them a second station: two keys,
    the shared one marked for both providers, and the nearer station first. *)
Example scenario_report :
  List.map fst (all_stations (aggregate scenario))
    = ["45.9200,6.9100"; "46.3000,7.0000"]%string /\
  row_checks (station_providers (aggregate scenario))
    ["provider1"; "provider2"; "provider3"]%string "45.9200,6.9100" = [true; true; false] /\
  row_checks (station_providers (aggregate scenario))
    ["provider1"; "provider2"; "provider3"]%string "46.3000,7.0000" = [false; true; false] /\
  snd (report scenario) =
    [Line "📊 Results Summary:"; TotalLine 2; CountLine "provider1" 1;
     CountLine "provider2" 2; CountLine "provider3" 0; Line "";
     Line ""; Line rule80; Line "Markdown Table: Station Availability by Provider";
     Line rule80; Line "";
     HeaderLine ["provider1"; "provider2"; "provider3"]%string;
     RuleLine ["provider1"; "provider2"; "provider3"]%string;
     RowLine "A" (23 # 10) [true; true; false];
     RowLine "C" (451 # 10) [false; true; false];
     Line ""].
Proof.
  split; [vm_compute; reflexivity|].
  split; [vm_compute; reflexivity|].
  split; [vm_compute; reflexivity|].
  vm_compute. reflexivity.
Qed.

(** ** The main script *)

Section MainRun.

Variable net : request -> option response.
Variable float_of_str : string -> option Q.
Variable py_str : json -> string.
Variables tlat tlon : Q.

Lemma failure_contained_ok (q : result (list station) * list event) (what : string)
    (sent : list event) (f : json -> loop_result) (items : result (list json)) :
  failure_contained q what sent f items -> exists l, fst q = Ok l.
Proof.
  intros (Hok & _). destruct q as [[l|e] t]; [now exists l | contradiction].
Qed.

Lemma query_awc_metar_ok (radius_km : Q) :
  exists l, fst (query_awc_metar net py_str tlat tlon radius_km) = Ok l.
Proof.
  rewrite query_awc_metar_shape.
  repeat match goal with
         | |- context [match ?x with _ => _ end] => destruct x
         end; eexists; reflexivity.
Qed.

Lemma query_nws_ok (radius_km : Q) :
  exists l, fst (query_nws net tlat tlon radius_km) = Ok l.
Proof.
  rewrite query_nws_shape. cbv zeta.
  repeat match goal with
         | |- context [match ?x with _ => _ end] => destruct x
         | |- context [if ?c then _ else _] => destruct c
         end; eexists; reflexivity.
Qed.

(** [main] runs the five adapters in the order of the dict literal and reports
    on what they returned; no adapter stops it. *)
Lemma main_from_runs_all :
  exists ffvl pioupiou awc_metar nws,
    query_ffvl net float_of_str tlat tlon SEARCH_RADIUS_KM = (Ok ffvl, snd (query_ffvl net float_of_str tlat tlon SEARCH_RADIUS_KM)) /\
    query_pioupiou net py_str tlat tlon SEARCH_RADIUS_KM = (Ok pioupiou, snd (query_pioupiou net py_str tlat tlon SEARCH_RADIUS_KM)) /\
    query_awc_metar net py_str tlat tlon SEARCH_RADIUS_KM = (Ok awc_metar, snd (query_awc_metar net py_str tlat tlon SEARCH_RADIUS_KM)) /\
    query_nws net tlat tlon SEARCH_RADIUS_KM = (Ok nws, snd (query_nws net tlat tlon SEARCH_RADIUS_KM)) /\
    fst (main_from net float_of_str py_str tlat tlon) =
    fst (report [("FFVL Beacons", ffvl); ("Pioupiou", pioupiou); ("AWC METAR", awc_metar);
                 ("NWS", nws); ("BOM", [])]%string).
Proof.
  destruct (failure_contained_ok _ _ _ _ _
              (query_ffvl_contained net float_of_str tlat tlon SEARCH_RADIUS_KM)) as (ffvl & Hf).
  destruct (failure_contained_ok _ _ _ _ _
              (query_pioupiou_contained net py_str tlat tlon SEARCH_RADIUS_KM)) as (piou & Hp).
  destruct (query_awc_metar_ok SEARCH_RADIUS_KM) as (awc & Ha).
  destruct (query_nws_ok SEARCH_RADIUS_KM) as (nws & Hn).
  exists ffvl, piou, awc, nws.
  unfold main_from, call_provider.
  rewrite query_bom_shape.
  destruct (query_ffvl net float_of_str tlat tlon SEARCH_RADIUS_KM) as [r1 t1].
  destruct (query_pioupiou net py_str tlat tlon SEARCH_RADIUS_KM) as [r2 t2].
  destruct (query_awc_metar net py_str tlat tlon SEARCH_RADIUS_KM) as [r3 t3].
  destruct (query_nws net tlat tlon SEARCH_RADIUS_KM) as [r4 t4].
  cbn [fst snd] in *. subst r1 r2 r3 r4.
  repeat split.
  destruct (report _) as [r ls]. reflexivity.
Qed.

End MainRun.

(** * Further properties *)

(** ** GeoMath, continued *)

Lemma PI_tight : (3141 / 1000 < PI < 3143 / 1000)%R.
Proof.
  pose proof (PI_2_3_7_ineq 1) as [Hlo Hhi].
  unfold sum_f_R0, tg_alt, PI_2_3_7_tg, Ratan_seq in Hlo, Hhi.
  simpl in Hlo, Hhi.
  match type of Hlo with (?e <= _)%R =>
    replace e with (49509354404 / 63038098935)%R in Hlo by field end.
  match type of Hhi with (_ <= ?e)%R =>
    replace e with (16040687 / 20420505)%R in Hhi by field end.
  split; lra.
Qed.

Lemma sin_sq_half (x : R) : ((sin (x / 2)) ^ 2 = (1 - cos x) / 2)%R.
Proof.
  replace x with (2 * (x / 2))%R at 2 by lra.
  rewrite cos_2a_sin. lra.
Qed.

Lemma haversine_a_alt (lat1 lon1 lat2 lon2 : R) :
  (2 * haversine_a lat1 lon1 lat2 lon2 =
   1 - sin (GeoMath.radians lat1) * sin (GeoMath.radians lat2)
     - cos (GeoMath.radians lat1) * cos (GeoMath.radians lat2)
       * cos (GeoMath.radians lon2 - GeoMath.radians lon1))%R.
Proof.
  unfold haversine_a. rewrite !sin_sq_half, cos_minus. lra.
Qed.

Lemma haversine_a_range (lat1 lon1 lat2 lon2 : R) :
  (0 <= haversine_a lat1 lon1 lat2 lon2 <= 1)%R.
Proof.
  pose proof (haversine_a_alt lat1 lon1 lat2 lon2) as E.
  set (a := haversine_a lat1 lon1 lat2 lon2) in *. clearbody a.
  pose proof (sin2_cos2 (GeoMath.radians lat1)) as H1.
  pose proof (sin2_cos2 (GeoMath.radians lat2)) as H2.
  pose proof (COS_bound (GeoMath.radians lon2 - GeoMath.radians lon1)) as [Ht1 Ht2].
  unfold Rsqr in H1, H2.
  set (s1 := sin (GeoMath.radians lat1)) in *. set (c1 := cos (GeoMath.radians lat1)) in *.
  set (s2 := sin (GeoMath.radians lat2)) in *. set (c2 := cos (GeoMath.radians lat2)) in *.
  set (t := cos (GeoMath.radians lon2 - GeoMath.radians lon1)) in *.
  clearbody s1 c1 s2 c2 t.
  assert (Ht : (0 <= (1 - t * t) * (c2 * c2))%R).
  { apply Rmult_le_pos; [|apply Rle_0_sqr].
    replace (1 - t * t)%R with ((1 - t) * (1 + t))%R by ring.
    apply Rmult_le_pos; lra. }
  pose proof (Rle_0_sqr (s1 - s2)) as Q1. pose proof (Rle_0_sqr (c1 - t * c2)) as Q2.
  pose proof (Rle_0_sqr (s1 + s2)) as Q3. pose proof (Rle_0_sqr (c1 + t * c2)) as Q4.
  unfold Rsqr in Q1, Q2, Q3, Q4.
  split.
  - replace a with (((s1 - s2) * (s1 - s2) + (c1 - t * c2) * (c1 - t * c2)
                     + (1 - t * t) * (c2 * c2)
                     + (1 - (s1 * s1 + c1 * c1)) + (1 - (s2 * s2 + c2 * c2))
                     + 2 * (2 * a - (1 - s1 * s2 - c1 * c2 * t))) / 4)%R by field.
    rewrite H1, H2, E. lra.
  - cut (0 <= 1 - a)%R; [lra|].
    replace (1 - a)%R with (((s1 + s2) * (s1 + s2) + (c1 + t * c2) * (c1 + t * c2)
                     + (1 - t * t) * (c2 * c2)
                     + (1 - (s1 * s1 + c1 * c1)) + (1 - (s2 * s2 + c2 * c2))
                     - 2 * (2 * a - (1 - s1 * s2 - c1 * c2 * t))) / 4)%R by field.
    rewrite H1, H2, E. lra.
Qed.

(** [asin] does not go below an angle whose sine it is given at least. *)
Lemma asin_lower (y x : R) :
  (- (PI / 2) <= y <= PI / 2)%R -> (-1 <= x <= 1)%R -> (sin y <= x)%R -> (y <= asin x)%R.
Proof.
  intros Hy Hx Hs.
  destruct (Rle_dec y (asin x)) as [|Hn]; [assumption|].
  apply Rnot_le_lt in Hn.
  pose proof (asin_bound x) as [Hb1 Hb2].
  pose proof (sin_increasing_1 (asin x) y Hb1 Hb2 (proj1 Hy) (proj2 Hy) Hn) as Hlt.
  rewrite sin_asin in Hlt by assumption. lra.
Qed.

Lemma sqrt_range (a : R) : (0 <= a <= 1)%R -> (0 <= sqrt a <= 1)%R.
Proof.
  intros [H0 H1]. split; [apply sqrt_pos|].
  rewrite <- sqrt_1. now apply sqrt_le_1_alt.
Qed.

Lemma haversine_distance_unfold (lat1 lon1 lat2 lon2 : R) :
  GeoMath.haversine_distance lat1 lon1 lat2 lon2
  = (2 * asin (sqrt (haversine_a lat1 lon1 lat2 lon2)) * 6371)%R.
Proof. reflexivity. Qed.

Lemma haversine_distance_nonneg (lat1 lon1 lat2 lon2 : R) :
  (0 <= GeoMath.haversine_distance lat1 lon1 lat2 lon2)%R.
Proof.
  rewrite haversine_distance_unfold.
  pose proof (sqrt_range _ (haversine_a_range lat1 lon1 lat2 lon2)) as Hs.
  pose proof PI_RGT_0 as Hpi.
  assert (0 <= asin (sqrt (haversine_a lat1 lon1 lat2 lon2)))%R.
  { apply asin_lower; [lra|lra|rewrite sin_0; lra]. }
  lra.
Qed.

Lemma cos_radians_nonneg (x : R) : (-90 <= x <= 90)%R -> (0 <= cos (GeoMath.radians x))%R.
Proof.
  intros [Hlo Hhi]. pose proof PI_RGT_0 as Hpi.
  apply cos_ge_0; unfold GeoMath.radians; nra.
Qed.

Lemma haversine_distance_above_arc (lat1 lon1 lat2 lon2 : R) :
  (-90 <= lat1 <= 90)%R -> (-90 <= lat2 <= 90)%R -> (lat1 <= lat2)%R ->
  ((lat2 - lat1) * PI / 180 * 6371 <= GeoMath.haversine_distance lat1 lon1 lat2 lon2)%R.
Proof.
  intros H1 H2 Hle.
  rewrite haversine_distance_unfold.
  pose proof PI_RGT_0 as Hpi.
  pose proof (haversine_a_range lat1 lon1 lat2 lon2) as Ha.
  set (h := ((GeoMath.radians lat2 - GeoMath.radians lat1) / 2)%R).
  assert (Hh : (0 <= h <= PI / 2)%R).
  { unfold h, GeoMath.radians. split; nra. }
  assert (Hsq : ((sin h) ^ 2 <= haversine_a lat1 lon1 lat2 lon2)%R).
  { unfold haversine_a. fold h.
    pose proof (cos_radians_nonneg lat1 H1). pose proof (cos_radians_nonneg lat2 H2).
    assert (0 <= cos (GeoMath.radians lat1) * cos (GeoMath.radians lat2))%R
      by now apply Rmult_le_pos.
    pose proof (pow2_ge_0 (sin ((GeoMath.radians lon2 - GeoMath.radians lon1) / 2))).
    nra. }
  assert (Hs : (sin h <= sqrt (haversine_a lat1 lon1 lat2 lon2))%R).
  { rewrite <- (sqrt_pow2 (sin h)) by (apply sin_ge_0; lra).
    now apply sqrt_le_1_alt. }
  assert (h <= asin (sqrt (haversine_a lat1 lon1 lat2 lon2)))%R.
  { apply asin_lower; [lra|pose proof (sqrt_range _ Ha); lra|assumption]. }
  unfold h, GeoMath.radians in *. lra.
Qed.

Lemma haversine_distance_above_arc_abs (lat1 lon1 lat2 lon2 : R) :
  (-90 <= lat1 <= 90)%R -> (-90 <= lat2 <= 90)%R ->
  (Rabs (lat2 - lat1) * (6371 * PI / 180)
   <= GeoMath.haversine_distance lat1 lon1 lat2 lon2)%R.
Proof.
  intros H1 H2.
  destruct (Rle_dec lat1 lat2) as [Hle|Hgt].
  - rewrite Rabs_right by lra.
    pose proof (haversine_distance_above_arc lat1 lon1 lat2 lon2 H1 H2 Hle). lra.
  - apply Rnot_le_lt in Hgt. rewrite Rabs_left by lra.
    assert (Hle : (lat2 <= lat1)%R) by lra.
    pose proof (haversine_distance_above_arc lat2 lon2 lat1 lon1 H2 H1 Hle) as Hd.
    rewrite !haversine_distance_unfold in *.
    replace (haversine_a lat1 lon1 lat2 lon2) with (haversine_a lat2 lon2 lat1 lon1).
    + lra.
    + unfold haversine_a.
      rewrite (sin_sq_swap (GeoMath.radians lat1)), (sin_sq_swap (GeoMath.radians lon1)).
      ring.
Qed.

(** A degree of latitude is worth more than 111 km. *)
Lemma degree_of_latitude : (111 < 6371 * PI / 180)%R.
Proof. pose proof PI_tight as [Hpi _]. lra. Qed.

(** ** The bounding box of the METAR query and the distance filter *)

Lemma distance_to_latitude (tlat tlon a b : Q) :
  (-90 <= tlat)%Q -> (tlat <= 90)%Q -> (-90 <= a)%Q -> (a <= 90)%Q ->
  (111 * Rabs (Q2R a - Q2R tlat) <= distance_to tlat tlon a b)%R.
Proof.
  intros H1 H2 H3 H4.
  apply Qle_Rle in H1, H2, H3, H4.
  change (-90)%Q with (inject_Z (-90)) in H1, H3.
  change 90%Q with (inject_Z 90) in H2, H4.
  rewrite Q2R_inject_Z in H1, H2, H3, H4.
  unfold distance_to.
  pose proof (haversine_distance_above_arc_abs (Q2R tlat) (Q2R tlon) (Q2R a) (Q2R b)
                (conj H1 H2) (conj H3 H4)) as Hb.
  pose proof degree_of_latitude. pose proof (Rabs_pos (Q2R a - Q2R tlat)). nra.
Qed.

Lemma bounding_box_latitudes (tlat tlon radius_km : Q) (south west north east : R) :
  bounding_box tlat tlon radius_km = Ok (PBox south west north east) ->
  south = (Q2R tlat - Q2R radius_km / 111)%R /\ north = (Q2R tlat + Q2R radius_km / 111)%R.
Proof.
  unfold bounding_box. cbv zeta.
  destruct (py_div (Q2R radius_km) (lon_divisor tlat)) as [lon_delta|]; cbn [rbind];
    [|discriminate].
  intros [= <- _ <- _]. split; reflexivity.
Qed.

(** X4: the latitude band of the bounding box sent to the METAR service holds
    every station the distance filter can admit: a record between the poles
    that [awc_station] admits for a target between the poles lies between the
    south and the north side of the box, so the box cuts off no station in
    range by its latitude. *)
Theorem awc_bounding_box_latitude_band (py_str : json -> string)
    (tlat tlon radius_km : Q) (south west north east : R) (record : json) (st : station) :
  (-90 <= tlat)%Q -> (tlat <= 90)%Q -> (-90 <= lat st)%Q -> (lat st <= 90)%Q ->
  bounding_box tlat tlon radius_km = Ok (PBox south west north east) ->
  awc_station py_str tlat tlon radius_km record = Ok (Some st) ->
  (south <= Q2R (lat st) <= north)%R.
Proof.
  intros H1 H2 H3 H4 Hbox Hst.
  apply bounding_box_latitudes in Hbox as [-> ->].
  apply awc_station_in_range in Hst as [Hle _].
  pose proof (distance_to_latitude tlat tlon (lat st) (lon st) H1 H2 H3 H4) as Hd.
  assert (Habs : (Rabs (Q2R (lat st) - Q2R tlat) <= Q2R radius_km / 111)%R) by lra.
  unfold Rabs in Habs. destruct (Rcase_abs _) in Habs; lra.
Qed.

Lemma awc_station_annecy :
  awc_station literal_str (459 # 10) (69 # 10) 50 metar_annecy = Ok (Some station_metar_annecy).
Proof.
  unfold awc_station, metar_annecy. simpl.
  now rewrite admit_station_at_target.
Qed.

Lemma bounding_box_annecy :
  bounding_box (459 # 10) (69 # 10) 50 =
  Ok (PBox (Q2R (459 # 10) - Q2R 50 / 111) (Q2R (69 # 10) - Q2R 50 / lon_divisor (459 # 10))
           (Q2R (459 # 10) + Q2R 50 / 111) (Q2R (69 # 10) + Q2R 50 / lon_divisor (459 # 10))).
Proof.
  unfold bounding_box, py_div. cbv zeta.
  destruct (Req_dec_T (lon_divisor (459 # 10)) 0) as [E|_]; [|reflexivity].
  pose proof (lon_divisor_pos (459 # 10) eq_refl eq_refl). lra.
Qed.

Lemma awc_bounding_box_latitude_band_annecy :
  (Q2R (459 # 10) - Q2R 50 / 111 <= Q2R (lat station_metar_annecy)
   <= Q2R (459 # 10) + Q2R 50 / 111)%R.
Proof.
  apply (awc_bounding_box_latitude_band literal_str (459 # 10) (69 # 10) 50
           _ (Q2R (69 # 10) - Q2R 50 / lon_divisor (459 # 10))
           _ (Q2R (69 # 10) + Q2R 50 / lon_divisor (459 # 10))
           metar_annecy station_metar_annecy).
  - discriminate.
  - discriminate.
  - discriminate.
  - discriminate.
  - exact bounding_box_annecy.
  - exact awc_station_annecy.
Defined.

(** ** Stored distances *)

Lemma round1_nonneg (x : R) : (0 <= x)%R -> (0 <= round1 x)%Q.
Proof.
  intros Hx. unfold round1.
  pose proof (Rround_half_even_close (10 * x)) as [Hlo _].
  assert (Hz : (-1 < Rround_half_even (10 * x))%Z).
  { apply lt_IZR. lra. }
  unfold Qle. simpl. lia.
Qed.

Lemma in_range_nonneg (tlat tlon radius_km : Q) (st : station) :
  in_range tlat tlon radius_km st -> (0 <= distance_km st)%Q /\ (0 <= radius_km)%Q.
Proof.
  intros [Hle ->].
  pose proof (haversine_distance_nonneg (Q2R tlat) (Q2R tlon) (Q2R (lat st)) (Q2R (lon st)))
    as Hd.
  fold (distance_to tlat tlon (lat st) (lon st)) in Hd.
  split; [now apply round1_nonneg|].
  apply Rle_Qle. rewrite RMicromega.Q2R_0. lra.
Qed.

(** X5: no adapter stores a negative distance, and with a negative radius
    every adapter returns the empty list, whatever the network sends. *)
Theorem stored_distance_nonnegative (net : request -> option response)
    (float_of_str : string -> option Q) (py_str : json -> string)
    (tlat tlon radius_km : Q) (q : result (list station) * list event) (l : list station) :
  In q [query_ffvl net float_of_str tlat tlon radius_km;
        query_pioupiou net py_str tlat tlon radius_km;
        query_awc_metar net py_str tlat tlon radius_km;
        query_nws net tlat tlon radius_km;
        query_bom tlat tlon radius_km] ->
  fst q = Ok l ->
  Forall (fun st => (0 <= distance_km st)%Q) l /\
  ((radius_km < 0)%Q -> l = []).
Proof.
  intros Hq Hl.
  assert (Hall : Forall (in_range tlat tlon radius_km) l).
  { simpl in Hq.
    destruct Hq as [<-|[<-|[<-|[<-|[<-|[]]]]]].
    - now apply (query_ffvl_in_range net float_of_str).
    - now apply (query_pioupiou_in_range net py_str).
    - now apply (query_awc_metar_in_range net py_str).
    - now apply (query_nws_in_range net).
    - now apply query_bom_in_range. }
  split.
  - eapply Forall_impl; [exact Hall|].
    intros st Hst. now apply in_range_nonneg in Hst.
  - intros Hneg. destruct l as [|st l']; [reflexivity|].
    apply Forall_inv in Hall. apply in_range_nonneg in Hall as [_ Hr].
    exfalso. apply (Qlt_not_le _ _ Hneg Hr).
Qed.

Lemma stored_distance_nonnegative_annecy :
  Forall (fun st => (0 <= distance_km st)%Q) [station_annecy] /\
  ((50 < 0)%Q -> [station_annecy] = []).
Proof.
  apply (stored_distance_nonnegative (beacon_network 304 [beacon_annecy]) literal_float
           literal_str (459 # 10) (69 # 10) 50
           (query_ffvl (beacon_network 304 [beacon_annecy]) literal_float (459 # 10) (69 # 10) 50)).
  - left. reflexivity.
  - now rewrite query_ffvl_status_304.
Defined.

(** ** Requests and diagnostics of the adapters *)

Lemma requests_of_app (t t' : list event) :
  requests_of (t ++ t') = requests_of t ++ requests_of t'.
Proof.
  induction t as [|[req|l] t IH]; simpl; [reflexivity| |assumption].
  now rewrite IH.
Qed.

Lemma lines_of_app (t t' : list event) : lines_of (t ++ t') = lines_of t ++ lines_of t'.
Proof.
  induction t as [|[req|l] t IH]; simpl; [reflexivity|assumption|].
  now rewrite IH.
Qed.

Lemma requests_of_diagnostic (what : string) (oe : option exn) :
  requests_of (diagnostic what oe) = [].
Proof. now destruct oe. Qed.

Lemma lines_of_diagnostic (what : string) (oe : option exn) :
  (List.length (lines_of (diagnostic what oe)) <= 1)%nat.
Proof. destruct oe; simpl; lia. Qed.

Lemma requests_of_failed (what : string) (e : exn) (sent : list event) :
  requests_of (snd (failed what e sent)) = requests_of sent.
Proof.
  unfold failed. cbn [snd]. now rewrite requests_of_app, requests_of_diagnostic, app_nil_r.
Qed.

Lemma requests_of_looped (what : string) (f : json -> loop_result) (items : list json)
    (sent : list event) :
  requests_of (snd (looped what f items sent)) = requests_of sent.
Proof.
  unfold looped. cbn [snd]. now rewrite requests_of_app, requests_of_diagnostic, app_nil_r.
Qed.

Lemma lines_of_failed (what : string) (e : exn) (sent : list event) :
  lines_of sent = [] -> (List.length (lines_of (snd (failed what e sent))) <= 1)%nat.
Proof.
  intros Hs. unfold failed. cbn [snd]. rewrite lines_of_app, Hs. apply lines_of_diagnostic.
Qed.

Lemma lines_of_looped (what : string) (f : json -> loop_result) (items : list json)
    (sent : list event) :
  lines_of sent = [] -> (List.length (lines_of (snd (looped what f items sent))) <= 1)%nat.
Proof.
  intros Hs. unfold looped. cbn [snd]. rewrite lines_of_app, Hs. apply lines_of_diagnostic.
Qed.

Section Budget.

Variable net : request -> option response.
Variable float_of_str : string -> option Q.
Variable py_str : json -> string.
Variables lat lon radius_km : Q.

Lemma query_ffvl_requests :
  requests_of (snd (query_ffvl net float_of_str lat lon radius_km)) = [ffvl_request].
Proof.
  rewrite query_ffvl_shape.
  destruct (fetch net ffvl_request) as [data|e]; [destruct (py_iter data)|];
    now rewrite ?requests_of_failed, ?requests_of_looped.
Qed.

Lemma query_pioupiou_requests :
  requests_of (snd (query_pioupiou net py_str lat lon radius_km)) = [pioupiou_request].
Proof.
  rewrite query_pioupiou_shape.
  destruct (fetch net pioupiou_request) as [data|e];
    [destruct (rbind (py_get data "data" (JArr [])) _)|];
    now rewrite ?requests_of_failed, ?requests_of_looped.
Qed.

Lemma query_awc_metar_requests :
  requests_of (snd (query_awc_metar net py_str lat lon radius_km)) =
  match bounding_box lat lon radius_km with
  | Ok bbox => [awc_request bbox]
  | Raise _ => []
  end.
Proof.
  rewrite query_awc_metar_shape.
  destruct (bounding_box lat lon radius_km) as [bbox|e];
    [destruct (fetch net (awc_request bbox)) as [data|e]; [destruct (py_iter data)|]|];
    now rewrite ?requests_of_failed, ?requests_of_looped.
Qed.

Lemma query_nws_requests :
  requests_of (snd (query_nws net lat lon radius_km)) = [] \/
  requests_of (snd (query_nws net lat lon radius_km)) = [nws_points_request lat lon] \/
  exists u,
    nws_grid_point net lat lon = Some (Ok (JStr u)) /\
    requests_of (snd (query_nws net lat lon radius_km))
    = [nws_points_request lat lon; nws_listing_request u].
Proof.
  rewrite query_nws_shape. unfold nws_grid_point. cbv zeta.
  destruct (negb (nws_covers lat lon)); [now left|].
  destruct (net (nws_points_request lat lon)) as [r|];
    [|right; left; now rewrite requests_of_failed].
  destruct (status_code r =? 404)%Z; [right; now left|].
  destruct (rbind (decode r) _) as [stations_url|e];
    [|right; left; now rewrite requests_of_failed].
  destruct (negb (truthy stations_url)); [right; now left|].
  destruct stations_url as [| | | |u| |];
    try (right; left; now rewrite requests_of_failed).
  right. right. exists u. split; [reflexivity|].
  destruct (rbind (fetch net _) _);
    now rewrite ?requests_of_failed, ?requests_of_looped.
Qed.

Lemma query_ffvl_lines :
  (List.length (lines_of (snd (query_ffvl net float_of_str lat lon radius_km))) <= 1)%nat.
Proof.
  rewrite query_ffvl_shape.
  destruct (fetch net ffvl_request) as [data|e]; [destruct (py_iter data)|];
    now (apply lines_of_failed || apply lines_of_looped).
Qed.

Lemma query_pioupiou_lines :
  (List.length (lines_of (snd (query_pioupiou net py_str lat lon radius_km))) <= 1)%nat.
Proof.
  rewrite query_pioupiou_shape.
  destruct (fetch net pioupiou_request) as [data|e];
    [destruct (rbind (py_get data "data" (JArr [])) _)|];
    now (apply lines_of_failed || apply lines_of_looped).
Qed.

Lemma query_awc_metar_lines :
  (List.length (lines_of (snd (query_awc_metar net py_str lat lon radius_km))) <= 1)%nat.
Proof.
  rewrite query_awc_metar_shape.
  destruct (bounding_box lat lon radius_km) as [bbox|e];
    [destruct (fetch net (awc_request bbox)) as [data|e]; [destruct (py_iter data)|]|];
    now (apply lines_of_failed || apply lines_of_looped).
Qed.

Lemma query_nws_lines :
  (List.length (lines_of (snd (query_nws net lat lon radius_km))) <= 1)%nat.
Proof.
  rewrite query_nws_shape. cbv zeta.
  destruct (negb (nws_covers lat lon)); [simpl; lia|].
  destruct (net (nws_points_request lat lon)) as [r|]; [|now apply lines_of_failed].
  destruct (status_code r =? 404)%Z; [simpl; lia|].
  destruct (rbind (decode r) _) as [stations_url|e]; [|now apply lines_of_failed].
  destruct (negb (truthy stations_url)); [simpl; lia|].
  destruct stations_url as [| | | |u| |]; try now apply lines_of_failed.
  destruct (rbind (fetch net _) _);
    now (apply lines_of_failed || apply lines_of_looped).
Qed.

Lemma query_bom_trace :
  requests_of (snd (query_bom lat lon radius_km)) = [] /\
  (List.length (lines_of (snd (query_bom lat lon radius_km))) <= 1)%nat.
Proof.
  rewrite query_bom_shape. destruct (bom_covers lat lon); simpl; split; (reflexivity || lia).
Qed.

End Budget.

(** X6: what each adapter sends and prints in one call, whatever the network
    answers: [query_ffvl] and [query_pioupiou] send one request, the same for
    every target; [query_awc_metar] sends the request of its bounding box,
    or nothing when the box cannot be computed; [query_nws] sends nothing,
    the grid-point request, or the grid-point request and then the request
    of the station list it was given; [query_bom] sends nothing.  No adapter
    sends a request twice or one request per station, and none prints more
    than one line. *)
Theorem adapters_request_budget (net : request -> option response)
    (float_of_str : string -> option Q) (py_str : json -> string)
    (lat lon radius_km : Q) :
  requests_of (snd (query_ffvl net float_of_str lat lon radius_km)) = [ffvl_request] /\
  requests_of (snd (query_pioupiou net py_str lat lon radius_km)) = [pioupiou_request] /\
  requests_of (snd (query_awc_metar net py_str lat lon radius_km))
    = match bounding_box lat lon radius_km with
      | Ok bbox => [awc_request bbox]
      | Raise _ => []
      end /\
  (requests_of (snd (query_nws net lat lon radius_km)) = [] \/
   requests_of (snd (query_nws net lat lon radius_km)) = [nws_points_request lat lon] \/
   exists u,
     nws_grid_point net lat lon = Some (Ok (JStr u)) /\
     requests_of (snd (query_nws net lat lon radius_km))
     = [nws_points_request lat lon; nws_listing_request u]) /\
  requests_of (snd (query_bom lat lon radius_km)) = [] /\
  Forall (fun q : result (list station) * list event =>
            (List.length (lines_of (snd q)) <= 1)%nat)
    [query_ffvl net float_of_str lat lon radius_km;
     query_pioupiou net py_str lat lon radius_km;
     query_awc_metar net py_str lat lon radius_km;
     query_nws net lat lon radius_km;
     query_bom lat lon radius_km].
Proof.
  split; [apply query_ffvl_requests|].
  split; [apply query_pioupiou_requests|].
  split; [apply query_awc_metar_requests|].
  split; [apply query_nws_requests|].
  split; [apply query_bom_trace|].
  repeat apply List.Forall_cons; try apply List.Forall_nil.
  - apply query_ffvl_lines.
  - apply query_pioupiou_lines.
  - apply query_awc_metar_lines.
  - apply query_nws_lines.
  - apply query_bom_trace.
Qed.

(** ** A larger radius *)

Lemma admit_station_grows (tlat tlon r r' a b : Q) (nm : json) :
  (r <= r')%Q ->
  grows (admit_station tlat tlon r a b (Ok nm)) (admit_station tlat tlon r' a b (Ok nm)).
Proof.
  intros Hr. apply Qle_Rle in Hr. unfold admit_station, grows. cbv zeta.
  destruct (Rle_dec _ (Q2R r)) as [Hle|Hgt]; destruct (Rle_dec _ (Q2R r')) as [Hle'|Hgt'];
    cbn [rbind]; try reflexivity; try exact I.
  exfalso. apply Hgt'. lra.
Qed.

Lemma grows_raise (e : exn) : grows (Raise e) (Raise e).
Proof. reflexivity. Qed.

Lemma grows_skip : grows (Ok None) (Ok None).
Proof. exact I. Qed.

Section Growth.

Variable float_of_str : string -> option Q.
Variable py_str : json -> string.
Variables tlat tlon r r' : Q.
Hypothesis Hr : (r <= r')%Q.

Lemma ffvl_beacon_grows (beacon : json) :
  grows (ffvl_beacon float_of_str tlat tlon r beacon)
        (ffvl_beacon float_of_str tlat tlon r' beacon).
Proof.
  unfold ffvl_beacon.
  destruct beacon as [| | | | | |fields]; try apply grows_raise.
  cbn [py_get rbind].
  destruct (py_float float_of_str _) as [a|]; cbn [rbind]; [|apply grows_raise].
  destruct (py_float float_of_str _) as [b|]; cbn [rbind]; [|apply grows_raise].
  now apply admit_station_grows.
Qed.

Lemma pioupiou_station_grows (record : json) :
  grows (pioupiou_station py_str tlat tlon r record)
        (pioupiou_station py_str tlat tlon r' record).
Proof.
  unfold pioupiou_station.
  destruct record as [| | | | | |fields]; try apply grows_raise.
  cbn [py_get rbind].
  destruct (match assoc "meta" fields with Some x => x | None => JObj [] end)
    as [| | | | | |meta]; try apply grows_raise.
  cbn [py_get rbind].
  destruct (is_none _ || is_none _); [apply grows_skip|].
  destruct (as_real _) as [a|]; cbn [rbind]; [|apply grows_raise].
  destruct (as_real _) as [b|]; cbn [rbind]; [|apply grows_raise].
  now apply admit_station_grows.
Qed.

Lemma awc_station_grows (record : json) :
  grows (awc_station py_str tlat tlon r record) (awc_station py_str tlat tlon r' record).
Proof.
  unfold awc_station.
  destruct record as [| | | | | |fields]; try apply grows_raise.
  cbn [py_get rbind].
  destruct (is_none _ || is_none _); [apply grows_skip|].
  destruct (as_real _) as [a|]; cbn [rbind]; [|apply grows_raise].
  destruct (as_real _) as [b|]; cbn [rbind]; [|apply grows_raise].
  now apply admit_station_grows.
Qed.

End Growth.

Lemma collect_grows (f f' : json -> loop_result) (items : list json)
    (acc acc' : list station) :
  (forall x, grows (f x) (f' x)) -> sublist acc acc' ->
  sublist (fst (collect f items acc)) (fst (collect f' items acc')) /\
  snd (collect f items acc) = snd (collect f' items acc').
Proof.
  intros Hg. revert acc acc'.
  induction items as [|x items IH]; intros acc acc' Hsub; cbn [collect].
  - now split.
  - specialize (Hg x) as Hx. unfold grows in Hx.
    destruct (f x) as [[st|]|e].
    + rewrite Hx. apply IH. apply sublist_app; [assumption|reflexivity].
    + destruct (f' x) as [[st'|]|e']; [| |contradiction].
      * apply IH. now apply sublist_inserts_r.
      * now apply IH.
    + rewrite Hx. now split.
Qed.

Lemma looped_grows (what : string) (f f' : json -> loop_result) (items : list json)
    (sent : list event) :
  (forall x, grows (f x) (f' x)) ->
  exists l l',
    fst (looped what f items sent) = Ok l /\
    fst (looped what f' items sent) = Ok l' /\
    sublist l l' /\
    snd (looped what f items sent) = snd (looped what f' items sent).
Proof.
  intros Hg.
  destruct (collect_grows f f' items [] [] Hg (sublist_nil)) as [Hsub Hsnd].
  unfold looped. cbn [fst snd]. rewrite Hsnd.
  exists (fst (collect f items [])), (fst (collect f' items [])). auto.
Qed.

Lemma failed_same (what : string) (e : exn) (sent : list event) :
  exists l l' : list station,
    fst (failed what e sent) = Ok l /\
    fst (failed what e sent) = Ok l' /\
    sublist l l' /\
    snd (failed what e sent) = snd (failed what e sent).
Proof. exists [], []. repeat split. constructor. Qed.

(** X7: enlarging the radius loses no station of the FFVL and Pioupiou feeds:
    with a larger radius [query_ffvl] and [query_pioupiou] return the stations
    they returned before, in the same order and with the same fields, among
    the new ones, and they send and print the same.  The loop body of
    [query_awc_metar] treats each record of a given answer in the same way. *)
Theorem larger_radius_keeps_stations (net : request -> option response)
    (float_of_str : string -> option Q) (py_str : json -> string)
    (tlat tlon r r' : Q) :
  (r <= r')%Q ->
  (exists l l',
      fst (query_ffvl net float_of_str tlat tlon r) = Ok l /\
      fst (query_ffvl net float_of_str tlat tlon r') = Ok l' /\
      sublist l l' /\
      snd (query_ffvl net float_of_str tlat tlon r)
      = snd (query_ffvl net float_of_str tlat tlon r')) /\
  (exists l l',
      fst (query_pioupiou net py_str tlat tlon r) = Ok l /\
      fst (query_pioupiou net py_str tlat tlon r') = Ok l' /\
      sublist l l' /\
      snd (query_pioupiou net py_str tlat tlon r)
      = snd (query_pioupiou net py_str tlat tlon r')) /\
  (forall record,
      grows (awc_station py_str tlat tlon r record) (awc_station py_str tlat tlon r' record)).
Proof.
  intros Hr. split; [|split; [|intros record; now apply awc_station_grows]].
  - rewrite !query_ffvl_shape.
    destruct (fetch net ffvl_request) as [data|e]; [|apply failed_same].
    destruct (py_iter data) as [beacons|e]; [|apply failed_same].
    apply looped_grows. intros x. now apply ffvl_beacon_grows.
  - rewrite !query_pioupiou_shape.
    destruct (fetch net pioupiou_request) as [data|e]; [|apply failed_same].
    destruct (rbind (py_get data "data" (JArr [])) _) as [items|e]; [|apply failed_same].
    apply looped_grows. intros x. now apply pioupiou_station_grows.
Qed.

Lemma larger_radius_keeps_stations_annecy :
  (exists l l',
      fst (query_ffvl (beacon_network 200 [beacon_annecy]) literal_float (459 # 10) (69 # 10) 50)
        = Ok l /\
      fst (query_ffvl (beacon_network 200 [beacon_annecy]) literal_float (459 # 10) (69 # 10) 80)
        = Ok l' /\
      sublist l l' /\
      snd (query_ffvl (beacon_network 200 [beacon_annecy]) literal_float (459 # 10) (69 # 10) 50)
      = snd (query_ffvl (beacon_network 200 [beacon_annecy]) literal_float (459 # 10) (69 # 10) 80))
  /\
  (exists l l',
      fst (query_pioupiou (beacon_network 200 [beacon_annecy]) literal_str (459 # 10) (69 # 10) 50)
        = Ok l /\
      fst (query_pioupiou (beacon_network 200 [beacon_annecy]) literal_str (459 # 10) (69 # 10) 80)
        = Ok l' /\
      sublist l l' /\
      snd (query_pioupiou (beacon_network 200 [beacon_annecy]) literal_str (459 # 10) (69 # 10) 50)
      = snd (query_pioupiou (beacon_network 200 [beacon_annecy]) literal_str (459 # 10) (69 # 10) 80))
  /\
  (forall record,
      grows (awc_station literal_str (459 # 10) (69 # 10) 50 record)
            (awc_station literal_str (459 # 10) (69 # 10) 80 record)).
Proof.
  apply (larger_radius_keeps_stations (beacon_network 200 [beacon_annecy]) literal_float
           literal_str (459 # 10) (69 # 10) 50 80).
  discriminate.
Defined.

(** The loop body of [query_nws] reads the name of a station only once the
    station is in range: a record whose [properties] is no dict is skipped
    with a radius of 10 m and raises with a radius of 50 km. *)
Example nws_station_larger_radius_raises :
  nws_station 0 0 (1 # 100) nws_feature_no_properties = Ok None /\
  nws_station 0 0 50 nws_feature_no_properties = Raise AttributeError.
Proof.
  pose proof distance_to_beacon_close as [Hlo Hhi].
  unfold nws_station, nws_feature_no_properties. simpl.
  unfold admit_station. cbv zeta.
  change (inject_Z 0) with 0%Q.
  split.
  - destruct (Rle_dec _ _) as [Hle|_]; [|reflexivity].
    exfalso. unfold Q2R in Hle. simpl in Hle. lra.
  - destruct (Rle_dec _ _) as [_|Hgt]; [reflexivity|].
    exfalso. apply Hgt. change 50%Q with (inject_Z 50). rewrite Q2R_inject_Z. lra.
Qed.

(** ** The coverage check of [query_nws] and the coverage table *)

Lemma nws_covers_false (lat lon : Q) :
  ~ in_envelope lat lon (-125) (-67) 24 50 ->
  ~ in_envelope lat lon (-180) (-130) 51 72 ->
  ~ in_envelope lat lon (-178) (-154) 18 29 ->
  nws_covers lat lon = false.
Proof.
  intros H1 H2 H3.
  destruct (nws_covers lat lon) eqn:E; [|reflexivity].
  apply nws_covers_iff in E. tauto.
Qed.

Lemma query_nws_not_covered (net : request -> option response) (lat lon radius_km : Q) :
  nws_covers lat lon = false -> query_nws net lat lon radius_km = (Ok [], []).
Proof. intros H. rewrite query_nws_shape, H. reflexivity. Qed.

Ltac outside_envelopes :=
  unfold in_bbox, in_envelope; cbn [bbox];
  intros (H1 & H2 & H3 & H4);
  apply nws_covers_false; intros (E1 & E2 & E3 & E4); lra.

(** X8: the quick check of [query_nws] accepts no point of the boxes the
    coverage table gives for Puerto Rico, the US Virgin Islands, Guam, the
    Northern Mariana Islands and American Samoa: for a target in one of them
    [query_nws] returns the empty list and sends nothing. *)
Theorem nws_territories_not_queried (net : request -> option response)
    (key : string) (r : region) (lat lon radius_km : Q) :
  In key territories ->
  region_of key nws_bounding_boxes = Some r ->
  in_bbox (bbox r) lat lon ->
  nws_covers lat lon = false /\ query_nws net lat lon radius_km = (Ok [], []).
Proof.
  intros Hkey Hr Hin.
  assert (Hc : nws_covers lat lon = false).
  { unfold territories in Hkey. simpl in Hkey.
    destruct Hkey as [<-|[<-|[<-|[<-|[<-|[<-|[]]]]]]];
      injection Hr as <-; revert Hin; outside_envelopes. }
  split; [assumption | now apply query_nws_not_covered].
Qed.

Lemma nws_territories_not_queried_san_juan :
  nws_covers (184 # 10) (-661 # 10) = false /\
  query_nws (beacon_network 200 []) (184 # 10) (-661 # 10) 50 = (Ok [], []).
Proof.
  eapply (nws_territories_not_queried (beacon_network 200 []) "Puerto_Rico").
  - left. reflexivity.
  - reflexivity.
  - unfold in_bbox. cbn [bbox]. repeat split; discriminate.
Defined.

(** The boxes of the fifty states reach beyond the envelopes of the check:
    each holds a point the check refuses. *)
Example nws_state_boxes_exceed_check :
  (exists r, region_of "CONUS" nws_bounding_boxes = Some r /\
             in_bbox (bbox r) 45 (-6695 # 100) /\ nws_covers 45 (-6695 # 100) = false) /\
  (exists r, region_of "Alaska" nws_bounding_boxes = Some r /\
             in_bbox (bbox r) (529 # 10) (1729 # 10) /\
             nws_covers (529 # 10) (1729 # 10) = false) /\
  (exists r, region_of "Hawaii" nws_bounding_boxes = Some r /\
             in_bbox (bbox r) (284 # 10) (-1783 # 10) /\
             nws_covers (284 # 10) (-1783 # 10) = false).
Proof.
  repeat split; eexists; (split; [reflexivity|]); unfold in_bbox; cbn [bbox];
    repeat split; discriminate.
Qed.

(** ** Step 3: which record is kept *)

Lemma all_stations_add_provider (p : string) (sts : list station) (agg : aggregation) :
  all_stations (add_provider agg (p, sts)) = fold_left keep_first sts (all_stations agg).
Proof.
  unfold add_provider. cbn [fst snd]. revert agg.
  induction sts as [|st sts IH]; intros agg; cbn [fold_left]; [reflexivity|].
  now rewrite IH.
Qed.

Lemma all_stations_fold (providers : list (string * list station)) (agg : aggregation) :
  all_stations (fold_left add_provider providers agg)
  = fold_left keep_first (reported providers) (all_stations agg).
Proof.
  unfold reported. revert agg.
  induction providers as [|[p sts] providers IH]; intros agg; cbn [fold_left flat_map snd];
    [reflexivity|].
  now rewrite IH, fold_left_app, all_stations_add_provider.
Qed.

Lemma all_stations_aggregate (providers : list (string * list station)) :
  all_stations (aggregate providers) = fold_left keep_first (reported providers) [].
Proof. unfold aggregate. now rewrite all_stations_fold. Qed.

Lemma has_key_In (k : string) (d : list (string * station)) :
  has_key k d = true <-> In k (List.map fst d).
Proof.
  unfold has_key. rewrite existsb_exists, in_map_iff. split.
  - intros (kv & Hin & Heq). exists kv. split; [now apply String.eqb_eq | assumption].
  - intros (kv & <- & Hin). exists kv. split; [assumption | apply String.eqb_refl].
Qed.

Lemma find_key_none (k : string) (d : list (string * station)) :
  List.find (fun kv => String.eqb (fst kv) k) d = None <-> has_key k d = false.
Proof.
  unfold has_key. induction d as [|kv d IH]; cbn [List.find existsb]; [tauto|].
  destruct (String.eqb (fst kv) k); cbn [orb]; [split; discriminate | exact IH].
Qed.

Lemma find_key_app (k : string) (d d' : list (string * station)) :
  List.find (fun kv => String.eqb (fst kv) k) (d ++ d') =
  match List.find (fun kv => String.eqb (fst kv) k) d with
  | Some x => Some x
  | None => List.find (fun kv => String.eqb (fst kv) k) d'
  end.
Proof.
  induction d as [|kv d IH]; cbn [List.find app]; [reflexivity|].
  now destruct (String.eqb (fst kv) k).
Qed.

Lemma find_keep_first (k : string) (sts : list station) (d : list (string * station)) :
  List.find (fun kv => String.eqb (fst kv) k) (fold_left keep_first sts d) =
  match List.find (fun kv => String.eqb (fst kv) k) d with
  | Some x => Some x
  | None => (fun st => (station_key st, st)) <$> first_seen k sts
  end.
Proof.
  unfold first_seen. revert d.
  induction sts as [|st sts IH]; intros d; cbn [fold_left List.find].
  - now destruct (List.find _ d).
  - rewrite IH. unfold keep_first.
    destruct (has_key (station_key st) d) eqn:Hseen.
    + destruct (List.find _ d) eqn:Hfind; [reflexivity|].
      apply find_key_none in Hfind.
      destruct (String.eqb_spec (station_key st) k) as [<-|_]; [congruence|reflexivity].
    + rewrite find_key_app. cbn [List.find fst].
      destruct (List.find _ d); [reflexivity|].
      now destruct (String.eqb (station_key st) k).
Qed.

(** X9: first seen wins: the record [all_stations] keeps for a key is the first
    record with that key in the order in which step 3 visits the providers'
    lists; a later record with the same key changes no field of it. *)
Theorem first_seen_wins (providers : list (string * list station)) (key : string) :
  representative (aggregate providers) key = first_seen key (reported providers).
Proof.
  unfold representative. rewrite all_stations_aggregate, find_keep_first.
  cbn [List.find]. now destruct (first_seen key (reported providers)).
Qed.

Lemma keep_first_invariant (sts : list station) (d : list (string * station)) :
  NoDup (List.map fst d) ->
  Forall (fun kv => fst kv = station_key (snd kv)) d ->
  NoDup (List.map fst (fold_left keep_first sts d)) /\
  Forall (fun kv => fst kv = station_key (snd kv)) (fold_left keep_first sts d) /\
  (forall kv, In kv (fold_left keep_first sts d) -> In kv d \/ In (snd kv) sts) /\
  (List.length (fold_left keep_first sts d) <= List.length d + List.length sts)%nat.
Proof.
  revert d. induction sts as [|st sts IH]; intros d Hnd Hkeys; cbn [fold_left].
  - repeat split; auto. simpl. lia.
  - assert (Hstep : NoDup (List.map fst (keep_first d st)) /\
                    Forall (fun kv => fst kv = station_key (snd kv)) (keep_first d st) /\
                    (forall kv, In kv (keep_first d st) -> In kv d \/ snd kv = st) /\
                    (List.length (keep_first d st) <= S (List.length d))%nat).
    { unfold keep_first. destruct (has_key (station_key st) d) eqn:Hseen.
      - repeat split; auto.
      - assert (Hnot : ~ In (station_key st) (List.map fst d)).
        { rewrite <- has_key_In. congruence. }
        repeat split.
        + rewrite map_app. cbn [List.map fst].
          apply NoDup_app. repeat split; [assumption| |apply NoDup_singleton].
          intros k Hk Hk'. apply list_elem_of_In in Hk.
          apply list_elem_of_singleton in Hk'. congruence.
        + apply Forall_app. split; [assumption|]. now constructor.
        + intros kv Hin. apply in_app_iff in Hin as [Hin|[<-|[]]]; auto.
        + rewrite length_app. simpl. lia. }
    destruct Hstep as (S1 & S2 & S3 & S4).
    destruct (IH (keep_first d st) S1 S2) as (I1 & I2 & I3 & I4).
    repeat split; try assumption.
    + intros kv Hin. destruct (I3 kv Hin) as [Hd|Hs]; [|right; now right].
      destruct (S3 kv Hd) as [Hd'|<-]; [now left | right; now left].
    + simpl. lia.
Qed.

Lemma reports_reported (providers : list (string * list station)) (st : station) :
  In st (reported providers) <-> exists p, reports providers p st.
Proof.
  unfold reported, reports. rewrite in_flat_map. split.
  - intros ([p sts] & Hin & Hst). exists p, sts. auto.
  - intros (p & sts & Hin & Hst). exists (p, sts). auto.
Qed.

Lemma station_keys_reported (providers : list (string * list station)) :
  station_keys (aggregate providers)
  = list_to_set (List.map station_key (reported providers)).
Proof.
  apply set_eq. intros k.
  rewrite elem_of_station_keys, has_key_aggregate, elem_of_list_to_set, list_elem_of_In,
    in_map_iff.
  split.
  - intros (q & st & Hrep & <-). exists st. split; [reflexivity|].
    apply reports_reported. eauto.
  - intros (st & <- & Hin). apply reports_reported in Hin as (p & Hp). eauto.
Qed.

(** X10: [all_stations] holds each key once, under the key of the record it
    keeps, and every record it keeps was reported by a provider; so the total
    the summary prints is the number of distinct station keys among all
    reported records, and at most the number of records. *)
Theorem total_counts_distinct_keys (providers : list (string * list station)) :
  NoDup (List.map fst (all_stations (aggregate providers))) /\
  Forall (fun kv => fst kv = station_key (snd kv) /\ In (snd kv) (reported providers))
    (all_stations (aggregate providers)) /\
  List.length (all_stations (aggregate providers))
  = size (list_to_set (List.map station_key (reported providers)) : gset string) /\
  (List.length (all_stations (aggregate providers)) <= List.length (reported providers))%nat /\
  In (TotalLine (size (list_to_set (List.map station_key (reported providers)) : gset string)))
    (snd (report providers)).
Proof.
  destruct (keep_first_invariant (reported providers) []) as (H1 & H2 & H3 & H4);
    [constructor|constructor|].
  rewrite <- all_stations_aggregate in H1, H2, H3, H4.
  assert (Hsize : List.length (all_stations (aggregate providers))
                  = size (list_to_set (List.map station_key (reported providers))
                          : gset string)).
  { rewrite <- station_keys_reported. unfold station_keys.
    rewrite size_list_to_set by assumption. now rewrite length_map. }
  split; [assumption|]. split.
  { apply Forall_forall. intros kv Hin. apply list_elem_of_In in Hin. split.
    - rewrite Forall_forall in H2. apply H2. now apply list_elem_of_In.
    - destruct (H3 kv Hin) as [[]|]; assumption. }
  split; [assumption|]. split; [simpl in H4; lia|].
  rewrite <- Hsize. unfold report. cbv zeta.
  destruct (all_stations (aggregate providers)) eqn:E.
  - cbn [snd]. unfold summary_lines. rewrite E. simpl. auto.
  - destruct (print_rows _ _ _) as [r rows]. cbn [snd]. unfold summary_lines.
    rewrite E. simpl. auto.
Qed.

(** ** Step 5: the rows *)

Lemma In_sorted_by_distance (items : list (string * station)) (x : string * station) :
  In x (sorted_by_distance items) <-> In x items.
Proof.
  destruct (sorted_by_distance_spec items) as (Hperm & _).
  split; apply Permutation_in; [assumption | now symmetry].
Qed.

Lemma print_rows_Forall (P : line -> Prop) (sp : gmap string (gset string))
    (provider_names : list string) (sorted_stations : list (string * station)) :
  (forall key st nm, In (key, st) sorted_stations -> row_name (name st) = Ok nm ->
                     P (RowLine nm (distance_km st) (row_checks sp provider_names key))) ->
  Forall P (snd (print_rows sp provider_names sorted_stations)).
Proof.
  induction sorted_stations as [|[key st] rest IH]; intros HP; cbn [print_rows].
  - constructor.
  - destruct (row_name (name st)) as [nm|e] eqn:Hnm; [|constructor].
    destruct (print_rows sp provider_names rest) as [r ls] eqn:Hrest. cbn [snd] in *.
    constructor.
    + apply HP; [now left | assumption].
    + apply IH. intros key' st' nm' Hin. apply HP. now right.
Qed.

Lemma report_Forall (P : line -> Prop) (providers : list (string * list station)) :
  (forall l, is_row l = false -> P l) ->
  (forall key st nm,
      In (key, st) (all_stations (aggregate providers)) -> row_name (name st) = Ok nm ->
      P (RowLine nm (distance_km st)
           (row_checks (station_providers (aggregate providers)) (List.map fst providers) key))) ->
  Forall P (snd (report providers)).
Proof.
  intros Hother Hrow. unfold report. cbv zeta.
  assert (Hsummary : Forall P (summary_lines providers (aggregate providers))).
  { unfold summary_lines. apply Forall_app. split; [repeat constructor; now apply Hother|].
    apply Forall_app. split; [|repeat constructor; now apply Hother].
    apply Forall_forall. intros l Hin. apply list_elem_of_In, in_map_iff in Hin as (p & <- & _).
    now apply Hother. }
  destruct (all_stations (aggregate providers)) as [|kv d] eqn:E.
  - cbn [snd]. apply Forall_app. split; [assumption|]. repeat constructor. now apply Hother.
  - pose proof (print_rows_Forall P (station_providers (aggregate providers))
                  (List.map fst providers) (sorted_by_distance (kv :: d))) as Hrows.
    destruct (print_rows _ _ _) as [r rows]. cbn [snd] in *.
    apply Forall_app. split; [assumption|].
    apply Forall_app. split; [repeat constructor; now apply Hother|].
    apply Forall_app. split.
    + apply Hrows. intros key st nm Hin Hnm. apply Hrow; [|assumption].
      exact (proj1 (In_sorted_by_distance _ _) Hin).
    + destruct r; repeat constructor. now apply Hother.
Qed.

Lemma row_checks_marked (providers : list (string * list station)) (key : string) :
  has_key key (all_stations (aggregate providers)) = true ->
  In true (row_checks (station_providers (aggregate providers)) (List.map fst providers) key).
Proof.
  intros Hkey. apply has_key_aggregate in Hkey as (q & st & Hrep & Hst).
  unfold row_checks. apply in_map_iff. exists q. split.
  - apply bool_decide_eq_true. apply observed_by_aggregate. eauto.
  - destruct Hrep as (sts & Hin & _). apply in_map_iff. now exists (q, sts).
Qed.

(** X11: every station row of the table carries one mark per provider, and at
    least one of them is a check mark: no row is printed for a station that
    no provider reported. *)
Theorem report_rows_marked (providers : list (string * list station)) :
  Forall (fun l => forall checks, row_marks l = Some checks ->
                     List.length checks = List.length providers /\ In true checks)
    (snd (report providers)).
Proof.
  apply report_Forall.
  - intros l Hrow cs; destruct l; cbn [is_row row_marks] in *; discriminate.
  - intros key st nm Hin _ checks [= <-]. split.
    + unfold row_checks. now rewrite !length_map.
    + apply row_checks_marked. apply has_key_In, in_map_iff. now exists (key, st).
Qed.

Lemma substring_length (n : nat) (s : string) :
  (String.length (String.substring 0 n s) <= n)%nat.
Proof.
  revert s. induction n as [|n IH]; intros [|c s]; simpl; try lia.
  specialize (IH s). lia.
Qed.

Lemma print_rows_ok (sp : gmap string (gset string)) (provider_names : list string)
    (sorted_stations : list (string * station)) :
  is_ok (fst (print_rows sp provider_names sorted_stations)) <-> Forall named sorted_stations.
Proof.
  unfold named.
  induction sorted_stations as [|[key st] rest IH]; cbn [print_rows].
  - cbn [fst is_ok]. split; [constructor | trivial].
  - rewrite Forall_cons. cbn [snd].
    destruct (name st) as [| | | |s| |] eqn:E; cbn [row_name fst is_ok];
      try (split; [intros [] | intros [[s' Hs] _]; discriminate]).
    destruct (print_rows sp provider_names rest) as [r ls]. cbn [fst] in *.
    rewrite IH. split; [eauto | tauto].
Qed.

Lemma print_rows_count (sp : gmap string (gset string)) (provider_names : list string)
    (sorted_stations : list (string * station)) :
  Forall named sorted_stations ->
  List.map row_text (snd (print_rows sp provider_names sorted_stations))
  = List.map (fun x => match name (snd x) with
                       | JStr s => Some (String.substring 0 30 s)
                       | _ => None
                       end) sorted_stations.
Proof.
  unfold named.
  induction sorted_stations as [|[key st] rest IH]; cbn [print_rows]; [reflexivity|].
  intros Hall. apply Forall_cons in Hall as [[s Hs] Hrest]. cbn [snd] in *.
  rewrite Hs. cbn [row_name].
  destruct (print_rows sp provider_names rest) as [r ls]. cbn [snd List.map row_text] in *.
  rewrite IH by assumption. now rewrite Hs.
Qed.

Lemma filter_rows_summary (providers : list (string * list station)) (agg : aggregation) :
  List.filter is_row (summary_lines providers agg) = [].
Proof.
  unfold summary_lines. cbn [app List.filter is_row].
  rewrite List.filter_app. cbn [List.filter is_row]. rewrite app_nil_r.
  induction providers as [|p providers IH]; [reflexivity|exact IH].
Qed.

Lemma filter_rows_print_rows (sp : gmap string (gset string)) (provider_names : list string)
    (sorted_stations : list (string * station)) :
  List.filter is_row (snd (print_rows sp provider_names sorted_stations))
  = snd (print_rows sp provider_names sorted_stations).
Proof.
  induction sorted_stations as [|[key st] rest IH]; cbn [print_rows]; [reflexivity|].
  destruct (row_name (name st)); [|reflexivity].
  destruct (print_rows sp provider_names rest) as [r ls]. cbn [snd List.filter is_row] in *.
  now rewrite IH.
Qed.

Lemma named_sorted (items : list (string * station)) :
  Forall named (sorted_by_distance items) <-> Forall named items.
Proof.
  rewrite !Forall_forall. split; intros H x Hx; apply H;
    apply list_elem_of_In; apply list_elem_of_In in Hx;
    now apply In_sorted_by_distance.
Qed.

Lemma report_ok_iff (providers : list (string * list station)) :
  is_ok (fst (report providers)) <-> Forall named (all_stations (aggregate providers)).
Proof.
  unfold report. cbv zeta.
  destruct (all_stations (aggregate providers)) as [|kv d] eqn:E.
  - cbn [fst is_ok]. split; [constructor | trivial].
  - rewrite <- named_sorted,
      <- (print_rows_ok (station_providers (aggregate providers)) (List.map fst providers)).
    destruct (print_rows _ _ _) as [r rows]. reflexivity.
Qed.

Lemma all_stations_reported (providers : list (string * list station))
    (kv : string * station) :
  In kv (all_stations (aggregate providers)) -> In (snd kv) (reported providers).
Proof.
  intros Hin.
  destruct (keep_first_invariant (reported providers) []) as (_ & _ & H3 & _);
    [constructor|constructor|].
  rewrite <- all_stations_aggregate in H3.
  destruct (H3 kv Hin) as [[]|]; assumption.
Qed.

(** X12: the table is printed to its end exactly when the name of every record
    kept in [all_stations] is a text; a kept record whose name is anything
    else ([null] in a feed, say) makes the row loop raise.  When the report
    succeeds it has one row per unique station, in the sorted order, and each
    row shows the first 30 characters of the name. *)
Theorem report_succeeds_iff_names_are_text (providers : list (string * list station)) :
  (is_ok (fst (report providers)) <-> Forall named (all_stations (aggregate providers))) /\
  (Forall named (all_stations (aggregate providers)) ->
   all_stations (aggregate providers) <> [] ->
   List.map row_text (List.filter is_row (snd (report providers)))
   = List.map (fun x => match name (snd x) with
                        | JStr s => Some (String.substring 0 30 s)
                        | _ => None
                        end) (sorted_by_distance (all_stations (aggregate providers)))) /\
  Forall (fun l => forall nm, row_text l = Some nm -> (String.length nm <= 30)%nat)
    (snd (report providers)).
Proof.
  split; [apply report_ok_iff|split].
  - intros Hall Hne. unfold report. cbv zeta.
    destruct (all_stations (aggregate providers)) as [|kv d] eqn:E; [contradiction|].
    apply named_sorted in Hall.
    pose proof (print_rows_count (station_providers (aggregate providers))
                  (List.map fst providers) _ Hall) as Hcount.
    pose proof (filter_rows_print_rows (station_providers (aggregate providers))
                  (List.map fst providers) (sorted_by_distance (kv :: d))) as Hfilter.
    destruct (print_rows _ _ _) as [r rows]. cbn [snd] in *.
    rewrite !List.filter_app, filter_rows_summary, Hfilter. cbn [List.filter is_row app].
    destruct r; cbn [List.filter is_row]; now rewrite app_nil_r.
  - apply report_Forall.
    + intros l Hrow nm; destruct l; cbn [is_row row_text] in *; discriminate.
    + intros key st nm _ Hnm nm' [= <-].
      destruct (name st); cbn [row_name] in Hnm; try discriminate.
      injection Hnm as <-. apply substring_length.
Qed.

(** A beacon the feed names [null] is kept as it is, and stops the table at
    its row: the summary and the header are printed, then [TypeError]. *)
Example report_nameless_station :
  fst (report [("FFVL Beacons", [nameless_station; station_annecy])]%string) = Raise TypeError /\
  List.filter is_row (snd (report [("FFVL Beacons", [nameless_station; station_annecy])]%string))
  = [].
Proof. split; reflexivity. Qed.

(** ** Step 5: the rows printed *)

Lemma print_rows_lines (sp : gmap string (gset string)) (provider_names : list string)
    (sorted_stations : list (string * station)) :
  snd (print_rows sp provider_names sorted_stations) =
  List.map (fun x => RowLine (row_label (name (snd x))) (distance_km (snd x))
                       (row_checks sp provider_names (fst x)))
    (named_prefix sorted_stations).
Proof.
  induction sorted_stations as [|[key st] rest IH]; cbn [print_rows named_prefix snd];
    [reflexivity|].
  destruct (name st) as [| | | |s| |] eqn:E; cbn [row_name]; try reflexivity.
  destruct (print_rows sp provider_names rest) as [r ls]. cbn [snd List.map fst] in *.
  rewrite E. cbn [row_label]. now rewrite IH.
Qed.

Lemma lists_key_reports (providers : list (string * list station)) (p key : string) :
  lists_key providers p key = true <->
  exists st, reports providers p st /\ station_key st = key.
Proof.
  unfold lists_key, reports. rewrite existsb_exists. split.
  - intros ([q sts] & Hin & Hq). cbn [fst snd] in Hq.
    apply andb_true_iff in Hq as [Hp Hst].
    apply String.eqb_eq in Hp. subst q.
    apply existsb_exists in Hst as (st & Hst & Hkey).
    apply String.eqb_eq in Hkey. eauto.
  - intros (st & (sts & Hin & Hst) & Hkey). exists (p, sts). split; [assumption|].
    cbn [fst snd]. rewrite String.eqb_refl. cbn [andb].
    apply existsb_exists. exists st. split; [assumption|]. now apply String.eqb_eq.
Qed.

Lemma row_checks_lists_key (providers : list (string * list station)) (key : string) :
  row_checks (station_providers (aggregate providers)) (List.map fst providers) key
  = List.map (fun p => lists_key providers (fst p) key) providers.
Proof.
  unfold row_checks. rewrite List.map_map. apply List.map_ext. intros p.
  apply eq_true_iff_eq.
  rewrite bool_decide_eq_true, observed_by_aggregate, lists_key_reports. reflexivity.
Qed.

Lemma named_prefix_all (items : list (string * station)) :
  Forall named items -> named_prefix items = items.
Proof.
  induction 1 as [|x l [s Hs] _ IH]; cbn [named_prefix]; [reflexivity|].
  now rewrite Hs, IH.
Qed.

Lemma filter_map_swap {A B} (f : B -> bool) (g : A -> B) (l : list A) :
  List.filter f (List.map g l) = List.map g (List.filter (fun x => f (g x)) l).
Proof.
  induction l as [|x l IH]; cbn [List.map List.filter]; [reflexivity|].
  destruct (f (g x)); cbn [List.map]; now rewrite IH.
Qed.

Lemma filter_rows_at_distance (d : Q) (ls : list line) :
  List.filter (row_at_distance d) (List.filter is_row ls) = List.filter (row_at_distance d) ls.
Proof.
  induction ls as [|l ls IH]; [reflexivity|].
  destruct l; cbn [List.filter is_row row_at_distance]; try exact IH.
  destruct (Qeq_bool _ _); now rewrite IH.
Qed.

(** The station rows of the report are the rows expected of the sorted
    stations, one after the other, as far as the names are texts. *)
Lemma report_rows (providers : list (string * list station)) :
  List.filter is_row (snd (report providers))
  = List.map (expected_row providers)
      (named_prefix (sorted_by_distance (all_stations (aggregate providers)))).
Proof.
  unfold report. cbv zeta.
  destruct (all_stations (aggregate providers)) as [|kv d] eqn:E.
  - cbn [snd]. rewrite List.filter_app, filter_rows_summary. reflexivity.
  - pose proof (print_rows_lines (station_providers (aggregate providers))
                  (List.map fst providers) (sorted_by_distance (kv :: d))) as Hlines.
    pose proof (filter_rows_print_rows (station_providers (aggregate providers))
                  (List.map fst providers) (sorted_by_distance (kv :: d))) as Hfilter.
    destruct (print_rows _ _ _) as [r rows]. cbn [snd] in *.
    rewrite !List.filter_app, filter_rows_summary, Hfilter. cbn [List.filter is_row app].
    assert (Htail : List.filter is_row match r with
                                       | Ok _ => [Line ""]
                                       | Raise _ => []
                                       end = []) by now destruct r.
    rewrite Htail, app_nil_r, Hlines.
    apply List.map_ext. intros x. unfold expected_row.
    now rewrite row_checks_lists_key.
Qed.

(** C4 as amended: the station rows printed are the rows of the stations
    sorted in ascending order of [distance_km], each with the name, the
    distance and the marks of its own station, up to the first record whose
    name is no text; stations at equal distances keep the order in which they
    entered [all_stations] (first seen first), and so do their rows. *)
Theorem report_rows_sorted (providers : list (string * list station)) :
  Permutation (sorted_by_distance (all_stations (aggregate providers)))
    (all_stations (aggregate providers)) /\
  StronglySorted by_distance (sorted_by_distance (all_stations (aggregate providers))) /\
  (forall d,
      List.filter (at_distance d) (sorted_by_distance (all_stations (aggregate providers)))
      = List.filter (at_distance d) (all_stations (aggregate providers))) /\
  List.filter is_row (snd (report providers))
  = List.map (expected_row providers)
      (named_prefix (sorted_by_distance (all_stations (aggregate providers)))) /\
  (is_ok (fst (report providers)) ->
   List.filter is_row (snd (report providers))
   = List.map (expected_row providers)
       (sorted_by_distance (all_stations (aggregate providers))) /\
   forall d,
     List.filter (row_at_distance d) (snd (report providers))
     = List.map (expected_row providers)
         (List.filter (at_distance d) (all_stations (aggregate providers)))) /\
  StronglySorted Qle (row_distances (snd (report providers))).
Proof.
  destruct (sorted_by_distance_spec (all_stations (aggregate providers)))
    as (Hperm & Hsorted & Hstable).
  split; [assumption|]. split; [assumption|]. split; [assumption|].
  split; [apply report_rows|]. split.
  - intros Hok. apply report_ok_iff, named_sorted in Hok.
    assert (Hrows : List.filter is_row (snd (report providers))
                    = List.map (expected_row providers)
                        (sorted_by_distance (all_stations (aggregate providers)))).
    { now rewrite report_rows, named_prefix_all. }
    split; [exact Hrows|].
    intros d. rewrite <- filter_rows_at_distance, Hrows, filter_map_swap.
    f_equal. apply Hstable.
  - destruct (print_rows_prefix (station_providers (aggregate providers))
                (List.map fst providers)
                (sorted_by_distance (all_stations (aggregate providers)))) as (rest & Hrows).
    rewrite <- report_row_distances in Hrows.
    apply (StronglySorted_prefix _ rest). rewrite <- Hrows.
    now apply sorted_distances.
Qed.

(** ** Step 5: nothing found *)

Lemma all_stations_nothing (providers : list (string * list station)) :
  all_stations (aggregate providers) = [] -> Forall (fun p => snd p = []) providers.
Proof.
  intros E. apply List.Forall_forall. intros [p sts] Hin. cbn [snd].
  destruct sts as [|st sts]; [reflexivity|]. exfalso.
  assert (Hkey : has_key (station_key st) (all_stations (aggregate providers)) = true).
  { apply has_key_aggregate. exists p, st. split; [|reflexivity].
    exists (st :: sts). split; [assumption | now left]. }
  rewrite E in Hkey. discriminate.
Qed.

(** The line that says no station was found is printed in no other case. *)
Lemma no_stations_only_when_nothing (providers : list (string * list station)) :
  In (Line "ℹ️  No weather stations found within 50km radius.") (snd (report providers)) ->
  Forall (fun p => snd p = []) providers.
Proof.
  unfold report. cbv zeta.
  destruct (all_stations (aggregate providers)) as [|kv d] eqn:E;
    [intros _; now apply all_stations_nothing|].
  pose proof (filter_rows_print_rows (station_providers (aggregate providers))
                (List.map fst providers) (sorted_by_distance (kv :: d))) as Hfilter.
  destruct (print_rows _ _ _) as [r rows]. cbn [snd] in *.
  intros Hin. exfalso.
  apply in_app_iff in Hin as [Hin|Hin].
  { unfold summary_lines in Hin.
    apply in_app_iff in Hin as [Hin|Hin];
      [destruct Hin as [Hin|[Hin|[]]]; discriminate|].
    apply in_app_iff in Hin as [Hin|[Hin|[]]]; [|discriminate].
    apply in_map_iff in Hin as (p & Hp & _). discriminate. }
  apply in_app_iff in Hin as [Hin|Hin].
  { unfold rule80 in Hin.
    destruct Hin as [Hin|[Hin|[Hin|[Hin|[Hin|[Hin|[Hin|[]]]]]]]]; discriminate. }
  apply in_app_iff in Hin as [Hin|Hin].
  - rewrite <- Hfilter in Hin. apply filter_In in Hin as [_ Hrow]. discriminate.
  - destruct r; [destruct Hin as [Hin|[]]; discriminate | destruct Hin].
Qed.

(** C6: when every provider returned the empty list, the report succeeds and
    is the summary, with a total of 0 and a count of 0 for every provider,
    followed by the line "No weather stations found within 50km radius.";
    it holds neither a header, nor a rule, nor a station row.  That line is an
    outcome of its own: a report holds it in no other case. *)
Theorem report_nothing_found (providers : list (string * list station)) :
  Forall (fun p => snd p = []) providers ->
  report providers =
    (Ok tt,
     [Line "📊 Results Summary:"; TotalLine 0]
     ++ List.map (fun p => CountLine (fst p) 0) providers
     ++ [Line ""; Line "ℹ️  No weather stations found within 50km radius."]) /\
  forallb (fun l => negb (is_table_line l)) (snd (report providers)) = true /\
  (forall others,
      In (Line "ℹ️  No weather stations found within 50km radius.") (snd (report others)) ->
      Forall (fun p => snd p = []) others).
Proof.
  intros Hempty.
  assert (Hreport : report providers =
            (Ok tt,
             summary_lines providers (aggregate providers)
             ++ [Line "ℹ️  No weather stations found within 50km radius."])).
  { unfold report. cbv zeta. now rewrite (aggregate_nothing providers Hempty). }
  split; [|split].
  - rewrite Hreport, (aggregate_nothing providers Hempty).
    unfold summary_lines. cbn [all_stations List.length app]. do 3 f_equal.
    rewrite <- app_assoc. cbn [app]. f_equal.
    clear Hreport. induction Hempty as [|[p sts] l Hp _ IH]; [reflexivity|].
    cbn [snd] in Hp. subst sts. cbn [List.map fst snd List.length]. now rewrite IH.
  - rewrite Hreport. cbn [snd]. rewrite forallb_app, summary_lines_no_table. reflexivity.
  - apply no_stations_only_when_nothing.
Qed.

Lemma report_nothing_found_main :
  report nothing_found =
    (Ok tt,
     [Line "📊 Results Summary:"; TotalLine 0]
     ++ List.map (fun p => CountLine (fst p) 0) nothing_found
     ++ [Line ""; Line "ℹ️  No weather stations found within 50km radius."]) /\
  forallb (fun l => negb (is_table_line l)) (snd (report nothing_found)) = true /\
  (forall others,
      In (Line "ℹ️  No weather stations found within 50km radius.") (snd (report others)) ->
      Forall (fun p => snd p = []) others).
Proof.
  apply (report_nothing_found nothing_found).
  repeat constructor.
Defined.

(** ** The site lookup *)

(** What the lookup returns and leaves in the trace, case by case. *)
Lemma search_pge_site_shape (net : request -> option response)
    (float_of_str : string -> option Q) (site_name : string) :
  search_pge_site net float_of_str site_name =
  match net (pge_request site_name) with
  | None =>
      (Ok None, [Requested (pge_request site_name);
                 Printed (ErrorLine "Error searching PGE" RequestException)])
  | Some r =>
      if (status_code r =? 403)%Z then
        (Ok None, Requested (pge_request site_name) :: List.map Printed pge_forbidden_lines)
      else
        match (data <- decode r ;;
               features <- py_get data "features" JNull ;;
               if negb (truthy features) then Ok None
               else first_result <- py_index features 0 ;;
                    pge_site_of float_of_str first_result)%res with
        | Ok site_info => (Ok site_info, [Requested (pge_request site_name)])
        | Raise e =>
            (Ok None, [Requested (pge_request site_name);
                       Printed (ErrorLine "Error searching PGE" e)])
        end
  end.
Proof.
  unfold search_pge_site, search_pge_site_body, try_return, decode. run_adapter.
  destruct (net (pge_request site_name)) as [r|]; [|reflexivity].
  destruct (status_code r =? 403)%Z; [reflexivity|].
  destruct ((400 <=? status_code r) && (status_code r <? 600))%Z; [reflexivity|].
  destruct (body r) as [data|]; [|reflexivity].
  cbn [rbind].
  destruct (py_get data "features" JNull) as [features|e]; [|reflexivity].
  cbn [rbind].
  destruct (negb (truthy features)); [reflexivity|].
  destruct (py_index features 0) as [first_result|e]; [|reflexivity].
  cbn [rbind].
  destruct (pge_site_of float_of_str first_result) as [site_info|e]; reflexivity.
Qed.

Lemma search_pge_site_ok (net : request -> option response)
    (float_of_str : string -> option Q) (site_name : string) :
  exists site_info, fst (search_pge_site net float_of_str site_name) = Ok site_info.
Proof.
  rewrite search_pge_site_shape.
  destruct (net _) as [r|]; [|eauto].
  destruct (status_code r =? 403)%Z; [eauto|].
  destruct (rbind (decode r) _); eauto.
Qed.

Lemma search_pge_site_requests (net : request -> option response)
    (float_of_str : string -> option Q) (site_name : string) :
  requests_of (snd (search_pge_site net float_of_str site_name)) = [pge_request site_name].
Proof.
  rewrite search_pge_site_shape.
  destruct (net _) as [r|]; [|reflexivity].
  destruct (status_code r =? 403)%Z; [reflexivity|].
  destruct (rbind (decode r) _); reflexivity.
Qed.

(** X13: [search_pge_site] raises nothing, whatever the network does: it sends
    one request, the search for the given name; when it finds a site it prints
    nothing; and a 403 answer yields [None] with the three lines of advice and
    no error line. *)
Theorem search_pge_site_contains_failures (net : request -> option response)
    (float_of_str : string -> option Q) (site_name : string) :
  (exists site_info, fst (search_pge_site net float_of_str site_name) = Ok site_info) /\
  requests_of (snd (search_pge_site net float_of_str site_name)) = [pge_request site_name] /\
  (forall site, fst (search_pge_site net float_of_str site_name) = Ok (Some site) ->
                lines_of (snd (search_pge_site net float_of_str site_name)) = []) /\
  (forall r, net (pge_request site_name) = Some r -> status_code r = 403%Z ->
             search_pge_site net float_of_str site_name
             = (Ok None, Requested (pge_request site_name)
                         :: List.map Printed pge_forbidden_lines)).
Proof.
  split; [apply search_pge_site_ok|]. split; [apply search_pge_site_requests|].
  rewrite search_pge_site_shape. split.
  - intros site. destruct (net _) as [r|]; [|discriminate].
    destruct (status_code r =? 403)%Z; [discriminate|].
    destruct (rbind (decode r) _); [reflexivity|discriminate].
  - intros r -> ->. reflexivity.
Qed.

(** X14: of the sites the service lists only the first is read: two answers
    with the same status whose [features] lists start with the same record
    give the same result, whatever follows in the lists. *)
Theorem search_pge_site_reads_first_feature (net net' : request -> option response)
    (float_of_str : string -> option Q) (site_name : string) (status : Z)
    (first : json) (others others' : list json) (fields fields' : list (string * json)) :
  net (pge_request site_name) = Some {| status_code := status; body := Some (JObj fields) |} ->
  net' (pge_request site_name) = Some {| status_code := status; body := Some (JObj fields') |} ->
  assoc "features" fields = Some (JArr (first :: others)) ->
  assoc "features" fields' = Some (JArr (first :: others')) ->
  search_pge_site net float_of_str site_name = search_pge_site net' float_of_str site_name.
Proof.
  intros Hnet Hnet' Hf Hf'.
  rewrite !search_pge_site_shape, Hnet, Hnet'. cbn [status_code].
  destruct (status =? 403)%Z; [reflexivity|].
  unfold decode. cbn [status_code body].
  destruct ((400 <=? status) && (status <? 600))%Z; [reflexivity|].
  cbn [rbind py_get]. rewrite Hf, Hf'. reflexivity.
Qed.

Lemma search_pge_site_annecy :
  search_pge_site (site_network 200 [site_annecy; site_other]) literal_float "Annecy"
  = (Ok (Some (JStr "Annecy - Planfait", 459 # 10, 69 # 10)), [Requested (pge_request "Annecy")]).
Proof. rewrite search_pge_site_shape. reflexivity. Qed.

Lemma search_pge_site_reads_first_feature_annecy :
  search_pge_site (site_network 200 [site_annecy; site_other]) literal_float "Annecy"
  = search_pge_site (site_network 200 [site_annecy]) literal_float "Annecy".
Proof.
  apply (search_pge_site_reads_first_feature
           (site_network 200 [site_annecy; site_other]) (site_network 200 [site_annecy])
           literal_float "Annecy" 200 site_annecy [site_other] []
           [("features", JArr [site_annecy; site_other])]%string
           [("features", JArr [site_annecy])]%string); reflexivity.
Defined.

(** ** The main script from its arguments *)

Lemma requests_of_printed (ls : list line) : requests_of (List.map Printed ls) = [].
Proof. induction ls; [reflexivity|assumption]. Qed.

Lemma lines_of_printed (ls : list line) : lines_of (List.map Printed ls) = ls.
Proof. induction ls as [|l ls IH]; [reflexivity|]. simpl. now rewrite IH. Qed.

Section MainTrace.

Variable net : request -> option response.
Variable float_of_str : string -> option Q.
Variable py_str : json -> string.
Variables tlat tlon : Q.

(** The trace of step 2 onwards: the adapters in the order of the dict
    literal, then the report. *)
Lemma main_from_trace :
  exists ffvl pioupiou awc_metar nws,
    fst (query_ffvl net float_of_str tlat tlon SEARCH_RADIUS_KM) = Ok ffvl /\
    fst (query_pioupiou net py_str tlat tlon SEARCH_RADIUS_KM) = Ok pioupiou /\
    fst (query_awc_metar net py_str tlat tlon SEARCH_RADIUS_KM) = Ok awc_metar /\
    fst (query_nws net tlat tlon SEARCH_RADIUS_KM) = Ok nws /\
    main_from net float_of_str py_str tlat tlon =
    (fst (report [("FFVL Beacons", ffvl); ("Pioupiou", pioupiou); ("AWC METAR", awc_metar);
                  ("NWS", nws); ("BOM", [])]%string),
     [Printed (Line "🌐 Querying weather station providers..."); Printed (Line "")]
     ++ snd (query_ffvl net float_of_str tlat tlon SEARCH_RADIUS_KM)
     ++ snd (query_pioupiou net py_str tlat tlon SEARCH_RADIUS_KM)
     ++ snd (query_awc_metar net py_str tlat tlon SEARCH_RADIUS_KM)
     ++ snd (query_nws net tlat tlon SEARCH_RADIUS_KM)
     ++ snd (query_bom tlat tlon SEARCH_RADIUS_KM)
     ++ List.map Printed
          (snd (report [("FFVL Beacons", ffvl); ("Pioupiou", pioupiou);
                        ("AWC METAR", awc_metar); ("NWS", nws); ("BOM", [])]%string))).
Proof.
  destruct (failure_contained_ok _ _ _ _ _
              (query_ffvl_contained net float_of_str tlat tlon SEARCH_RADIUS_KM)) as (ffvl & Hf).
  destruct (failure_contained_ok _ _ _ _ _
              (query_pioupiou_contained net py_str tlat tlon SEARCH_RADIUS_KM)) as (piou & Hp).
  destruct (query_awc_metar_ok net py_str tlat tlon SEARCH_RADIUS_KM) as (awc & Ha).
  destruct (query_nws_ok net tlat tlon SEARCH_RADIUS_KM) as (nws & Hn).
  exists ffvl, piou, awc, nws.
  unfold main_from, call_provider.
  rewrite query_bom_shape.
  destruct (query_ffvl net float_of_str tlat tlon SEARCH_RADIUS_KM) as [r1 t1].
  destruct (query_pioupiou net py_str tlat tlon SEARCH_RADIUS_KM) as [r2 t2].
  destruct (query_awc_metar net py_str tlat tlon SEARCH_RADIUS_KM) as [r3 t3].
  destruct (query_nws net tlat tlon SEARCH_RADIUS_KM) as [r4 t4].
  cbn [fst snd] in *. subst r1 r2 r3 r4.
  repeat split.
  destruct (report _) as [r ls]. cbn [fst snd]. reflexivity.
Qed.

Lemma main_from_requests :
  requests_of (snd (main_from net float_of_str py_str tlat tlon)) =
  requests_of (snd (query_ffvl net float_of_str tlat tlon SEARCH_RADIUS_KM))
  ++ requests_of (snd (query_pioupiou net py_str tlat tlon SEARCH_RADIUS_KM))
  ++ requests_of (snd (query_awc_metar net py_str tlat tlon SEARCH_RADIUS_KM))
  ++ requests_of (snd (query_nws net tlat tlon SEARCH_RADIUS_KM)).
Proof.
  destruct main_from_trace as (ffvl & piou & awc & nws & _ & _ & _ & _ & ->).
  cbn [snd]. rewrite !requests_of_app, requests_of_printed.
  destruct (query_bom_trace tlat tlon SEARCH_RADIUS_KM) as [-> _].
  cbn [requests_of app]. now rewrite !app_nil_r.
Qed.

Lemma main_from_request_count :
  (2 <= List.length (requests_of (snd (main_from net float_of_str py_str tlat tlon))) <= 5)%nat.
Proof.
  rewrite main_from_requests, !length_app.
  rewrite query_ffvl_requests, query_pioupiou_requests, query_awc_metar_requests.
  assert (List.length (requests_of (snd (query_nws net tlat tlon SEARCH_RADIUS_KM))) <= 2)%nat.
  { destruct (query_nws_requests net tlat tlon SEARCH_RADIUS_KM) as [->|[->|(u & _ & ->)]];
      simpl; lia. }
  destruct (bounding_box tlat tlon SEARCH_RADIUS_KM); simpl; lia.
Qed.

Lemma main_from_no_site_request (site_name : string) :
  Forall (fun req => req <> pge_request site_name)
    (requests_of (snd (main_from net float_of_str py_str tlat tlon))).
Proof.
  rewrite main_from_requests.
  rewrite query_ffvl_requests, query_pioupiou_requests, query_awc_metar_requests.
  assert (Hnws : Forall (fun req => req <> pge_request site_name)
                   (requests_of (snd (query_nws net tlat tlon SEARCH_RADIUS_KM)))).
  { destruct (query_nws_requests net tlat tlon SEARCH_RADIUS_KM) as [->|[->|(u & _ & ->)]];
      repeat apply List.Forall_cons; try apply List.Forall_nil; discriminate. }
  destruct (bounding_box tlat tlon SEARCH_RADIUS_KM); cbn [app];
    repeat apply List.Forall_cons; try assumption; discriminate.
Qed.

End MainTrace.

(** X15: step 2 onwards: the five adapters run in the order of the dict
    literal, each with the radius of 50 km, and the report is printed after
    the last of them; between two and five requests are sent, the first to
    FFVL, and none once the summary has begun. *)
Theorem main_from_queries_then_reports (net : request -> option response)
    (float_of_str : string -> option Q) (py_str : json -> string) (tlat tlon : Q) :
  (exists ffvl pioupiou awc_metar nws,
      fst (query_ffvl net float_of_str tlat tlon SEARCH_RADIUS_KM) = Ok ffvl /\
      fst (query_pioupiou net py_str tlat tlon SEARCH_RADIUS_KM) = Ok pioupiou /\
      fst (query_awc_metar net py_str tlat tlon SEARCH_RADIUS_KM) = Ok awc_metar /\
      fst (query_nws net tlat tlon SEARCH_RADIUS_KM) = Ok nws /\
      main_from net float_of_str py_str tlat tlon =
      (fst (report [("FFVL Beacons", ffvl); ("Pioupiou", pioupiou); ("AWC METAR", awc_metar);
                    ("NWS", nws); ("BOM", [])]%string),
       [Printed (Line "🌐 Querying weather station providers..."); Printed (Line "")]
       ++ snd (query_ffvl net float_of_str tlat tlon SEARCH_RADIUS_KM)
       ++ snd (query_pioupiou net py_str tlat tlon SEARCH_RADIUS_KM)
       ++ snd (query_awc_metar net py_str tlat tlon SEARCH_RADIUS_KM)
       ++ snd (query_nws net tlat tlon SEARCH_RADIUS_KM)
       ++ snd (query_bom tlat tlon SEARCH_RADIUS_KM)
       ++ List.map Printed
            (snd (report [("FFVL Beacons", ffvl); ("Pioupiou", pioupiou);
                          ("AWC METAR", awc_metar); ("NWS", nws); ("BOM", [])]%string)))) /\
  (2 <= List.length (requests_of (snd (main_from net float_of_str py_str tlat tlon))) <= 5)%nat /\
  (exists rest, requests_of (snd (main_from net float_of_str py_str tlat tlon))
                = ffvl_request :: pioupiou_request :: rest).
Proof.
  split; [apply main_from_trace|]. split; [apply main_from_request_count|].
  rewrite main_from_requests, query_ffvl_requests, query_pioupiou_requests.
  cbn [app]. eauto.
Qed.

Section MainArguments.

Variable net : request -> option response.
Variable float_of_str : string -> option Q.
Variable py_str : json -> string.

Lemma main_continue_requests (intro : list event) (lat lon : Q) :
  requests_of (snd (main_continue net float_of_str py_str intro lat lon))
  = requests_of intro ++ requests_of (snd (main_from net float_of_str py_str lat lon)).
Proof.
  unfold main_continue. destruct (main_from _ _ _ _ _) as [r t]. cbn [snd].
  apply requests_of_app.
Qed.

Lemma main_continue_outcome (intro : list event) (lat lon : Q) :
  fst (main_continue net float_of_str py_str intro lat lon)
  = outcome_of (fst (main_from net float_of_str py_str lat lon)).
Proof. unfold main_continue. now destruct (main_from _ _ _ _ _) as [r t]. Qed.

Lemma coordinates_of_raises (arg : string) (e : exn) :
  coordinates_of float_of_str arg = Raise e -> e = ValueError.
Proof.
  unfold coordinates_of.
  destruct (split_on "," arg) as [|a [|b [|c l]]]; try now intros [= <-].
  cbn [py_float rbind].
  destruct (float_of_str a); cbn [rbind]; [|now intros [= <-]].
  destruct (float_of_str b); cbn [rbind]; [discriminate | now intros [= <-]].
Qed.

End MainArguments.

(** X16: the script exits with status 1, and sends no request at all, when it
    is given no argument, and when its first argument holds a comma without
    being two numbers separated by one comma. *)
Theorem main_rejects_before_any_request (net : request -> option response)
    (float_of_str : string -> option Q) (py_str : json -> string) (argv : list string) :
  (List.length argv < 2)%nat \/
  (exists arg, List.nth_error argv 1 = Some arg /\ contains "," arg = true /\
               ~ is_ok (coordinates_of float_of_str arg)) ->
  fst (main net float_of_str py_str argv) = Exited 1 /\
  requests_of (snd (main net float_of_str py_str argv)) = [].
Proof.
  intros [Hlen|(arg & Harg & Hcomma & Hbad)].
  - destruct argv as [|prog [|arg rest]]; [split; reflexivity..|simpl in Hlen; lia].
  - destruct argv as [|prog [|arg' rest]]; try discriminate.
    injection Harg as ->. cbn [main]. rewrite Hcomma.
    destruct (coordinates_of float_of_str arg) as [[lat lon]|e] eqn:E; [now destruct Hbad|].
    apply coordinates_of_raises in E as ->. cbn [caught_as_invalid fst snd].
    split; [reflexivity | apply requests_of_printed].
Qed.

Lemma main_rejects_before_any_request_three_numbers :
  fst (main (site_network 200 [site_annecy]) literal_float literal_str
         ["check_weather_stations.py"; "45.9,6.9,1200"]%string) = Exited 1 /\
  requests_of (snd (main (site_network 200 [site_annecy]) literal_float literal_str
                      ["check_weather_stations.py"; "45.9,6.9,1200"]%string)) = [].
Proof.
  apply (main_rejects_before_any_request (site_network 200 [site_annecy]) literal_float
           literal_str ["check_weather_stations.py"; "45.9,6.9,1200"]%string).
  right. exists "45.9,6.9,1200"%string.
  split; [reflexivity|]. split; [reflexivity|]. intros H. exact H.
Defined.

(** X17: given coordinates, the script does not ask the site service: it ends
    as step 2 onwards ends at the coordinates read from the argument, and the
    requests it sends are those of the five adapters there. *)
Theorem main_with_coordinates (net : request -> option response)
    (float_of_str : string -> option Q) (py_str : json -> string)
    (prog arg : string) (rest : list string) (lat lon : Q) :
  contains "," arg = true ->
  coordinates_of float_of_str arg = Ok (lat, lon) ->
  fst (main net float_of_str py_str (prog :: arg :: rest))
  = outcome_of (fst (main_from net float_of_str py_str lat lon)) /\
  requests_of (snd (main net float_of_str py_str (prog :: arg :: rest)))
  = requests_of (snd (main_from net float_of_str py_str lat lon)) /\
  Forall (fun req => req <> pge_request arg)
    (requests_of (snd (main net float_of_str py_str (prog :: arg :: rest)))).
Proof.
  intros Hcomma Hcoord.
  assert (Hreq : requests_of (snd (main net float_of_str py_str (prog :: arg :: rest)))
                 = requests_of (snd (main_from net float_of_str py_str lat lon))).
  { cbn [main]. rewrite Hcomma, Hcoord.
    now rewrite main_continue_requests, requests_of_printed. }
  split; [|split; [exact Hreq|]].
  - cbn [main]. rewrite Hcomma, Hcoord. apply main_continue_outcome.
  - rewrite Hreq. apply main_from_no_site_request.
Qed.

Lemma main_with_coordinates_annecy :
  fst (main (site_network 200 [site_annecy]) literal_float literal_str
         ["check_weather_stations.py"; "45.9,6.9"; "Annecy"]%string)
  = outcome_of (fst (main_from (site_network 200 [site_annecy]) literal_float literal_str
                       (459 # 10) (69 # 10))) /\
  requests_of (snd (main (site_network 200 [site_annecy]) literal_float literal_str
                      ["check_weather_stations.py"; "45.9,6.9"; "Annecy"]%string))
  = requests_of (snd (main_from (site_network 200 [site_annecy]) literal_float literal_str
                        (459 # 10) (69 # 10))) /\
  Forall (fun req => req <> pge_request "45.9,6.9")
    (requests_of (snd (main (site_network 200 [site_annecy]) literal_float literal_str
                         ["check_weather_stations.py"; "45.9,6.9"; "Annecy"]%string))).
Proof.
  apply (main_with_coordinates (site_network 200 [site_annecy]) literal_float literal_str
           "check_weather_stations.py" "45.9,6.9" ["Annecy"%string] (459 # 10) (69 # 10));
    reflexivity.
Defined.

(** X18: given a site name, the search is the first request; when a site is
    found the adapters follow at its coordinates, and when none is found (the
    service refuses, fails or knows no such site) the script exits with
    status 1 having sent that one request. *)
Theorem main_with_site_name (net : request -> option response)
    (float_of_str : string -> option Q) (py_str : json -> string)
    (prog arg : string) (rest : list string) :
  contains "," arg = false ->
  match fst (search_pge_site net float_of_str arg) with
  | Ok (Some (name, lat, lon)) =>
      fst (main net float_of_str py_str (prog :: arg :: rest))
      = outcome_of (fst (main_from net float_of_str py_str lat lon)) /\
      requests_of (snd (main net float_of_str py_str (prog :: arg :: rest)))
      = pge_request arg :: requests_of (snd (main_from net float_of_str py_str lat lon))
  | Ok None =>
      fst (main net float_of_str py_str (prog :: arg :: rest)) = Exited 1 /\
      requests_of (snd (main net float_of_str py_str (prog :: arg :: rest)))
      = [pge_request arg]
  | Raise _ => False
  end.
Proof.
  intros Hcomma. cbn [main]. rewrite Hcomma. cbv zeta.
  pose proof (search_pge_site_requests net float_of_str arg) as Hreq.
  destruct (search_pge_site_ok net float_of_str arg) as (site_info & Hok).
  destruct (search_pge_site net float_of_str arg) as [r t]. cbn [fst snd] in *. subst r.
  destruct site_info as [[[name lat] lon]|].
  - rewrite main_continue_outcome, main_continue_requests.
    rewrite !requests_of_app, !requests_of_printed, Hreq. split; reflexivity.
  - cbn [fst snd].
    rewrite !requests_of_app, !requests_of_printed, Hreq. split; reflexivity.
Qed.

Lemma main_with_site_name_annecy :
  match fst (search_pge_site (site_network 200 [site_annecy]) literal_float "Annecy") with
  | Ok (Some (name, lat, lon)) =>
      fst (main (site_network 200 [site_annecy]) literal_float literal_str
             ["check_weather_stations.py"; "Annecy"]%string)
      = outcome_of (fst (main_from (site_network 200 [site_annecy]) literal_float literal_str
                           lat lon)) /\
      requests_of (snd (main (site_network 200 [site_annecy]) literal_float literal_str
                          ["check_weather_stations.py"; "Annecy"]%string))
      = pge_request "Annecy"
        :: requests_of (snd (main_from (site_network 200 [site_annecy]) literal_float
                               literal_str lat lon))
  | Ok None =>
      fst (main (site_network 200 [site_annecy]) literal_float literal_str
             ["check_weather_stations.py"; "Annecy"]%string) = Exited 1 /\
      requests_of (snd (main (site_network 200 [site_annecy]) literal_float literal_str
                          ["check_weather_stations.py"; "Annecy"]%string))
      = [pge_request "Annecy"]
  | Raise _ => False
  end.
Proof.
  apply (main_with_site_name (site_network 200 [site_annecy]) literal_float literal_str
           "check_weather_stations.py" "Annecy" []).
  reflexivity.
Defined.

(** ** The two geographic checks *)

Lemma bom_covers_iff (lat lon : Q) :
  bom_covers lat lon = true <-> in_envelope lat lon 113 154 (-44) (-10).
Proof. apply envelope_check. Qed.

(** X19: the check of [query_nws] and the check of [query_bom] accept no
    common target: where the BOM note is printed [query_nws] sends nothing,
    and where [query_nws] goes to the network [query_bom] prints nothing. *)
Theorem nws_and_bom_checks_disjoint (net : request -> option response)
    (lat lon radius_km : Q) :
  nws_covers lat lon && bom_covers lat lon = false /\
  (bom_covers lat lon = true ->
   query_nws net lat lon radius_km = (Ok [], []) /\
   query_bom lat lon radius_km = (Ok [], [Printed bom_note])) /\
  (nws_covers lat lon = true -> query_bom lat lon radius_km = (Ok [], [])).
Proof.
  assert (Hdis : nws_covers lat lon && bom_covers lat lon = false).
  { destruct (nws_covers lat lon) eqn:Hn; [|reflexivity].
    destruct (bom_covers lat lon) eqn:Hb; [|reflexivity].
    exfalso. apply nws_covers_iff in Hn. apply bom_covers_iff in Hb.
    unfold in_envelope in *. destruct Hb as (B1 & B2 & B3 & B4).
    destruct Hn as [(N1 & N2 & _)|[(N1 & N2 & _)|(N1 & N2 & _)]]; lra. }
  split; [exact Hdis|]. split.
  - intros Hb. rewrite Hb, andb_true_r in Hdis. split.
    + now apply query_nws_not_covered.
    + rewrite query_bom_shape, Hb. reflexivity.
  - intros Hn. rewrite Hn in Hdis. cbn [andb] in Hdis.
    rewrite query_bom_shape, Hdis. reflexivity.
Qed.

(** ** Names and the table *)

Lemma awc_station_named (py_str : json -> string) (tlat tlon radius_km : Q)
    (record : json) (st : station) :
  awc_station py_str tlat tlon radius_km record = Ok (Some st) -> text_named st.
Proof.
  unfold awc_station, admit_station, text_named. cbv zeta. intros H.
  destruct (py_get record "lat" JNull) as [la|]; cbn [rbind] in H; [|discriminate].
  destruct (py_get record "lon" JNull) as [lo|]; cbn [rbind] in H; [|discriminate].
  destruct (is_none la || is_none lo); [discriminate|].
  destruct (as_real la) as [a|]; cbn [rbind] in H; [|discriminate].
  destruct (as_real lo) as [b|]; cbn [rbind] in H; [|discriminate].
  destruct (Rle_dec _ _); [|discriminate].
  destruct (py_get record "name" (JStr "Unknown")) as [nm|]; cbn [rbind] in H; [|discriminate].
  destruct (py_get record "icaoId" (JStr "N/A")) as [icao|]; cbn [rbind] in H; [|discriminate].
  injection H as <-. cbn [name]. eauto.
Qed.

Lemma query_awc_metar_named (net : request -> option response) (py_str : json -> string)
    (tlat tlon radius_km : Q) (l : list station) :
  fst (query_awc_metar net py_str tlat tlon radius_km) = Ok l -> Forall text_named l.
Proof.
  rewrite query_awc_metar_shape. intros H.
  destruct (bounding_box tlat tlon radius_km) as [bbox|e];
    [|eapply failed_Forall; exact H].
  destruct (fetch net (awc_request bbox)) as [data|e]; [|eapply failed_Forall; exact H].
  destruct (py_iter data) as [items|e]; [|eapply failed_Forall; exact H].
  eapply looped_Forall; [|exact H].
  intros x st. apply awc_station_named.
Qed.

Lemma report_ok_named (providers : list (string * list station)) :
  Forall text_named (reported providers) -> is_ok (fst (report providers)).
Proof.
  intros Hall. apply report_ok_iff.
  apply Forall_forall. intros kv Hin. apply list_elem_of_In in Hin.
  rewrite Forall_forall in Hall. apply Hall.
  apply list_elem_of_In. now apply all_stations_reported.
Qed.

(** X20: the name [query_awc_metar] gives a station is always a text (the
    name and the ICAO code put together), so the stations it returns never
    stop the table: a report of them, beside providers that found nothing or
    whose stations have text names as well, is printed to its end. *)
Theorem awc_stations_never_stop_the_table (net : request -> option response)
    (py_str : json -> string) (tlat tlon radius_km : Q) (l : list station)
    (before after : list (string * list station)) :
  fst (query_awc_metar net py_str tlat tlon radius_km) = Ok l ->
  Forall text_named (reported before) -> Forall text_named (reported after) ->
  Forall text_named l /\
  is_ok (fst (report (before ++ ("AWC METAR"%string, l) :: after))).
Proof.
  intros Hl Hb Ha.
  pose proof (query_awc_metar_named net py_str tlat tlon radius_km l Hl) as Hnamed.
  split; [assumption|].
  apply report_ok_named. unfold reported in *.
  rewrite flat_map_app. cbn [flat_map snd].
  apply Forall_app. split; [assumption|]. apply Forall_app. now split.
Qed.

Lemma query_awc_metar_annecy :
  fst (query_awc_metar (metar_network [metar_annecy]) literal_str (459 # 10) (69 # 10) 50)
  = Ok [station_metar_annecy].
Proof.
  rewrite query_awc_metar_shape, bounding_box_annecy.
  match goal with
  | |- context [fetch ?n ?r] => change (fetch n r) with (Ok (A := json) (JArr [metar_annecy]))
  end.
  cbn [py_iter]. unfold looped. cbn [collect fst].
  now rewrite awc_station_annecy.
Qed.

Lemma awc_stations_never_stop_the_table_annecy :
  Forall text_named [station_metar_annecy] /\
  is_ok (fst (report ([("FFVL Beacons"%string, [station_annecy]); ("Pioupiou"%string, [])]
                      ++ ("AWC METAR"%string, [station_metar_annecy])
                         :: [("NWS"%string, []); ("BOM"%string, [])]))).
Proof.
  apply (awc_stations_never_stop_the_table (metar_network [metar_annecy]) literal_str
           (459 # 10) (69 # 10) 50 [station_metar_annecy]
           [("FFVL Beacons"%string, [station_annecy]); ("Pioupiou"%string, [])]
           [("NWS"%string, []); ("BOM"%string, [])]).
  - exact query_awc_metar_annecy.
  - repeat constructor. now exists "Col de la Forclaz"%string.
  - constructor.
Defined.
